(** * Bedrock agentic builder: lifecycle API and build workflow

    A shallow embedding of the two programs that decide how a build is
    started, listed, cancelled and driven through its stages:

    - [Api]: the Python handler inlined in [cdk/lib/api-gateway-stack.ts]
      ([start_build], [get_build_status], [list_builds], [cancel_build]),
      over a DynamoDB table modelled as a finite map and the Step Functions
      control calls modelled as logged effects with an outcome supplied by
      the environment;
    - [Workflow]: the state machine assembled in
      [cdk/lib/step-functions-stack.ts] (the chain Scout, Architect,
      PrepareParallelBuilders, ParallelBuilders, Tester, TestsPassed?), as an
      interpreter over the states the stack declares; the
      [ParallelBuilders] map state runs its iterations in turns chosen by
      the environment, at most [maxConcurrency] in flight. *)

From Stdlib Require Import ZArith Ascii String.
From stdpp Require Import base option list gmap strings fin_maps sorting.

Local Open Scope Z_scope.
Local Open Scope string_scope.

(** ** JSON values

    Request bodies, DynamoDB attributes and Lambda payloads are JSON
    documents.  Numbers are the integers, of any size: status codes,
    iteration counters and limits.  A number written with a fraction or an
    exponent, which Python reads as a float and the table's client refuses
    to store, is not represented; statements over [jvalue] are statements
    about documents whose numbers are integers. *)

Local Unset Elimination Schemes.
Inductive jvalue : Type :=
  | JNull
  | JBool (b : bool)
  | JNum (n : Z)
  | JStr (s : string)
  | JArr (items : list jvalue)
  | JObj (fields : list (string * jvalue)).
Local Set Elimination Schemes.

(** Python truthiness, as used by [if not task] and [if status_filter]. *)
Definition truthy (v : jvalue) : bool :=
  match v with
  | JNull => false
  | JBool b => b
  | JNum n => negb (n =? 0)%Z
  | JStr s => negb (String.eqb s "")
  | JArr items => match items with [] => false | _ => true end
  | JObj fields => match fields with [] => false | _ => true end
  end.

(** [d.get(k, dflt)] on a dict. *)
Definition dict_get (d : gmap string jvalue) (k : string) (dflt : jvalue) : jvalue :=
  default dflt (d !! k).

(** ** The lifecycle API handler *)

Module Api.

(** A DynamoDB item: attribute name to attribute value. *)
Abbreviation Item := (gmap string jvalue).

(** The build-state table, partition key [build_id]. *)
Abbreviation Table := (gmap string Item).

(** An attribute named in an update expression: through a placeholder of
    [ExpressionAttributeNames] ([#status]) or by its bare name. *)
Inductive AttrRef : Type :=
  | Aliased (name : string)
  | Bare (name : string).

(** Calls that leave the handler, in the order they are made.  A call
    the table has accepted is [PutItem] or [UpdateItem]; an update the
    table has refused is [UpdateItemRefused], with the attributes its
    expression names. *)
Inductive Call : Type :=
  | PutItem (item : Item)
  | UpdateItem (key : string) (sets : list (string * jvalue))
  | UpdateItemRefused (key : string) (expression : list AttrRef)
  | StartExecution (name : string) (input : list (string * jvalue))
  | StopExecution (executionArn error cause : string).

Record World : Type := mkWorld {
  table : Table;
  calls : list Call
}.

(** Response bodies, one constructor per dict literal passed to
    [json.dumps]. *)
Inductive Body : Type :=
  | BError (error : string)
  | BErrorMessage (error message : string)
  | BStarted (build_id execution_arn status message : string)
  | BStartFailed (build_id status error : string)
  | BItem (item : Item)
  | BBuilds (builds : list Item) (count : nat)
  | BCancelled (build_id status message : string).

Record Response : Type := mkResponse {
  statusCode : Z;
  body : Body
}.

(** Does the body carry an ['error'] key? *)
Definition has_error (b : Body) : bool :=
  match b with
  | BError _ | BErrorMessage _ _ | BStartFailed _ _ _ => true
  | _ => false
  end.

(** The [build_id] key of a body, when it has one. *)
Definition body_build_id (b : Body) : option string :=
  match b with
  | BStarted id _ _ _ | BStartFailed id _ _ | BCancelled id _ _ => Some id
  | BItem item => match item !! "build_id" with Some (JStr id) => Some id | _ => None end
  | _ => None
  end.

(** *** Table operations *)

(** A key the table accepts: a partition key is a string that is not
    empty and has at most 2048 bytes.  A read or a write under another
    key is refused with a validation error. *)
Definition valid_key (key : string) : bool :=
  negb (String.eqb key "") && (String.length key <=? 2048)%nat.

(** A value the table stores: a number has at most 38 digits (the client
    refuses a longer one before anything is sent).  Numbers are the
    integers here; the limits on the size and on the depth of an item are
    not part of the model. *)
Fixpoint storable (v : jvalue) : bool :=
  match v with
  | JNum n => (Z.abs n <? 10 ^ 38)%Z
  | JArr items => forallb storable items
  | JObj fields => forallb (fun kv => storable kv.2) fields
  | _ => true
  end.

Definition put_item (item : Item) (key : string) (w : World) : World :=
  {| table := <[key := item]> (table w);
     calls := calls w ++ [PutItem item] |}.

(** [table.put_item(Item={...})]: [None] when the call raises, with
    nothing written. *)
Definition try_put_item (fields : list (string * jvalue)) (key : string) (w : World)
    : option World :=
  if valid_key key && forallb (fun kv => storable kv.2) fields
  then Some (put_item (list_to_map fields) key w)
  else None.

(** DynamoDB's reserved words, as far as the attribute names of the
    handler's expressions go: of [status], [error] and [updated_at], the
    first two are on the list. *)
Definition reserved_word (name : string) : bool :=
  String.eqb name "status" || String.eqb name "error".

(** An update expression is refused (validation error: attribute name is
    a reserved keyword) when it names a reserved word bare. *)
Definition expression_ok (expression : list AttrRef) : bool :=
  forallb (fun a => match a with
                    | Aliased _ => true
                    | Bare name => negb (reserved_word name)
                    end) expression.

Definition attr_name (a : AttrRef) : string :=
  match a with Aliased name | Bare name => name end.

Definition apply_sets (sets : list (string * jvalue)) (item : Item) : Item :=
  foldl (fun it kv => <[kv.1 := kv.2]> it) item sets.

(** [update_item] with a [SET] expression.  DynamoDB creates the item when
    the key is absent. *)
Definition update_item (key : string) (sets : list (string * jvalue)) (w : World) : World :=
  let old := default {[ "build_id" := JStr key ]} (table w !! key) in
  {| table := <[key := apply_sets sets old]> (table w);
     calls := calls w ++ [UpdateItem key sets] |}.

(** [table.update_item(Key=..., UpdateExpression='SET ...', ...)] as the
    handler writes it: [None] when the call raises, with nothing
    written. *)
Definition try_update_item (key : string) (sets : list (AttrRef * jvalue)) (w : World)
    : option World :=
  if expression_ok sets.*1
  then Some (update_item key ((fun s => (attr_name s.1, s.2)) <$> sets) w)
  else None.

Definition update_item_refused (key : string) (sets : list (AttrRef * jvalue))
    (w : World) : World :=
  {| table := table w; calls := calls w ++ [UpdateItemRefused key sets.*1] |}.

(** [table.get_item(Key={'build_id': key})] for a key the table accepts
    (see [valid_key]; the entry point [Handler] has the other case). *)
Definition get_item (key : string) (w : World) : option Item := table w !! key.

(** *** start_build *)

(** What [sfn.start_execution] does: it returns an execution ARN or
    raises. *)
Inductive StartOutcome : Type :=
  | StartOk (executionArn : string)
  | StartRaises (e : string).

Inductive Result : Type :=
  | Return (r : Response) (w : World)
  | Raise (e : string) (w : World).

(** [body] is what [json.loads] returned: [None] when it raised (the
    request has no body, or one that is not JSON) or when the document is
    not an object (then [body.get] raises).  [build_id] is the [uuid4()]
    drawn, [timestamp] the value of [datetime.utcnow().isoformat()].
    An exception of [put_item], or of [update_item] in the [except]
    block, leaves the function. *)
Definition start_build (body : option (gmap string jvalue))
    (build_id timestamp : string) (start : StartOutcome) (w : World) : Result :=
  match body with
  | None => Raise "body is not a JSON object" w
  | Some body =>
    let task := dict_get body "task" JNull in
    let mode := dict_get body "mode" (JStr "new_project") in
    let max_iterations := dict_get body "max_iterations" (JNum 3) in
    if negb (truthy task) then
      Return {| statusCode := 400; body := BError "task is required" |} w
    else
      match try_put_item
              [("build_id", JStr build_id); ("task", task); ("mode", mode);
               ("status", JStr "initiated"); ("current_iteration", JNum 0);
               ("max_iterations", max_iterations);
               ("created_at", JStr timestamp); ("updated_at", JStr timestamp)]
              build_id w with
      | None => Raise "put_item: the item is refused" w
      | Some w1 =>
        let execution_input :=
          [("build_id", JStr build_id); ("task", task); ("mode", mode);
           ("max_iterations", max_iterations)] in
        let w2 := {| table := table w1;
                     calls := calls w1 ++ [StartExecution build_id execution_input] |} in
        match start with
        | StartOk arn =>
            Return {| statusCode := 202;
                      body := BStarted build_id arn "initiated"
                                "Build started with parallel execution" |} w2
        | StartRaises e =>
            let error_msg := "Error starting Step Functions execution: " ++ e in
            let sets := [(Aliased "status", JStr "failed");
                         (Bare "error", JStr error_msg)] in
            match try_update_item build_id sets w2 with
            | Some w3 =>
                Return {| statusCode := 500;
                          body := BStartFailed build_id "failed" error_msg |} w3
            | None =>
                Raise "update_item: attribute name is a reserved keyword: error"
                  (update_item_refused build_id sets w2)
            end
        end
      end
  end.

(** The [try]/[except Exception] of [lambda_handler]. *)
Definition lambda_handler (r : Result) : Response * World :=
  match r with
  | Return resp w => (resp, w)
  | Raise e w => ({| statusCode := 500; body := BError e |}, w)
  end.

(** The item and the execution input a valid request gives rise to, for
    stating what [start_build] did. *)
Definition new_item (req : gmap string jvalue) (build_id timestamp : string) : Item :=
  list_to_map
    [("build_id", JStr build_id); ("task", dict_get req "task" JNull);
     ("mode", dict_get req "mode" (JStr "new_project"));
     ("status", JStr "initiated"); ("current_iteration", JNum 0);
     ("max_iterations", dict_get req "max_iterations" (JNum 3));
     ("created_at", JStr timestamp); ("updated_at", JStr timestamp)].

Definition new_input (req : gmap string jvalue) (build_id : string)
    : list (string * jvalue) :=
  [("build_id", JStr build_id); ("task", dict_get req "task" JNull);
   ("mode", dict_get req "mode" (JStr "new_project"));
   ("max_iterations", dict_get req "max_iterations" (JNum 3))].

Definition start_error (e : string) : string :=
  "Error starting Step Functions execution: " ++ e.

(** What a start request can carry to be stored: a build id that is a
    key and values the table stores. *)
Definition put_accepted (req : gmap string jvalue) (build_id : string) : bool :=
  valid_key build_id &&
  storable (dict_get req "task" JNull) &&
  storable (dict_get req "mode" (JStr "new_project")) &&
  storable (dict_get req "max_iterations" (JNum 3)).

(** *** get_build_status *)

Definition get_build_status (build_id : string) (w : World) : Response :=
  match get_item build_id w with
  | None => {| statusCode := 404; body := BError "Build not found" |}
  | Some item => {| statusCode := 200; body := BItem item |}
  end.

(** *** list_builds *)

Definition attr_string (item : Item) (k : string) : string :=
  match item !! k with Some (JStr s) => s | _ => "" end.

(** Order of the [status-index] sort key read with
    [ScanIndexForward=False]: later [created_at] first. *)
Definition created_desc (x y : Item) : Prop :=
  String.leb (attr_string y "created_at") (attr_string x "created_at") = true.

#[global] Instance created_desc_dec x y : Decision (created_desc x y).
Proof. unfold created_desc. apply _. Defined.

(** Membership in the [status-index]: the item has string attributes
    [status] (partition key) and [created_at] (sort key). *)
Definition in_status_index (status : string) (item : Item) : bool :=
  match item !! "status", item !! "created_at" with
  | Some (JStr s), Some (JStr _) => String.eqb s status
  | _, _ => false
  end.

Definition Limit : nat := 50.

(** [table.query(IndexName='status-index', ..., ScanIndexForward=False,
    Limit=50)]. *)
Definition query_status_index (status : string) (t : Table) : list Item :=
  take Limit
    (merge_sort created_desc
       (List.filter (in_status_index status) ((map_to_list t).*2))).

(** [table.scan(Limit=50)]: no order is promised. *)
Definition scan (t : Table) : list Item := take Limit ((map_to_list t).*2).

(** [status_filter] is [params.get('status')]. *)
Definition list_builds (status_filter : option string) (w : World) : Response :=
  let Items :=
    match status_filter with
    | Some s => if negb (String.eqb s "") then query_status_index s (table w)
                else scan (table w)
    | None => scan (table w)
    end in
  {| statusCode := 200; body := BBuilds Items (length Items) |}.

(** *** cancel_build *)

(** What [sfn.stop_execution] does. *)
Inductive StopOutcome : Type :=
  | StopOk
  | ExecutionDoesNotExist
  | StopRaises (e : string).

(** [str] as the f-string of the refusal applies it; the refusal is only
    reached with a string status. *)
Definition str (v : jvalue) : string :=
  match v with
  | JStr s => s
  | JNull => "None"
  | JBool true => "True"
  | JBool false => "False"
  | _ => "?"
  end.

(** [current_status in ['completed', 'cancelled', 'failed']]. *)
Definition already_finished (current_status : jvalue) : bool :=
  match current_status with
  | JStr s => bool_decide (s ∈ ["completed"; "cancelled"; "failed"])
  | _ => false
  end.

(** [build_id] is the path segment before [/cancel], a key the table
    accepts; [region] and [account] are the two environment variables of
    the ARN; [now] is [datetime.utcnow().isoformat()] at the update. *)
Definition cancel_build (build_id region account now : string)
    (stop : StopOutcome) (w : World) : Response * World :=
  match get_item build_id w with
  | None => ({| statusCode := 404; body := BError "Build not found" |}, w)
  | Some build =>
    let current_status := dict_get build "status" (JStr "unknown") in
    if already_finished current_status then
      ({| statusCode := 400;
          body := BErrorMessage "Build cannot be cancelled"
                    ("Build is already in " ++ str current_status ++ " state") |}, w)
    else
      let execution_arn :=
        "arn:aws:states:" ++ region ++ ":" ++ account
          ++ ":execution:bedrock-builder-workflow:" ++ build_id in
      let w1 := {| table := table w;
                   calls := calls w ++ [StopExecution execution_arn "UserCancelled"
                                          "Build cancelled by user via API"] |} in
      match stop with
      | StopOk =>
          let sets := [(Aliased "status", JStr "cancelled");
                       (Bare "updated_at", JStr now)] in
          match try_update_item build_id sets w1 with
          | Some w2 =>
              ({| statusCode := 200;
                  body := BCancelled build_id "cancelled"
                            "Build cancelled successfully" |}, w2)
          | None =>
              ({| statusCode := 500;
                  body := BError "Error cancelling build: update_item is refused" |},
               update_item_refused build_id sets w1)
          end
      | ExecutionDoesNotExist =>
          ({| statusCode := 400;
              body := BErrorMessage "Cannot cancel build"
                        "Step Functions execution not found or already completed" |}, w1)
      | StopRaises e =>
          ({| statusCode := 500; body := BError ("Error cancelling build: " ++ e) |}, w1)
      end
  end.

(** *** The requests that write

    A start and a cancel request, each with the clock reading it takes
    and with the answer and the store it leaves. *)
Inductive Write : Type :=
  | StartBuild (body : option (gmap string jvalue)) (build_id timestamp : string)
      (start : StartOutcome)
  | CancelBuild (build_id region account now : string) (stop : StopOutcome).

Definition clock (op : Write) : string :=
  match op with
  | StartBuild _ _ timestamp _ => timestamp
  | CancelBuild _ _ _ now _ => now
  end.

Definition perform (op : Write) (w : World) : Response * World :=
  match op with
  | StartBuild body build_id timestamp start =>
      lambda_handler (start_build body build_id timestamp start w)
  | CancelBuild build_id region account now stop =>
      cancel_build build_id region account now stop w
  end.

End Api.

(** ** The build workflow *)

Module Workflow.

(** *** JSON paths, templates and conditions *)

Fixpoint assoc (k : string) (fields : list (string * jvalue)) : option jvalue :=
  match fields with
  | [] => None
  | (k', v) :: rest => if String.eqb k k' then Some v else assoc k rest
  end.

(** [$.a.b.c] read in a document; [None] when the path does not resolve. *)
Fixpoint path_get (path : list string) (v : jvalue) : option jvalue :=
  match path with
  | [] => Some v
  | k :: path' =>
      match v with
      | JObj fields =>
          match assoc k fields with
          | Some v' => path_get path' v'
          | None => None
          end
      | _ => None
      end
  end.

Fixpoint set_assoc (k : string) (v : jvalue) (fields : list (string * jvalue))
    : list (string * jvalue) :=
  match fields with
  | [] => [(k, v)]
  | (k', v') :: rest =>
      if String.eqb k k' then (k, v) :: rest else (k', v') :: set_assoc k v rest
  end.

(** [resultPath: '$.k']: the result is stored under key [k] of the state
    input. *)
Definition set_result (k : string) (v : jvalue) (d : jvalue) : option jvalue :=
  match d with
  | JObj fields => Some (JObj (set_assoc k v fields))
  | _ => None
  end.

(** A field of an object template: ['k.$': '$.path'], a path into the map
    item (['$$.Map.Item.Value.path']), or a literal. *)
Inductive Field : Type :=
  | Path (path : list string)
  | ItemPath (path : list string)
  | Const (v : jvalue).

Definition eval_field (d item : jvalue) (f : Field) : option jvalue :=
  match f with
  | Path p => path_get p d
  | ItemPath p => path_get p item
  | Const v => Some v
  end.

Fixpoint eval_template (d item : jvalue) (t : list (string * Field))
    : option (list (string * jvalue)) :=
  match t with
  | [] => Some []
  | (k, f) :: rest =>
      match eval_field d item f, eval_template d item rest with
      | Some v, Some vs => Some ((k, v) :: vs)
      | _, _ => None
      end
  end.

(** A [sfn.Condition] evaluated on the state input: [None] when a
    variable path does not resolve (the execution then fails with
    [States.Runtime]); a value of another type does not match. *)
Definition Condition : Type := jvalue -> option bool.

Definition numberEquals (path : list string) (n : Z) : Condition :=
  fun d => match path_get path d with
           | None => None
           | Some (JNum m) => Some (m =? n)%Z
           | Some _ => Some false
           end.

Definition numberGreaterThanEquals (path : list string) (n : Z) : Condition :=
  fun d => match path_get path d with
           | None => None
           | Some (JNum m) => Some (n <=? m)%Z
           | Some _ => Some false
           end.

Definition booleanEquals (path : list string) (b : bool) : Condition :=
  fun d => match path_get path d with
           | None => None
           | Some (JBool b') => Some (Bool.eqb b' b)
           | Some _ => Some false
           end.

(** [sfn.Condition.and]: the second operand is looked at only when the
    first holds. *)
Definition and_ (c1 c2 : Condition) : Condition :=
  fun d => match c1 d with
           | Some true => c2 d
           | r => r
           end.

(** *** States *)

Inductive Lambda : Type :=
  | scoutFunction
  | architectFunction
  | orchestratorFunction
  | builderFunction
  | testerFunction
  | deployerFunction.

(** The states of the machine, by construct id. *)
Inductive State : Type :=
  | Scout
  | Architect
  | PrepareParallelBuilders
  | ParallelBuilders
  | Tester
  | TestsPassedQ
  | Deployer
  | BuildSucceeded
  | TesterFailed
  | MaxIterationsReachedQ
  | BuildFailed.

#[global] Instance State_eq_dec : EqDecision State.
Proof. solve_decision. Defined.

#[global] Instance Lambda_eq_dec : EqDecision Lambda.
Proof. solve_decision. Defined.

(** What a state does with its input. *)
Inductive Next : Type :=
  | Goto (s : State) (d : jvalue)
  | Succeed
  | Fail (error cause : string)
  | Abort (error : string).

(** What is observed of an execution. *)
Inductive Event : Type :=
  | Enter (s : State)
  | Invoke (fn : Lambda) (payload : jvalue).

(** One turn of a round of the map state: the service starts the
    iteration of a queued item, or an iteration in flight returns.
    [Start k] and [Finish k] name the [k]-th queued item and the [k]-th
    iteration in flight (the last one when there are fewer). *)
Inductive Pick : Type :=
  | Start (k : nat)
  | Finish (k : nat).

(** What an execution meets outside the machine.  [answer n fn payload]
    is the response payload of the [n]-th Lambda invocation of the
    execution, or [None] when the invocation fails for good.
    [pick n t] is what happens at turn [t] of the map round that begins
    at invocation [n]: the stack fixes [maxConcurrency] and nothing else
    about the order in which iterations start and return. *)
Record Env : Type := mkEnv {
  answer :> nat -> Lambda -> jvalue -> option jvalue;
  pick : nat -> nat -> Pick
}.

(** The result of a task or of a map round: a value, or the name of the
    error the state fails with. *)
Inductive Try (A : Type) : Type :=
  | Ok (a : A)
  | Err (error : string).
Arguments Ok {A} a.
Arguments Err {A} error.

Record LambdaInvoke : Type := mkLambdaInvoke {
  lambdaFunction : Lambda;
  payload : list (string * Field);
  resultSelector : list (string * Field);
  resultPath : option string
}.

(** One [tasks.LambdaInvoke]: build the payload, call, select, store.
    No state declares a catcher, so a failed invocation fails the
    execution.  A path of the payload or of the selector that does not
    resolve is an error of the machine ([States.Runtime] stands for the
    service's runtime and path errors), a failed invocation one of the
    task ([States.TaskFailed] stands for the function's own error). *)
Definition invoke (t : LambdaInvoke) (env : Env) (n : nat) (d item : jvalue)
    : list Event * Try jvalue :=
  match eval_template d item (payload t) with
  | None => ([], Err "States.Runtime")
  | Some p =>
      ([Invoke (lambdaFunction t) (JObj p)],
       match env n (lambdaFunction t) (JObj p) with
       | None => Err "States.TaskFailed"
       | Some response =>
           match eval_template (JObj [("Payload", response)]) JNull (resultSelector t) with
           | None => Err "States.Runtime"
           | Some selected =>
               match resultPath t with
               | Some k =>
                   match set_result k (JObj selected) d with
                   | Some d' => Ok d'
                   | None => Err "States.Runtime"
                   end
               | None => Ok (JObj selected)
               end
           end
       end)
  end.

Definition stage_selector : list (string * Field) :=
  [("statusCode", Path ["Payload"; "statusCode"]);
   ("body", Path ["Payload"; "body"])].

Definition scoutTask : LambdaInvoke :=
  {| lambdaFunction := scoutFunction;
     payload := [("build_id", Path ["build_id"]); ("task", Path ["task"]);
                 ("mode", Path ["mode"])];
     resultSelector := stage_selector;
     resultPath := Some "scout_result" |}.

Definition architectTask : LambdaInvoke :=
  {| lambdaFunction := architectFunction;
     payload := [("build_id", Path ["build_id"])];
     resultSelector := stage_selector;
     resultPath := Some "architect_result" |}.

Definition orchestratorTask : LambdaInvoke :=
  {| lambdaFunction := orchestratorFunction;
     payload := [("build_id", Path ["build_id"]);
                 ("action", Const (JStr "prepare_parallel_builds"))];
     resultSelector := [("tasks", Path ["Payload"; "tasks"]);
                        ("total_files", Path ["Payload"; "total_files"])];
     resultPath := Some "build_tasks" |}.

Definition builderTask : LambdaInvoke :=
  {| lambdaFunction := builderFunction;
     payload := [("build_id", Path ["build_id"]); ("file_path", Path ["file_path"]);
                 ("specification", Path ["specification"]);
                 ("language", Path ["language"]);
                 ("parallel_mode", Const (JBool true))];
     resultSelector := [("file_path", Path ["Payload"; "file_path"]);
                        ("status", Path ["Payload"; "status"])];
     resultPath := None |}.

Definition testerTask : LambdaInvoke :=
  {| lambdaFunction := testerFunction;
     payload := [("build_id", Path ["build_id"])];
     resultSelector := stage_selector;
     resultPath := Some "tester_result" |}.

Definition deployerTask : LambdaInvoke :=
  {| lambdaFunction := deployerFunction;
     payload := [("build_id", Path ["build_id"]);
                 ("test_result", Const (JStr "PASSED"))];
     resultSelector := stage_selector;
     resultPath := Some "deployer_result" |}.

(** Step 4, the [sfn.Map] state [ParallelBuilders]. *)
Definition maxConcurrency : nat := 6.

Definition itemsPath : list string := ["build_tasks"; "tasks"].

Definition parameters : list (string * Field) :=
  [("build_id", Path ["build_id"]);
   ("file_path", ItemPath ["file_path"]);
   ("specification", ItemPath ["specification"]);
   ("language", ItemPath ["language"])].

(** The start of one iteration of the map: the item is turned into the
    iteration input by [parameters] and [builderTask] is invoked on it.
    The result is the payload sent and what the iteration will return;
    [None] when the iteration input or the payload cannot be built. *)
Definition start_iteration (env : Env) (n : nat) (d item : jvalue)
    : option (jvalue * Try jvalue) :=
  match eval_template d item parameters with
  | None => None
  | Some input =>
      match invoke builderTask env n (JObj input) JNull with
      | ([Invoke _ p], result) => Some (p, result)
      | _ => None
      end
  end.

(** A round of the map state: the items not yet started and the
    iterations in flight, each with the index of its item, and the
    outputs of the iterations that have returned. *)
Record Round : Type := mkRound {
  queued : list (nat * jvalue);
  in_flight : list (nat * Try jvalue);
  outputs : list (nat * jvalue)
}.

(** What is observed of a round. *)
Inductive RoundEvent : Type :=
  | Dispatched (index : nat) (payload : jvalue)
  | Settled (index : nat).

Inductive Turn : Type :=
  | Starts (index : nat) (payload : jvalue) (r : Round)
  | Returns (index : nat) (r : Round)
  | Fails (settled : option nat) (error : string)
  | Completes (outs : list (nat * jvalue)).

(** The [k]-th element of [x :: l] (the last one when there are fewer)
    and the others. *)
Fixpoint extract {A} (k : nat) (x : A) (l : list A) : A * list A :=
  match k, l with
  | O, _ => (x, l)
  | S _, [] => (x, [])
  | S k', y :: l' => let '(z, rest) := extract k' y l' in (z, x :: rest)
  end.

Definition start (env : Env) (n : nat) (d : jvalue) (k : nat)
    (q : nat * jvalue) (qs : list (nat * jvalue)) (r : Round) : Turn :=
  let '((i, item), rest) := extract k q qs in
  match start_iteration env n d item with
  | None => Fails None "States.Runtime"
  | Some (p, result) =>
      Starts i p {| queued := rest;
                    in_flight := (in_flight r ++ [(i, result)])%list;
                    outputs := outputs r |}
  end.

(** An iteration returns: its output is kept, or its failure fails the
    whole state (the iterations still in flight are given up, the items
    still queued are not started). *)
Definition finish (k : nat) (f : nat * Try jvalue) (fs : list (nat * Try jvalue))
    (r : Round) : Turn :=
  let '((i, result), rest) := extract k f fs in
  match result with
  | Err e => Fails (Some i) e
  | Ok out => Returns i {| queued := queued r; in_flight := rest;
                           outputs := (i, out) :: outputs r |}
  end.

(** One turn.  An iteration is started only while fewer than
    [maxConcurrency] are in flight; with nothing in flight one must be
    started, with nothing queued one must return. *)
Definition turn (env : Env) (n : nat) (d : jvalue) (p : Pick) (r : Round) : Turn :=
  match queued r, in_flight r with
  | [], [] => Completes (outputs r)
  | q :: qs, [] =>
      start env n d (match p with Start k | Finish k => k end) q qs r
  | [], f :: fs =>
      finish (match p with Start k | Finish k => k end) f fs r
  | q :: qs, f :: fs =>
      match p with
      | Start k =>
          if (length (in_flight r) <? maxConcurrency)%nat then start env n d k q qs r
          else finish k f fs r
      | Finish k => finish k f fs r
      end
  end.

(** The turns of a round, from turn [t] on, [n] being the number of the
    next invocation.  [budget] counts the turns left: an item queued
    needs two (it starts, it returns) and an iteration in flight one. *)
Fixpoint round (budget : nat) (env : Env) (n0 t n : nat) (d : jvalue) (r : Round)
    : list RoundEvent * Try (list (nat * jvalue)) :=
  match turn env n d (pick env n0 t) r with
  | Completes outs => ([], Ok outs)
  | Fails None e => ([], Err e)
  | Fails (Some i) e => ([Settled i], Err e)
  | Starts i p r' =>
      match budget with
      | O => ([], Err "States.Runtime")
      | S budget' =>
          let '(rt, res) := round budget' env n0 (S t) (S n) d r' in
          (Dispatched i p :: rt, res)
      end
  | Returns i r' =>
      match budget with
      | O => ([], Err "States.Runtime")
      | S budget' =>
          let '(rt, res) := round budget' env n0 (S t) n d r' in
          (Settled i :: rt, res)
      end
  end.

Definition turns (r : Round) : nat :=
  (2 * length (queued r) + length (in_flight r))%nat.

Definition round_start (items : list jvalue) : Round :=
  {| queued := zip (seq 0 (length items)) items; in_flight := []; outputs := [] |}.

(** The round of the map state over [items], begun at invocation [n]. *)
Definition fan_out (env : Env) (n : nat) (d : jvalue) (items : list jvalue)
    : list RoundEvent * Try (list (nat * jvalue)) :=
  round (turns (round_start items)) env n 0 n d (round_start items).

Definition index_le (x y : nat * jvalue) : Prop := (x.1 <= y.1)%nat.

#[global] Instance index_le_dec x y : Decision (index_le x y).
Proof. unfold index_le. apply _. Defined.

(** The Builder invocations of a round, in the order they were made. *)
Definition invokes (rt : list RoundEvent) : list Event :=
  omap (fun e => match e with
                 | Dispatched _ p => Some (Invoke builderFunction p)
                 | Settled _ => None
                 end) rt.

(** The map state: its invocations and, when every iteration has
    returned, the outputs in the order of the items. *)
Definition iterations (env : Env) (n : nat) (d : jvalue) (items : list jvalue)
    : list Event * Try (list jvalue) :=
  let '(rt, res) := fan_out env n d items in
  (invokes rt,
   match res with
   | Ok outs => Ok ((merge_sort index_le outs).*2)
   | Err e => Err e
   end).

(** *** Choices *)

Definition Choice : Type := jvalue -> Next.

Definition otherwise (s : State) : Choice := fun d => Goto s d.

Definition when (c : Condition) (s : State) (rest : Choice) : Choice :=
  fun d => match c d with
           | None => Abort "States.Runtime"
           | Some true => Goto s d
           | Some false => rest d
           end.

Definition testsPassed : Choice :=
  when (and_ (numberEquals ["tester_result"; "statusCode"] 200)
             (booleanEquals ["tester_result"; "body"; "tests_passed"] true))
       Deployer
    (when (numberEquals ["tester_result"; "statusCode"] 500)
          TesterFailed
       (otherwise MaxIterationsReachedQ)).

Definition maxIterationsReached : Choice :=
  when (numberGreaterThanEquals ["tester_result"; "body"; "iteration"] 3)
       BuildFailed
    (otherwise Architect).

(** *** The machine *)

Definition task (t : LambdaInvoke) (next : State) (env : Env) (n : nat) (d : jvalue)
    : list Event * Next :=
  match invoke t env n d JNull with
  | (ev, Ok d') => (ev, Goto next d')
  | (ev, Err e) => (ev, Abort e)
  end.

(** [sfn.Fail] with [causePath]: the cause is read in the state input;
    when the path does not resolve to a string the execution fails with
    a runtime error instead of the declared one. *)
Definition fail_with_cause_at (error : string) (causePath : list string) (d : jvalue)
    : Next :=
  match path_get causePath d with
  | Some (JStr cause) => Fail error cause
  | _ => Abort "States.Runtime"
  end.

(** One state of [definition], with the successor each construct was
    given by [.next], [.when] or [.otherwise]. *)
Definition step (env : Env) (n : nat) (s : State) (d : jvalue) : list Event * Next :=
  match s with
  | Scout => task scoutTask Architect env n d
  | Architect => task architectTask PrepareParallelBuilders env n d
  | PrepareParallelBuilders => task orchestratorTask ParallelBuilders env n d
  | ParallelBuilders =>
      match path_get itemsPath d with
      | Some (JArr items) =>
          match iterations env n d items with
          | (ev, Ok outs) =>
              match set_result "builder_results" (JArr outs) d with
              | Some d' => (ev, Goto Tester d')
              | None => (ev, Abort "States.Runtime")
              end
          | (ev, Err e) => (ev, Abort e)
          end
      | _ => ([], Abort "States.Runtime")
      end
  | Tester => task testerTask TestsPassedQ env n d
  | TestsPassedQ => ([], testsPassed d)
  | Deployer => task deployerTask BuildSucceeded env n d
  | BuildSucceeded => ([], Succeed)
  | TesterFailed =>
      ([], fail_with_cause_at "TesterLambdaError" ["tester_result"; "body"; "error"] d)
  | MaxIterationsReachedQ => ([], maxIterationsReached d)
  | BuildFailed =>
      ([], Fail "MaxIterationsReached" "Tests failed after maximum iterations (3)")
  end.

Inductive Outcome : Type :=
  | Succeeded
  | Failed (error cause : string)
  | Aborted (error : string)
  | Unfinished.

(** [fuel] bounds the number of states entered; the machine itself only
    has the two-hour timeout. *)
Fixpoint run (fuel : nat) (env : Env) (n : nat) (s : State) (d : jvalue)
    : list Event * Outcome :=
  match fuel with
  | O => ([], Unfinished)
  | S fuel' =>
      match step env n s d with
      | (ev, Goto s' d') =>
          let '(evs, o) := run fuel' env (n + length ev)%nat s' d' in
          ((Enter s :: ev ++ evs)%list, o)
      | (ev, Succeed) => (Enter s :: ev, Succeeded)
      | (ev, Fail error cause) => (Enter s :: ev, Failed error cause)
      | (ev, Abort error) => (Enter s :: ev, Aborted error)
      end
  end.

(** The execution that [start_build] starts: [definition] begins at
    [Scout] with the execution input. *)
Definition execution_input (build_id task_ mode max_iterations : jvalue) : jvalue :=
  JObj [("build_id", build_id); ("task", task_); ("mode", mode);
        ("max_iterations", max_iterations)].

Definition execute (fuel : nat) (env : Env) (input : jvalue) : list Event * Outcome :=
  run fuel env 0%nat Scout input.

Definition entries (s : State) (tr : list Event) : nat :=
  length (List.filter (fun e => match e with
                                | Enter s' => bool_decide (s' = s)
                                | _ => false
                                end) tr).

Definition invocations (fn : Lambda) (tr : list Event) : list jvalue :=
  omap (fun e => match e with
                 | Invoke fn' p => if decide (fn' = fn) then Some p else None
                 | _ => None
                 end) tr.

End Workflow.

(** ** Concrete builds used to exercise the definitions *)

Module Scenarios.
Import Workflow.

(** The envelope every stage function returns. *)
Definition stage_result (code : Z) (fields : list (string * jvalue)) : jvalue :=
  JObj [("statusCode", JNum code); ("body", JObj fields)].

Definition hello_input (max_iterations : Z) : jvalue :=
  execution_input (JStr "b-1") (JStr "Build a hello-world script")
    (JStr "new_project") (JNum max_iterations).

(** The state input at [TestsPassed?] once the Tester has answered. *)
Definition after_tester (max_iterations code : Z) (report : list (string * jvalue))
    : jvalue :=
  JObj [("build_id", JStr "b-1"); ("task", JStr "Build a hello-world script");
        ("mode", JStr "new_project"); ("max_iterations", JNum max_iterations);
        ("tester_result", stage_result code report)].

Definition report (tests_passed : bool) (iteration : Z) : list (string * jvalue) :=
  [("tests_passed", JBool tests_passed); ("iteration", JNum iteration)].

Definition hello_py : jvalue :=
  JObj [("file_path", JStr "hello.py"); ("specification", JStr "print a greeting");
        ("language", JStr "python")].

Definition test_hello_py : jvalue :=
  JObj [("file_path", JStr "test_hello.py"); ("specification", JStr "check the greeting");
        ("language", JStr "python")].

(** Stage functions given by their answers, with a map state that starts
    every iteration it may before it lets one return, the oldest
    first. *)
Definition answers (f : nat -> Lambda -> jvalue -> option jvalue) : Env :=
  {| answer := f; pick := fun _ _ => Start 0 |}.

(** Stage functions of a one-file build whose Tester answers with status
    [code] and [tests_passed], counting its rounds from 1.  Each round
    makes four invocations after the Scout's. *)
Definition one_file_build (code : Z) (tests_passed : bool) : Env :=
  answers (fun n fn _ =>
    match fn with
    | orchestratorFunction =>
        Some (JObj [("tasks", JArr [hello_py]); ("total_files", JNum 1)])
    | builderFunction =>
        Some (JObj [("file_path", JStr "hello.py"); ("status", JStr "success")])
    | testerFunction =>
        Some (stage_result code (report tests_passed (Z.of_nat (n / 4))))
    | _ => Some (stage_result 200 [])
    end).

(** A stored build record. *)
Definition record (build_id status created_at updated_at : string) : Api.Item :=
  list_to_map
    [("build_id", JStr build_id); ("task", JStr "Build a hello-world script");
     ("mode", JStr "new_project"); ("status", JStr status);
     ("current_iteration", JNum 1); ("max_iterations", JNum 3);
     ("created_at", JStr created_at); ("updated_at", JStr updated_at)].

(** A store holding the one build [b-1], created and last updated on
    1 May, with the given status. *)
Definition store_with (status : string) : Api.World :=
  {| Api.table :=
       {[ "b-1" := record "b-1" status "2024-05-01T09:00:00" "2024-05-01T09:30:00" ]};
     Api.calls := [] |}.

Definition empty_store : Api.World := {| Api.table := ∅; Api.calls := [] |}.

(** Three builds: two passed (the later one stored under the smaller
    key) and one failed. *)
Definition three_builds : Api.World :=
  {| Api.table :=
       {[ "b-1" := record "b-1" "passed" "2024-05-03T08:00:00" "2024-05-03T08:40:00";
          "b-2" := record "b-2" "failed" "2024-05-02T08:00:00" "2024-05-02T09:00:00";
          "b-3" := record "b-3" "passed" "2024-05-01T08:00:00" "2024-05-01T08:20:00" ]};
     Api.calls := [] |}.

Definition hello_request : gmap string jvalue :=
  {[ "task" := JStr "Build a hello-world script" ]}.

Definition status_of (build_id : string) (w : Api.World) : option jvalue :=
  Api.table w !! build_id ≫= (.!! "status").

Definition updated_at_of (build_id : string) (w : Api.World) : option jvalue :=
  Api.table w !! build_id ≫= (.!! "updated_at").

(** The spec's reading of a stage status code: 2xx is success, 5xx a
    fatal stage error. *)
Definition success_status (code : Z) : bool :=
  ((200 <=? code)%Z && (code <=? 299)%Z)%bool.
Definition fatal_stage_error (code : Z) : bool :=
  ((500 <=? code)%Z && (code <=? 599)%Z)%bool.

End Scenarios.

(** ** The handler's entry point

    [lambda_handler] of the orchestrated API: the dispatch on path and
    method, the two functions that read the build id off the path, and
    [get_build_logs]. *)

Module Handler.

(** [s.split(sep)] for a one-character separator. *)
Fixpoint split (sep : ascii) (s : string) : list string :=
  match s with
  | EmptyString => [EmptyString]
  | String c s' =>
      if Ascii.eqb c sep then EmptyString :: split sep s'
      else match split sep s' with
           | piece :: pieces => String c piece :: pieces
           | [] => [String c EmptyString]
           end
  end.

(** [l[-k]] for [k >= 1]; [None] is Python's [IndexError]. *)
Definition index_from_end {A} (k : nat) (l : list A) : option A :=
  match k with
  | O => None
  | S k' => rev l !! k'
  end.

(** [path.startswith(p)]. *)
Definition startswith (p s : string) : bool := String.prefix p s.

(** [sub in s]. *)
Fixpoint contains (sub s : string) : bool :=
  if String.prefix sub s then true
  else match s with
       | EmptyString => false
       | String _ s' => contains sub s'
       end.

(** The API Gateway event, with the body as [json.loads] sees it and the
    [status] query parameter. *)
Record Event : Type := mkEvent {
  path : string;
  httpMethod : string;
  body : option (gmap string jvalue);
  status_param : option string
}.

(** [len(s)] for a Python string held as its UTF-8 bytes: the number of
    its characters, that is of the bytes that do not continue one
    ([10xxxxxx]). *)
Definition continuation (c : ascii) : bool :=
  match c with
  | Ascii _ _ _ _ _ _ b6 b7 => b7 && negb b6
  end.

Fixpoint len (s : string) : nat :=
  match s with
  | EmptyString => O
  | String c s' => if continuation c then len s' else S (len s')
  end.

(** What [s3.get_object] followed by [read().decode('utf-8')] does for a
    key of the logs bucket: the decoded text (held as its UTF-8 bytes),
    no such key, or another exception. *)
Inductive S3Outcome : Type :=
  | S3Object (content : string)
  | NoSuchKey
  | S3Raises (e : string).

(** What the handler draws from outside during one request. *)
Record Oracle : Type := mkOracle {
  uuid4 : string;
  utcnow : string;
  start_execution : Api.StartOutcome;
  stop_execution : Api.StopOutcome;
  AWS_REGION : string;
  AWS_ACCOUNT_ID : string;
  get_object : string -> S3Outcome
}.

Inductive Body : Type :=
  | Plain (b : Api.Body)
  | BLogs (build_id logs : string) (log_size : nat).

Record Response : Type := mkResponse {
  statusCode : Z;
  rbody : Body
}.

Inductive Result : Type :=
  | Return (r : Response) (w : Api.World)
  | Raise (e : string) (w : Api.World).

Definition plain (r : Api.Response) : Response :=
  {| statusCode := Api.statusCode r; rbody := Plain (Api.body r) |}.

Definition plain_result (r : Api.Result) : Result :=
  match r with
  | Api.Return resp w => Return (plain resp) w
  | Api.Raise e w => Raise e w
  end.

Definition log_key (build_id : string) : string := build_id ++ "/test-output.log".

(** [table.get_item] raises for a key the table does not accept (the
    empty string of [/build//logs], say); the exception leaves the
    function. *)
Definition refused_key (w : Api.World) : Result :=
  Raise "get_item: the key is refused" w.

Definition get_build_status (build_id : string) (w : Api.World) : Result :=
  if Api.valid_key build_id then Return (plain (Api.get_build_status build_id w)) w
  else refused_key w.

Definition get_build_logs (ev : Event) (o : Oracle) (w : Api.World) : Result :=
  match index_from_end 2 (split "/" (path ev)) with
  | None => Raise "list index out of range" w
  | Some build_id =>
      if negb (Api.valid_key build_id) then refused_key w
      else
      match Api.get_item build_id w with
      | None =>
          Return {| statusCode := 404; rbody := Plain (Api.BError "Build not found") |} w
      | Some _ =>
          match get_object o (log_key build_id) with
          | S3Object log_content =>
              Return {| statusCode := 200;
                        rbody := BLogs build_id log_content (len log_content) |} w
          | NoSuchKey =>
              Return {| statusCode := 404;
                        rbody := Plain (Api.BErrorMessage "Logs not found"
                                          "Build has not yet generated test logs") |} w
          | S3Raises e =>
              Return {| statusCode := 500;
                        rbody := Plain (Api.BError ("Error retrieving logs: " ++ e)) |} w
          end
      end
  end.

(** [cancel_build(event)]: the build id is the last but one piece of the
    path. *)
Definition cancel_build (ev : Event) (o : Oracle) (w : Api.World) : Result :=
  match index_from_end 2 (split "/" (path ev)) with
  | None => Raise "list index out of range" w
  | Some build_id =>
      if negb (Api.valid_key build_id) then refused_key w
      else
      let '(r, w') := Api.cancel_build build_id (AWS_REGION o) (AWS_ACCOUNT_ID o)
                        (utcnow o) (stop_execution o) w in
      Return (plain r) w'
  end.

Definition not_found (w : Api.World) : Result :=
  Return {| statusCode := 404; rbody := Plain (Api.BError "Not found") |} w.

Definition dispatch (ev : Event) (o : Oracle) (w : Api.World) : Result :=
  let path := path ev in
  let method := httpMethod ev in
  if String.eqb path "/builds" && String.eqb method "GET" then
    Return (plain (Api.list_builds (status_param ev) w)) w
  else if String.eqb path "/build" && String.eqb method "POST" then
    plain_result (Api.start_build (body ev) (uuid4 o) (utcnow o) (start_execution o) w)
  else if startswith "/build/" path && String.eqb method "GET" then
    let build_id := List.last (split "/" path) "" in
    if contains "/logs" path then get_build_logs ev o w
    else get_build_status build_id w
  else if startswith "/build/" path && String.eqb method "POST"
          && contains "/cancel" path then
    cancel_build ev o w
  else not_found w.

(** [lambda_handler]: the dispatch inside [try], any exception answered
    with 500. *)
Definition lambda_handler (ev : Event) (o : Oracle) (w : Api.World)
    : Response * Api.World :=
  match dispatch ev o w with
  | Return r w' => (r, w')
  | Raise e w' => ({| statusCode := 500; rbody := Plain (Api.BError e) |}, w')
  end.

End Handler.

(** ** The earlier handler

    The second [ApiGatewayStack] of the file: the same table and the same
    [get_build_status] and [list_builds], a [start_build] that only records
    the build, and [get_build_logs] and [cancel_build] not implemented. *)

Module Draft.

Inductive Body : Type :=
  | Plain (b : Api.Body)
  | BAccepted (build_id status message : string)
  | BMessage (message : string).

Record Response : Type := mkResponse {
  statusCode : Z;
  rbody : Body
}.

Inductive Result : Type :=
  | Return (r : Response) (w : Api.World)
  | Raise (e : string) (w : Api.World).

Definition plain (r : Api.Response) : Response :=
  {| statusCode := Api.statusCode r; rbody := Plain (Api.body r) |}.

Definition start_build (body : option (gmap string jvalue))
    (build_id timestamp : string) (w : Api.World) : Result :=
  match body with
  | None => Raise "body is not a JSON object" w
  | Some body =>
    let task := dict_get body "task" JNull in
    let mode := dict_get body "mode" (JStr "new_project") in
    let max_iterations := dict_get body "max_iterations" (JNum 3) in
    if negb (truthy task) then
      Return {| statusCode := 400; rbody := Plain (Api.BError "task is required") |} w
    else
      match Api.try_put_item
              [("build_id", JStr build_id); ("task", task); ("mode", mode);
               ("status", JStr "initiated"); ("current_iteration", JNum 0);
               ("max_iterations", max_iterations);
               ("created_at", JStr timestamp); ("updated_at", JStr timestamp)]
              build_id w with
      | None => Raise "put_item: the item is refused" w
      | Some w1 =>
          Return {| statusCode := 202;
                    rbody := BAccepted build_id "initiated" "Build started" |} w1
      end
  end.

Definition not_implemented (w : Api.World) : Result :=
  Return {| statusCode := 501; rbody := BMessage "Not implemented yet" |} w.

Definition get_build_logs (w : Api.World) : Result := not_implemented w.

Definition get_build_status (build_id : string) (w : Api.World) : Result :=
  if Api.valid_key build_id then Return (plain (Api.get_build_status build_id w)) w
  else Raise "get_item: the key is refused" w.

Definition cancel_build (w : Api.World) : Result := not_implemented w.

Definition dispatch (ev : Handler.Event) (o : Handler.Oracle) (w : Api.World) : Result :=
  let path := Handler.path ev in
  let method := Handler.httpMethod ev in
  if String.eqb path "/build" && String.eqb method "POST" then
    start_build (Handler.body ev) (Handler.uuid4 o) (Handler.utcnow o) w
  else if Handler.startswith "/build/" path && String.eqb method "GET" then
    let build_id := List.last (Handler.split "/" path) "" in
    if String.eqb build_id "list" || String.eqb path "/builds" then
      Return (plain (Api.list_builds (Handler.status_param ev) w)) w
    else if Handler.contains "/logs" path then get_build_logs w
    else get_build_status build_id w
  else if Handler.startswith "/build/" path && String.eqb method "POST"
          && Handler.contains "/cancel" path then
    cancel_build w
  else
    Return {| statusCode := 404; rbody := Plain (Api.BError "Not found") |} w.

Definition lambda_handler (ev : Handler.Event) (o : Handler.Oracle) (w : Api.World)
    : Response * Api.World :=
  match dispatch ev o w with
  | Return r w' => (r, w')
  | Raise e w' => ({| statusCode := 500; rbody := Plain (Api.BError e) |}, w')
  end.

End Draft.

(** ** Vocabulary for statements about executions *)

Module WorkflowAux.
Import Workflow.

(** The arrows of [definition]: [.next], [.when] and [.otherwise]. *)
Definition edge (s s' : State) : bool :=
  match s, s' with
  | Scout, Architect
  | Architect, PrepareParallelBuilders
  | PrepareParallelBuilders, ParallelBuilders
  | ParallelBuilders, Tester
  | Tester, TestsPassedQ
  | TestsPassedQ, Deployer
  | TestsPassedQ, TesterFailed
  | TestsPassedQ, MaxIterationsReachedQ
  | MaxIterationsReachedQ, BuildFailed
  | MaxIterationsReachedQ, Architect
  | Deployer, BuildSucceeded => true
  | _, _ => false
  end.

(** The function a state invokes, for the states that invoke one. *)
Definition lambda_of (s : State) : option Lambda :=
  match s with
  | Scout => Some scoutFunction
  | Architect => Some architectFunction
  | PrepareParallelBuilders => Some orchestratorFunction
  | ParallelBuilders => Some builderFunction
  | Tester => Some testerFunction
  | Deployer => Some deployerFunction
  | _ => None
  end.

(** The events are invocations of the function [fn]. *)
Definition invokes_only (fn : option Lambda) (ev : list Event) : Prop :=
  Forall (fun e => exists f p, fn = Some f /\ e = Invoke f p) ev.

(** How a state may end or continue. *)
Definition declared (s : State) (nx : Next) : Prop :=
  match nx with
  | Goto s' _ => edge s s' = true
  | Succeed => s = BuildSucceeded
  | Fail error cause =>
      s = TesterFailed /\ error = "TesterLambdaError" \/
      s = BuildFailed /\ error = "MaxIterationsReached"
                     /\ cause = "Tests failed after maximum iterations (3)"
  | Abort _ => True
  end.

(** The states an execution entered, in order. *)
Definition entered (tr : list Event) : list State :=
  omap (fun e => match e with Enter s => Some s | _ => None end) tr.

Fixpoint is_path (l : list State) : bool :=
  match l with
  | s :: rest =>
      match rest with
      | s' :: _ => edge s s' && is_path rest
      | [] => true
      end
  | [] => true
  end.

(** The states up to and including the Tester. *)
Definition upto_tester (s : State) : bool :=
  match s with
  | Scout | Architect | PrepareParallelBuilders | ParallelBuilders | Tester => true
  | _ => false
  end.

(** The two choices as one table. *)
Definition decision (statusCode : Z) (tests_passed : bool) (iteration : Z) : State :=
  if ((statusCode =? 200)%Z && tests_passed)%bool then Deployer
  else if (statusCode =? 500)%Z then TesterFailed
  else if (3 <=? iteration)%Z then BuildFailed
  else Architect.

(** [TestsPassed?] followed by [MaxIterationsReached?] when it leads
    there. *)
Definition resolve (d : jvalue) : Next :=
  match testsPassed d with
  | Goto MaxIterationsReachedQ d' => maxIterationsReached d'
  | nx => nx
  end.

(** The payload the Builder gets for a map item. *)
Definition builder_payload (build_id item : jvalue) : option jvalue :=
  match path_get ["file_path"] item, path_get ["specification"] item,
        path_get ["language"] item with
  | Some f, Some sp, Some l =>
      Some (JObj [("build_id", build_id); ("file_path", f); ("specification", sp);
                  ("language", l); ("parallel_mode", JBool true)])
  | _, _, _ => None
  end.

(** A Builder response the selector of [builderTask] accepts. *)
Definition builder_response_ok (r : jvalue) : bool :=
  match path_get ["file_path"] r, path_get ["status"] r with
  | Some _, Some _ => true
  | _, _ => false
  end.

(** A stage response the selector of the stage tasks accepts. *)
Definition stage_response_ok (r : jvalue) : bool :=
  match path_get ["statusCode"] r, path_get ["body"] r with
  | Some _, Some _ => true
  | _, _ => false
  end.

(** A map item with the three fields of a FileTask. *)
Definition file_task_ok (item : jvalue) : bool :=
  match path_get ["file_path"] item, path_get ["specification"] item,
        path_get ["language"] item with
  | Some _, Some _, Some _ => true
  | _, _, _ => false
  end.

(** A Splitter response the selector of [orchestratorTask] accepts, with
    FileTasks in its list. *)
Definition orchestrator_response_ok (r : jvalue) : bool :=
  match path_get ["tasks"] r, path_get ["total_files"] r with
  | Some (JArr items), Some _ => forallb file_task_ok items
  | _, _ => false
  end.

(** A Tester response that says: status 200, tests not passed, an
    iteration below 3. *)
Definition tester_reports_failure (r : jvalue) : bool :=
  match path_get ["statusCode"] r, path_get ["body"; "tests_passed"] r,
        path_get ["body"; "iteration"] r with
  | Some (JNum c), Some (JBool false), Some (JNum i) =>
      ((c =? 200)%Z && (i <? 3)%Z)%bool
  | _, _, _ => false
  end.

(** Stage functions that always answer, with a Tester that never passes
    and never reports a third iteration. *)
Definition keeps_failing (env : Env) : Prop :=
  forall n fn p, exists r,
    env n fn p = Some r /\
    match fn with
    | scoutFunction | architectFunction | deployerFunction => stage_response_ok r
    | orchestratorFunction => orchestrator_response_ok r
    | builderFunction => builder_response_ok r
    | testerFunction => tester_reports_failure r
    end = true.

(** What the Builder is sent for a map item in the state [d]: the item
    through [parameters], then the payload of [builderTask]. *)
Definition iteration_payload (d item : jvalue) : option jvalue :=
  match eval_template d item parameters with
  | Some input => JObj <$> eval_template (JObj input) JNull (payload builderTask)
  | None => None
  end.

(** What the iteration whose Builder invocation is the [n]-th of the
    execution, with payload [p], returns. *)
Definition builder_result (env : Env) (n : nat) (p : jvalue) : Try jvalue :=
  match env n builderFunction p with
  | None => Err "States.TaskFailed"
  | Some response =>
      match eval_template (JObj [("Payload", response)]) JNull
              (resultSelector builderTask) with
      | None => Err "States.Runtime"
      | Some selected => Ok (JObj selected)
      end
  end.

(** What a turn taken from the round [r] at invocation [n] may be. *)
Definition turn_of (env : Env) (n : nat) (d : jvalue) (r : Round) (tn : Turn) : Prop :=
  match tn with
  | Completes outs => queued r = [] /\ in_flight r = [] /\ outs = outputs r
  | Starts i p r' =>
      exists item,
        queued r ≡ₚ (i, item) :: queued r' /\
        in_flight r' = (in_flight r ++ [(i, builder_result env n p)])%list /\
        outputs r' = outputs r /\
        iteration_payload d item = Some p /\
        (length (in_flight r) < maxConcurrency)%nat
  | Fails None _ =>
      exists i item rest,
        queued r ≡ₚ (i, item) :: rest /\ iteration_payload d item = None
  | Fails (Some i) e => exists rest, in_flight r ≡ₚ (i, Err e) :: rest
  | Returns i r' =>
      exists out,
        in_flight r ≡ₚ (i, Ok out) :: in_flight r' /\
        queued r' = queued r /\
        outputs r' = (i, out) :: outputs r
  end.

(** A Builder invocation that fails its iteration: it fails for good, or
    its answer lacks what the selector reads. *)
Definition builder_fails (a : option jvalue) : Prop :=
  match a with
  | None => True
  | Some r => builder_response_ok r = false
  end.

(** The iterations started in a round, with the payload sent, and the
    iterations that returned, by the index of their item. *)
Definition dispatches (rt : list RoundEvent) : list (nat * jvalue) :=
  omap (fun e => match e with
                 | Dispatched i p => Some (i, p)
                 | Settled _ => None
                 end) rt.

Definition dispatched (rt : list RoundEvent) : list nat := (dispatches rt).*1.

Definition settled (rt : list RoundEvent) : list nat :=
  omap (fun e => match e with
                 | Settled i => Some i
                 | Dispatched _ _ => None
                 end) rt.

(** The number of iterations in flight after the events [rt] of a
    round. *)
Definition running (rt : list RoundEvent) : nat :=
  (length (dispatched rt) - length (settled rt))%nat.

(** The keys of the payload each function is invoked with. *)
Definition payload_keys (fn : Lambda) : list string :=
  match fn with
  | scoutFunction => ["build_id"; "task"; "mode"]
  | architectFunction => ["build_id"]
  | orchestratorFunction => ["build_id"; "action"]
  | builderFunction =>
      ["build_id"; "file_path"; "specification"; "language"; "parallel_mode"]
  | testerFunction => ["build_id"]
  | deployerFunction => ["build_id"; "test_result"]
  end.

Definition well_keyed (e : Event) : Prop :=
  match e with
  | Enter _ => True
  | Invoke fn pl => exists p, pl = JObj p /\ p.*1 = payload_keys fn
  end.

(** The states of the loop, with what each needs of its input when the
    Tester keeps failing. *)
Definition in_loop (s : State) (d : jvalue) : Prop :=
  is_Some (path_get ["build_id"] d) /\
  match s with
  | Scout => is_Some (path_get ["task"] d) /\ is_Some (path_get ["mode"] d)
  | Architect | PrepareParallelBuilders | Tester => True
  | ParallelBuilders =>
      exists items, path_get itemsPath d = Some (JArr items) /\
                    forallb file_task_ok items = true
  | TestsPassedQ | MaxIterationsReachedQ =>
      exists i,
        path_get ["tester_result"; "statusCode"] d = Some (JNum 200) /\
        path_get ["tester_result"; "body"; "tests_passed"] d = Some (JBool false) /\
        path_get ["tester_result"; "body"; "iteration"] d = Some (JNum i) /\
        (i < 3)%Z
  | _ => False
  end.

End WorkflowAux.

(** ** More concrete builds *)

Module MoreScenarios.
Import Workflow Scenarios.

Definition readme_md : jvalue :=
  JObj [("file_path", JStr "README.md"); ("specification", JStr "describe the script");
        ("language", JStr "markdown")].

(** The state input at [ParallelBuilders] for a three-file design. *)
Definition three_files : jvalue :=
  JObj [("build_id", JStr "b-1");
        ("build_tasks",
         JObj [("tasks", JArr [hello_py; test_hello_py; readme_md]);
               ("total_files", JNum 3)])].

Definition file_task (file_path : string) : jvalue :=
  JObj [("file_path", JStr file_path); ("specification", JStr "one module of the tool");
        ("language", JStr "python")].

Definition eight_tasks : list jvalue :=
  file_task <$> ["a.py"; "b.py"; "c.py"; "d.py"; "e.py"; "f.py"; "g.py"; "h.py"].

(** The state input at [ParallelBuilders] for an eight-file design. *)
Definition eight_files : jvalue :=
  JObj [("build_id", JStr "b-1");
        ("build_tasks", JObj [("tasks", JArr eight_tasks); ("total_files", JNum 8)])].

(** Stage functions that always answer, the Builder with the path of
    the file it was given, under a service that starts the iterations and
    lets them return out of their order. *)
Definition out_of_order : Env :=
  {| answer := fun _ fn p =>
       match fn with
       | builderFunction =>
           Some (JObj [("file_path", default JNull (path_get ["file_path"] p));
                       ("status", JStr "success")])
       | _ => Some (stage_result 200 [])
       end;
     pick := fun _ t => if Nat.ltb (t mod 9) 7 then Start t else Finish t |}.

(** Stage functions of which the Builder fails for good on its second
    invocation (the invocation numbered [n0 + 1]). *)
Definition second_builder_fails (n0 : nat) : Env :=
  answers (fun n fn _ =>
    match fn with
    | builderFunction =>
        if Nat.eqb n (S n0) then None
        else Some (JObj [("file_path", JStr "hello.py"); ("status", JStr "success")])
    | _ => Some (stage_result 200 [])
    end).

(** A one-file build whose Tester always reports a failed first
    iteration. *)
Definition stuck_build : Env :=
  answers (fun _ fn _ =>
    match fn with
    | orchestratorFunction =>
        Some (JObj [("tasks", JArr [hello_py]); ("total_files", JNum 1)])
    | builderFunction =>
        Some (JObj [("file_path", JStr "hello.py"); ("status", JStr "success")])
    | testerFunction => Some (stage_result 200 (report false 1))
    | _ => Some (stage_result 200 [])
    end).

(** Stage functions of which the Builder fails for good on the first
    invocation of a round that begins at invocation [n0]. *)
Definition first_builder_fails (n0 : nat) : Env :=
  answers (fun n fn _ =>
    match fn with
    | builderFunction =>
        if Nat.eqb n n0 then None
        else Some (JObj [("file_path", JStr "hello.py"); ("status", JStr "success")])
    | _ => Some (stage_result 200 [])
    end).

(** A one-file build whose Tester answers 500 with an error message. *)
Definition tester_crashes : Env :=
  answers (fun _ fn _ =>
    match fn with
    | orchestratorFunction =>
        Some (JObj [("tasks", JArr [hello_py]); ("total_files", JNum 1)])
    | builderFunction =>
        Some (JObj [("file_path", JStr "hello.py"); ("status", JStr "success")])
    | testerFunction => Some (stage_result 500 [("error", JStr "sandbox crashed")])
    | _ => Some (stage_result 200 [])
    end).

(** Stage functions that all fail for good. *)
Definition nothing_works : Env := answers (fun _ _ _ => None).

(** A Scout that reports status 500 in its envelope. *)
Definition scout_reports_500 : Env :=
  answers (fun _ fn _ =>
    match fn with
    | scoutFunction => Some (stage_result 500 [("error", JStr "model unavailable")])
    | _ => None
    end).

(** A request that asks for nonsense besides its task. *)
Definition odd_request : gmap string jvalue :=
  {[ "task" := JStr "Build a hello-world script";
     "mode" := JNull;
     "max_iterations" := JNum (-1) ]}.

Definition empty_task_request : gmap string jvalue := {[ "task" := JStr "" ]}.

(** What Python takes for false. *)
Definition falsy : list jvalue :=
  [JNull; JStr ""; JNum 0; JBool false; JArr []; JObj []].

End MoreScenarios.

(** ** Vocabulary for statements about requests *)

Module HandlerAux.
Import Handler.

(** Does the character occur in the string? *)
Fixpoint occurs (c : ascii) (s : string) : bool :=
  match s with
  | EmptyString => false
  | String c' s' => Ascii.eqb c' c || occurs c s'
  end.

(** A build id as it can appear as one path segment, not mistaken for the
    logs route: no slash, and it does not begin with [logs]. *)
Definition plain_id (id : string) : Prop :=
  occurs "/" id = false /\ String.prefix "logs" id = false.

(** An oracle for examples: the stop succeeds, logs exist for [b-1]
    only. *)
Definition an_oracle : Oracle :=
  {| uuid4 := "b-9";
     utcnow := "2024-05-02T10:00:00";
     start_execution := Api.StartOk "arn:b-9";
     stop_execution := Api.StopOk;
     AWS_REGION := "us-east-1";
     AWS_ACCOUNT_ID := "123456789012";
     get_object := fun key =>
       if String.eqb key "b-1/test-output.log" then S3Object "1 passed"
       else NoSuchKey |}.

Definition request (method path : string) : Event :=
  {| path := path; httpMethod := method; body := None; status_param := None |}.

End HandlerAux.

(** ** The end-to-end script

    [scripts/test-e2e.sh]: it starts a build and polls its status, at most
    30 times, until the status is [passed] or [failed]; it exits with 0 when
    the last status read is [passed] and with 1 otherwise.  A read that
    fails ends the script at once ([set -e]); [observe] stands for reads
    that succeed. *)

Module E2E.

(** [observe i] is the status read by the poll numbered [i] (from 0). *)
Definition final (STATUS : string) : bool :=
  String.eqb STATUS "passed" || String.eqb STATUS "failed".

(** The [for] loop: [remaining] rounds left, [i] polls made, [STATUS] the
    variable as it stands.  The result is the variable after the loop and
    the number of polls made. *)
Fixpoint poll (remaining : nat) (observe : nat -> string) (i : nat) (STATUS : string)
    : string * nat :=
  match remaining with
  | O => (STATUS, i)
  | S remaining' =>
      let STATUS := observe i in
      if final STATUS then (STATUS, S i)
      else poll remaining' observe (S i) STATUS
  end.

Definition rounds : nat := 30.

(** The exit code of the script and the number of polls it made. *)
Definition test_e2e (observe : nat -> string) : Z * nat :=
  let '(STATUS, polls) := poll rounds observe 0 "" in
  (if String.eqb STATUS "passed" then 0 else 1, polls).

(** A build that is cancelled while it is tested. *)
Definition cancelled_build (i : nat) : string :=
  if Nat.ltb i 3 then "testing" else "cancelled".

(** A build that passes at the fifth poll. *)
Definition passing_build (i : nat) : string :=
  if Nat.ltb i 4 then "testing" else "passed".

End E2E.

(** ** Properties of the workflow *)

Module WorkflowFacts.
Import Workflow Scenarios.
Local Open Scope list_scope.

Section Decision.
Variable d : jvalue.

Lemma tests_passed_200_true :
  path_get ["tester_result"; "statusCode"] d = Some (JNum 200) ->
  path_get ["tester_result"; "body"; "tests_passed"] d = Some (JBool true) ->
  testsPassed d = Goto Deployer d.
Proof.
  intros Hc Hp. unfold testsPassed, when, and_, numberEquals, booleanEquals.
  rewrite Hc, Hp. reflexivity.
Qed.

Lemma tests_passed_500 :
  path_get ["tester_result"; "statusCode"] d = Some (JNum 500) ->
  testsPassed d = Goto TesterFailed d.
Proof.
  intros Hc. unfold testsPassed, when, and_, numberEquals.
  rewrite Hc. reflexivity.
Qed.

(** Any other status code is sent to the iteration check. *)
Lemma tests_passed_other code :
  path_get ["tester_result"; "statusCode"] d = Some (JNum code) ->
  code <> 200 -> code <> 500 ->
  testsPassed d = Goto MaxIterationsReachedQ d.
Proof.
  intros Hc H200 H500. unfold testsPassed, when, and_, numberEquals, otherwise.
  rewrite Hc.
  destruct (Z.eqb_spec code 200) as [|_]; [contradiction|].
  destruct (Z.eqb_spec code 500) as [|_]; [contradiction|].
  reflexivity.
Qed.

(** The iteration check reads the Tester's [iteration] and the literal
    3; [$.max_iterations] is not looked at. *)
Lemma iteration_check_against_three i :
  path_get ["tester_result"; "body"; "iteration"] d = Some (JNum i) ->
  maxIterationsReached d = Goto (if (3 <=? i)%Z then BuildFailed else Architect) d.
Proof.
  intros Hi. unfold maxIterationsReached, when, numberGreaterThanEquals, otherwise.
  rewrite Hi. destruct (3 <=? i)%Z; reflexivity.
Qed.
End Decision.

(** A build whose tests pass in the first round: one pass through the
    stages, then the Deployer. *)
Example first_round_passes :
  let '(tr, o) := execute 40 (one_file_build 200 true) (hello_input 3) in
  o = Succeeded /\
  omap (fun e => match e with Enter s => Some s | _ => None end) tr =
    [Scout; Architect; PrepareParallelBuilders; ParallelBuilders; Tester;
     TestsPassedQ; Deployer; BuildSucceeded].
Proof. vm_compute. split; reflexivity. Qed.

(** Tests failed at iteration 1 of 3: back to [Architect]. *)
Example failed_round_heals :
  let d := after_tester 3 200 (report false 1) in
  (run 3 (one_file_build 200 false) 5 TestsPassedQ d).1 =
    [Enter TestsPassedQ; Enter MaxIterationsReachedQ; Enter Architect;
     Invoke architectFunction (JObj [("build_id", JStr "b-1")])].
Proof. vm_compute. reflexivity. Qed.

(** C1 (evaluation of the code at the failing input).  A build started
    with [max_iterations = 1] whose Tester reports [tests_passed = false]
    in every round is sent back to [Architect] after the first and the
    second failed round: the execution enters [Architect] three times and
    fails with [MaxIterationsReached] only when the Tester reports
    iteration 3. *)
Theorem max_iterations_one_reenters_architect :
  let d1 := after_tester 1 200 (report false 1) in
  testsPassed d1 = Goto MaxIterationsReachedQ d1 /\
  maxIterationsReached d1 = Goto Architect d1 /\
  let '(tr, o) := execute 40 (one_file_build 200 false) (hello_input 1) in
  entries Architect tr = 3%nat /\
  entries Tester tr = 3%nat /\
  o = Failed "MaxIterationsReached" "Tests failed after maximum iterations (3)".
Proof. vm_compute. repeat split; reflexivity. Qed.

(** C3 (the claim as stated fails).  A Tester answer with status 503, a
    fatal stage error in the 5xx range, is not sent to [TesterFailed]: it
    goes through the iteration check and, at iteration 1, back to
    [Architect]. *)
Lemma tester_503_reaches_iteration_check :
  let d := after_tester 3 503 (report false 1) in
  fatal_stage_error 503 = true /\
  testsPassed d = Goto MaxIterationsReachedQ d /\
  maxIterationsReached d = Goto Architect d /\
  (run 3 (one_file_build 503 false) 5 TestsPassedQ d).1 =
    [Enter TestsPassedQ; Enter MaxIterationsReachedQ; Enter Architect;
     Invoke architectFunction (JObj [("build_id", JStr "b-1")])].
Proof. vm_compute. repeat split; reflexivity. Qed.

(** C3 (amended).  When the Tester's status code is 500 and its body
    carries an error string, the execution goes from [TestsPassed?]
    straight to the fail state [TesterFailed] and ends with error
    [TesterLambdaError] and that string as cause: no stage is invoked, and
    neither [tests_passed] nor [iteration] has any influence (they need
    not even be present).  When the body carries no error string the
    fail state cannot read its cause, and the execution ends there with
    a runtime error instead. *)
Theorem tester_500_fails_directly (fuel : nat) (env : Env) (n : nat) (d : jvalue) :
  path_get ["tester_result"; "statusCode"] d = Some (JNum 500) ->
  (forall cause,
     path_get ["tester_result"; "body"; "error"] d = Some (JStr cause) ->
     run (S (S fuel)) env n TestsPassedQ d =
       ([Enter TestsPassedQ; Enter TesterFailed], Failed "TesterLambdaError" cause)) /\
  ((forall cause, path_get ["tester_result"; "body"; "error"] d <> Some (JStr cause)) ->
     run (S (S fuel)) env n TestsPassedQ d =
       ([Enter TestsPassedQ; Enter TesterFailed], Aborted "States.Runtime")).
Proof.
  intros Hc. cbn [run step]. rewrite (tests_passed_500 d Hc). cbn [run step].
  unfold fail_with_cause_at. split.
  - intros cause ->. reflexivity.
  - intros Hno.
    destruct (path_get ["tester_result"; "body"; "error"] d) as [[| | |c| |]|];
      try reflexivity.
    by destruct (Hno c).
Qed.

(** A Tester that answers 500 with an error message, at the choice. *)
Lemma tester_500_fails_directly_witness :
  let d := after_tester 3 500 [("error", JStr "sandbox crashed")] in
  path_get ["tester_result"; "statusCode"] d = Some (JNum 500) /\
  run 2 (one_file_build 500 false) 5 TestsPassedQ d =
    ([Enter TestsPassedQ; Enter TesterFailed],
     Failed "TesterLambdaError" "sandbox crashed").
Proof.
  split; [reflexivity|].
  exact (proj1 (tester_500_fails_directly 0 (one_file_build 500 false) 5
                  (after_tester 3 500 [("error", JStr "sandbox crashed")]) eq_refl)
           "sandbox crashed" eq_refl).
Defined.

(** C9 (the claim as stated fails).  A Tester answer with the success
    status 201 and [tests_passed = true] does not reach the Deployer: the
    build is sent round the self-healing loop and ends in
    [MaxIterationsReached] without one Deployer invocation. *)
Lemma tester_201_passed_never_deploys :
  let d := after_tester 3 201 (report true 1) in
  success_status 201 = true /\
  testsPassed d = Goto MaxIterationsReachedQ d /\
  maxIterationsReached d = Goto Architect d /\
  let '(tr, o) := execute 40 (one_file_build 201 true) (hello_input 3) in
  invocations deployerFunction tr = [] /\
  entries Deployer tr = 0%nat /\
  o = Failed "MaxIterationsReached" "Tests failed after maximum iterations (3)".
Proof. vm_compute. repeat split; reflexivity. Qed.

(** C9 (amended).  When the Tester's status code is 200 and
    [tests_passed] is true, the execution goes from [TestsPassed?] to the
    Deployer, which is invoked once with
    [{build_id, test_result: "PASSED"}]; when that invocation answers
    with a status code and a body, the execution succeeds at
    [BuildSucceeded], and no earlier state is entered again. *)
Theorem tests_passed_deploys_once (fuel : nat) (env : Env) (n : nat)
    (d build_id response sc b : jvalue) :
  path_get ["tester_result"; "statusCode"] d = Some (JNum 200) ->
  path_get ["tester_result"; "body"; "tests_passed"] d = Some (JBool true) ->
  path_get ["build_id"] d = Some build_id ->
  env n deployerFunction
      (JObj [("build_id", build_id); ("test_result", JStr "PASSED")]) = Some response ->
  path_get ["statusCode"] response = Some sc ->
  path_get ["body"] response = Some b ->
  run (3 + fuel) env n TestsPassedQ d =
    ([Enter TestsPassedQ; Enter Deployer;
      Invoke deployerFunction
        (JObj [("build_id", build_id); ("test_result", JStr "PASSED")]);
      Enter BuildSucceeded],
     Succeeded).
Proof.
  intros Hc Hp Hid Henv Hsc Hb.
  cbn [Nat.add run step]. rewrite (tests_passed_200_true d Hc Hp).
  cbn [app length]. rewrite Nat.add_0_r.
  destruct d as [| | | | |fields]; try discriminate Hid.
  unfold step at 1. unfold task, invoke.
  cbn [payload deployerTask eval_template eval_field].
  rewrite Hid. cbn [lambdaFunction deployerTask]. rewrite Henv.
  cbn [resultSelector resultPath deployerTask stage_selector eval_template eval_field].
  change (path_get ["Payload"; "statusCode"] (JObj [("Payload", response)]))
    with (path_get ["statusCode"] response).
  change (path_get ["Payload"; "body"] (JObj [("Payload", response)]))
    with (path_get ["body"] response).
  rewrite Hsc, Hb. reflexivity.
Qed.

(** The one-file build whose tests pass in the first round, at the choice. *)
Lemma tests_passed_deploys_once_witness :
  let d := after_tester 1 200 (report true 1) in
  let env := one_file_build 200 true in
  run 3 env 5 TestsPassedQ d =
    ([Enter TestsPassedQ; Enter Deployer;
      Invoke deployerFunction
        (JObj [("build_id", JStr "b-1"); ("test_result", JStr "PASSED")]);
      Enter BuildSucceeded],
     Succeeded).
Proof.
  exact (tests_passed_deploys_once 0 (one_file_build 200 true) 5
           (after_tester 1 200 (report true 1)) (JStr "b-1")
           (stage_result 200 []) (JNum 200) (JObj [])
           eq_refl eq_refl eq_refl eq_refl eq_refl eq_refl).
Defined.

End WorkflowFacts.

(** ** The map state: rounds of parallel builds *)

Module RoundFacts.
Import Workflow WorkflowAux Scenarios MoreScenarios.
Local Open Scope list_scope.

(** *** Starting an iteration *)

Lemma start_iteration_spec env n d item :
  start_iteration env n d item =
    match iteration_payload d item with
    | Some p => Some (p, builder_result env n p)
    | None => None
    end.
Proof.
  unfold start_iteration, iteration_payload, builder_result, invoke.
  destruct (eval_template d item parameters) as [input|]; [|done].
  destruct (eval_template (JObj input) JNull (payload builderTask)) as [p|]; [|done].
  reflexivity.
Qed.

Lemma path_get_one k fields : path_get [k] (JObj fields) = assoc k fields.
Proof. cbn. by destruct (assoc k fields). Qed.

(** The payload of an iteration is the one of its FileTask. *)
Lemma iteration_payload_builder fields id item :
  assoc "build_id" fields = Some id ->
  iteration_payload (JObj fields) item = builder_payload id item.
Proof.
  intros Hid. unfold iteration_payload, builder_payload.
  cbn -[path_get]. rewrite path_get_one, Hid.
  destruct (path_get ["file_path"] item) as [f|]; [|done].
  destruct (path_get ["specification"] item) as [sp|]; [|done].
  destruct (path_get ["language"] item) as [l|]; [|done].
  reflexivity.
Qed.

Lemma builder_result_ok (env : Env) n p r :
  env n builderFunction p = Some r ->
  builder_response_ok r = true ->
  exists out, builder_result env n p = Ok out.
Proof.
  intros Hr Hok. unfold builder_result. rewrite Hr.
  unfold builder_response_ok in Hok. cbn -[path_get].
  change (path_get ["Payload"; "file_path"] (JObj [("Payload", r)]))
    with (path_get ["file_path"] r).
  change (path_get ["Payload"; "status"] (JObj [("Payload", r)]))
    with (path_get ["status"] r).
  destruct (path_get ["file_path"] r); [|done].
  destruct (path_get ["status"] r); [|done]. eauto.
Qed.

Lemma builder_result_fails (env : Env) n p :
  builder_fails (env n builderFunction p) ->
  exists e, builder_result env n p = Err e.
Proof.
  unfold builder_fails, builder_result.
  destruct (env n builderFunction p) as [r|]; [|eauto].
  unfold builder_response_ok. cbn -[path_get].
  change (path_get ["Payload"; "file_path"] (JObj [("Payload", r)]))
    with (path_get ["file_path"] r).
  change (path_get ["Payload"; "status"] (JObj [("Payload", r)]))
    with (path_get ["status"] r).
  destruct (path_get ["file_path"] r); [|eauto].
  destruct (path_get ["status"] r); [done|eauto].
Qed.

(** *** Turns *)

Lemma extract_Permutation {A} (k : nat) (x : A) (l : list A) z rest :
  extract k x l = (z, rest) -> x :: l ≡ₚ z :: rest.
Proof.
  revert x l z rest. induction k as [|k IH]; intros x l z rest H; cbn in H.
  - by simplify_eq.
  - destruct l as [|y l]; [by simplify_eq|].
    destruct (extract k y l) as [z' rest'] eqn:He. simplify_eq.
    rewrite (IH _ _ _ _ He). apply Permutation_swap.
Qed.

Lemma start_cases env n d k q qs fl ou :
  (length fl < maxConcurrency)%nat ->
  turn_of env n d (mkRound (q :: qs) fl ou) (start env n d k q qs (mkRound (q :: qs) fl ou)).
Proof.
  intros Hlt. unfold start. destruct (extract k q qs) as [[i item] rest] eqn:He.
  apply extract_Permutation in He. rewrite start_iteration_spec.
  destruct (iteration_payload d item) as [p|] eqn:Hp; cbn; eauto 10.
Qed.

Lemma finish_cases env n d k qu f fs ou :
  turn_of env n d (mkRound qu (f :: fs) ou) (finish k f fs (mkRound qu (f :: fs) ou)).
Proof.
  unfold finish. destruct (extract k f fs) as [[i result] rest] eqn:He.
  apply extract_Permutation in He.
  destruct result as [out|e]; cbn; eauto.
Qed.

(** A turn starts an iteration only below [maxConcurrency], with the
    payload of a queued item, and lets only an iteration in flight
    return. *)
Lemma turn_cases env n d p r : turn_of env n d r (turn env n d p r).
Proof.
  destruct r as [qu fl ou]. unfold turn. cbn [queued in_flight outputs].
  destruct qu as [|q qs], fl as [|f fs].
  - done.
  - apply finish_cases.
  - apply start_cases. unfold maxConcurrency; cbn; lia.
  - destruct p as [k|k]; [|apply finish_cases].
    destruct (Nat.ltb_spec (length (f :: fs)) maxConcurrency) as [Hlt|_];
      [by apply start_cases | apply finish_cases].
Qed.

Lemma round_unfold budget env n0 t n d r :
  round budget env n0 t n d r =
    match turn env n d (pick env n0 t) r with
    | Completes outs => ([], Ok outs)
    | Fails None e => ([], Err e)
    | Fails (Some i) e => ([Settled i], Err e)
    | Starts i p r' =>
        match budget with
        | O => ([], Err "States.Runtime")
        | S budget' =>
            let '(rt, res) := round budget' env n0 (S t) (S n) d r' in
            (Dispatched i p :: rt, res)
        end
    | Returns i r' =>
        match budget with
        | O => ([], Err "States.Runtime")
        | S budget' =>
            let '(rt, res) := round budget' env n0 (S t) n d r' in
            (Settled i :: rt, res)
        end
    end.
Proof. by destruct budget. Qed.

(** *** Rounds *)

Lemma settled_settled i rt : settled (Settled i :: rt) = i :: settled rt.
Proof. reflexivity. Qed.

Lemma settled_dispatched i p rt : settled (Dispatched i p :: rt) = settled rt.
Proof. reflexivity. Qed.

Lemma dispatches_settled i rt : dispatches (Settled i :: rt) = dispatches rt.
Proof. reflexivity. Qed.

Lemma dispatches_dispatched i p rt :
  dispatches (Dispatched i p :: rt) = (i, p) :: dispatches rt.
Proof. reflexivity. Qed.

Lemma dispatched_settled i rt : dispatched (Settled i :: rt) = dispatched rt.
Proof. reflexivity. Qed.

Lemma dispatched_dispatched i p rt :
  dispatched (Dispatched i p :: rt) = i :: dispatched rt.
Proof. reflexivity. Qed.

Ltac events :=
  rewrite ?take_nil, ?settled_settled, ?settled_dispatched, ?dispatches_settled,
    ?dispatches_dispatched, ?dispatched_settled, ?dispatched_dispatched;
  change (settled []) with (@nil nat);
  change (dispatched []) with (@nil nat);
  change (dispatches []) with (@nil (nat * jvalue));
  cbn [length].

Section Round.
Variables (env : Env) (n0 : nat) (d : jvalue).

(** One step of the induction on the turns of a round. *)
Lemma round_cases budget t n r rt res :
  round budget env n0 t n d r = (rt, res) ->
  match turn env n d (pick env n0 t) r with
  | Completes outs => rt = [] /\ res = Ok outs
  | Fails None e => rt = [] /\ res = Err e
  | Fails (Some i) e => rt = [Settled i] /\ res = Err e
  | Starts i p r' =>
      match budget with
      | O => rt = [] /\ res = Err "States.Runtime"
      | S budget' =>
          exists rt', round budget' env n0 (S t) (S n) d r' = (rt', res) /\
                      rt = Dispatched i p :: rt'
      end
  | Returns i r' =>
      match budget with
      | O => rt = [] /\ res = Err "States.Runtime"
      | S budget' =>
          exists rt', round budget' env n0 (S t) n d r' = (rt', res) /\
                      rt = Settled i :: rt'
      end
  end.
Proof.
  rewrite round_unfold.
  destruct (turn env n d (pick env n0 t) r) as [i p r'|i r'|[i|] e|outs];
    try (intros; by simplify_eq).
  - destruct budget as [|budget]; [intros; by simplify_eq|].
    destruct (round budget env n0 (S t) (S n) d r') as [rt' res'].
    intros; simplify_eq; eauto.
  - destruct budget as [|budget]; [intros; by simplify_eq|].
    destruct (round budget env n0 (S t) n d r') as [rt' res'].
    intros; simplify_eq; eauto.
Qed.

(** At every moment of a round at most [maxConcurrency] iterations are in
    flight. *)
Lemma round_bound budget :
  forall t n r rt res k,
    round budget env n0 t n d r = (rt, res) ->
    (length (in_flight r) <= maxConcurrency)%nat ->
    (length (settled (take k rt))
       <= length (in_flight r) + length (dispatched (take k rt)))%nat /\
    (length (in_flight r) + length (dispatched (take k rt))
       - length (settled (take k rt)) <= maxConcurrency)%nat.
Proof.
  induction budget as [|budget IH]; intros t n r rt res k H Hlen;
    apply round_cases in H;
    pose proof (turn_cases env n d (pick env n0 t) r) as Ht;
    destruct (turn env n d (pick env n0 t) r) as [i p r'|i r'|[i|] e|outs];
    cbn [turn_of] in Ht; unfold maxConcurrency in *;
    try (destruct H as [-> _]; events; lia).
  - destruct Ht as [rest Hperm]. apply Permutation_length in Hperm. cbn in Hperm.
    destruct H as [-> _]. destruct k; cbn [take]; events; lia.
  - destruct H as (rt' & Hr & ->).
    destruct Ht as (item & _ & Hfl & _ & _ & Hlt).
    destruct k as [|k]; cbn [take]; events; [lia|].
    destruct (IH _ _ _ _ _ k Hr) as [H1 H2].
    { rewrite Hfl, length_app. cbn. lia. }
    rewrite Hfl, length_app in H1, H2. cbn [length] in *. lia.
  - destruct H as (rt' & Hr & ->).
    destruct Ht as (out & Hperm & _). apply Permutation_length in Hperm. cbn in Hperm.
    destruct k as [|k]; cbn [take]; events; [lia|].
    destruct (IH _ _ _ _ _ k Hr) as [H1 H2]; [lia|]. lia.
  - destruct Ht as [rest Hperm]. apply Permutation_length in Hperm. cbn in Hperm.
    destruct H as [-> _]. destruct k; cbn [take]; events; lia.
Qed.

(** Every iteration started is that of a queued item, started once, with
    the payload of the item; every iteration that returns was in flight;
    and a round that completes has started and seen return all of
    them. *)
Lemma round_account budget :
  forall t n r rt res,
    round budget env n0 t n d r = (rt, res) ->
    exists started rest_q rest_f,
      queued r ≡ₚ started ++ rest_q /\
      Forall2 (fun q e => e.1 = q.1 /\ iteration_payload d q.2 = Some e.2)
        started (dispatches rt) /\
      (in_flight r).*1 ++ dispatched rt ≡ₚ settled rt ++ rest_f /\
      (forall outs, res = Ok outs ->
         rest_q = [] /\ rest_f = [] /\ outs.*1 ≡ₚ (outputs r).*1 ++ settled rt).
Proof.
  assert (Hnone : forall r e,
            exists started rest_q rest_f,
              queued r ≡ₚ started ++ rest_q /\
              Forall2 (fun q e => e.1 = q.1 /\ iteration_payload d q.2 = Some e.2)
                started (dispatches []) /\
              (in_flight r).*1 ++ dispatched [] ≡ₚ settled [] ++ rest_f /\
              (forall outs, @Err (list (nat * jvalue)) e = Ok outs ->
                 rest_q = [] /\ rest_f = [] /\
                 outs.*1 ≡ₚ (outputs r).*1 ++ settled [])).
  { intros r e. exists [], (queued r), (in_flight r).*1. events.
    split; [done|]. split; [constructor|]. split; [by rewrite app_nil_r|]. done. }
  assert (Hfail : forall r i e rest,
            in_flight r ≡ₚ (i, Err e) :: rest ->
            exists started rest_q rest_f,
              queued r ≡ₚ started ++ rest_q /\
              Forall2 (fun q e => e.1 = q.1 /\ iteration_payload d q.2 = Some e.2)
                started (dispatches [Settled i]) /\
              (in_flight r).*1 ++ dispatched [Settled i] ≡ₚ settled [Settled i] ++ rest_f /\
              (forall outs, @Err (list (nat * jvalue)) e = Ok outs ->
                 rest_q = [] /\ rest_f = [] /\
                 outs.*1 ≡ₚ (outputs r).*1 ++ settled [Settled i])).
  { intros r i e rest Hperm. exists [], (queued r), rest.*1. events.
    split; [done|]. split; [constructor|].
    split; [by rewrite app_nil_r, Hperm|]. done. }
  assert (Hdone : forall r,
            queued r = [] -> in_flight r = [] ->
            exists started rest_q rest_f,
              queued r ≡ₚ started ++ rest_q /\
              Forall2 (fun q e => e.1 = q.1 /\ iteration_payload d q.2 = Some e.2)
                started (dispatches []) /\
              (in_flight r).*1 ++ dispatched [] ≡ₚ settled [] ++ rest_f /\
              (forall outs, Ok (outputs r) = Ok outs ->
                 rest_q = [] /\ rest_f = [] /\
                 outs.*1 ≡ₚ (outputs r).*1 ++ settled [])).
  { intros r Hq Hf. exists [], [], []. events. rewrite Hq, Hf.
    split; [done|]. split; [constructor|]. split; [done|].
    intros outs [= <-]. by rewrite app_nil_r. }
  induction budget as [|budget IH]; intros t n r rt res H;
    apply round_cases in H;
    pose proof (turn_cases env n d (pick env n0 t) r) as Ht;
    destruct (turn env n d (pick env n0 t) r) as [i p r'|i r'|[i|] e|outs];
    cbn [turn_of] in Ht.
  - destruct H as [-> ->]. apply Hnone.
  - destruct H as [-> ->]. apply Hnone.
  - destruct H as [-> ->]. destruct Ht as [rest Hperm]. by eapply Hfail.
  - destruct H as [-> ->]. apply Hnone.
  - destruct H as [-> ->]. destruct Ht as (Hq & Hf & ->). by apply Hdone.
  - destruct H as (rt' & Hr & ->).
    destruct Ht as (item & Hq & Hfl & Hou & Hp & _).
    destruct (IH _ _ _ _ _ Hr) as (started & rest_q & rest_f & Hq' & Hst & Hfl' & Hok).
    exists ((i, item) :: started), rest_q, rest_f. events.
    split; [by rewrite Hq, Hq'|].
    split; [by constructor|].
    split.
    { rewrite Hfl, fmap_app in Hfl'. cbn in Hfl'. rewrite <- Hfl'. solve_Permutation. }
    intros outs Hres. destruct (Hok outs Hres) as (-> & -> & Hou').
    by rewrite Hou in Hou'.
  - destruct H as (rt' & Hr & ->).
    destruct Ht as (out & Hfl & Hq & Hou).
    destruct (IH _ _ _ _ _ Hr) as (started & rest_q & rest_f & Hq' & Hst & Hfl' & Hok).
    exists started, rest_q, rest_f. events.
    split; [by rewrite <- Hq|].
    split; [done|].
    split.
    { rewrite Hfl. cbn. by rewrite Hfl'. }
    intros outs Hres. destruct (Hok outs Hres) as (-> & -> & Hou').
    repeat split; try done. rewrite Hou', Hou. cbn. solve_Permutation.
  - destruct H as [-> ->]. destruct Ht as [rest Hperm]. by eapply Hfail.
  - destruct H as [-> ->]. apply Hnone.
  - destruct H as [-> ->]. destruct Ht as (Hq & Hf & ->). by apply Hdone.
Qed.

(** An iteration in flight that fails is not recovered from. *)
Lemma round_gives_up budget :
  forall t n r rt res i e,
    round budget env n0 t n d r = (rt, res) ->
    (i, Err e) ∈ in_flight r ->
    exists e', res = Err e'.
Proof.
  induction budget as [|budget IH]; intros t n r rt res i0 e0 H Hin;
    apply round_cases in H;
    pose proof (turn_cases env n d (pick env n0 t) r) as Ht;
    destruct (turn env n d (pick env n0 t) r) as [i p r'|i r'|[i|] e|outs];
    cbn [turn_of] in Ht;
    try (destruct H as [_ ->]; by eauto).
  - destruct Ht as (_ & Hf & _). rewrite Hf in Hin. by apply elem_of_nil in Hin.
  - destruct H as (rt' & Hr & ->). destruct Ht as (item & _ & Hfl & _).
    apply (IH _ _ _ _ _ i0 e0 Hr). rewrite Hfl, elem_of_app. by left.
  - destruct H as (rt' & Hr & ->). destruct Ht as (out & Hfl & _).
    apply (IH _ _ _ _ _ i0 e0 Hr).
    rewrite Hfl, elem_of_cons in Hin. by destruct Hin as [?|?].
  - destruct Ht as (_ & Hf & _). rewrite Hf in Hin. by apply elem_of_nil in Hin.
Qed.

(** The invocation numbered [n + k] is the [k]-th of the round; when it
    fails, the round fails. *)
Lemma round_failing_answer budget :
  forall t n r rt res k i p,
    round budget env n0 t n d r = (rt, res) ->
    dispatches rt !! k = Some (i, p) ->
    builder_fails (env (n + k)%nat builderFunction p) ->
    exists e, res = Err e.
Proof.
  induction budget as [|budget IH]; intros t n r rt res k i0 p0 H Hk Hfail;
    apply round_cases in H;
    pose proof (turn_cases env n d (pick env n0 t) r) as Ht;
    destruct (turn env n d (pick env n0 t) r) as [i p r'|i r'|[i|] e|outs];
    cbn [turn_of] in Ht;
    try (destruct H as [_ ->]; by eauto);
    try (destruct H as [-> _]; by cbn in Hk).
  - destruct H as (rt' & Hr & ->). destruct Ht as (item & _ & Hfl & _).
    destruct k as [|k]; cbn in Hk.
    + injection Hk as -> ->. rewrite Nat.add_0_r in Hfail.
      destruct (builder_result_fails _ _ _ Hfail) as [e He].
      apply (round_gives_up _ _ _ _ _ _ i0 e Hr).
      rewrite Hfl, He, elem_of_app, list_elem_of_singleton. by right.
    + apply (IH _ _ _ _ _ k i0 p0 Hr Hk). by rewrite Nat.add_succ_comm.
  - destruct H as (rt' & Hr & ->). by apply (IH _ _ _ _ _ k i0 p0 Hr Hk).
Qed.

(** With items that have their fields and a Builder that answers, every
    round completes, whatever the turns. *)
Lemma round_ok budget :
  (forall m p, exists r, env m builderFunction p = Some r /\
                         builder_response_ok r = true) ->
  forall t n r rt res,
    round budget env n0 t n d r = (rt, res) ->
    Forall (fun q => is_Some (iteration_payload d q.2)) (queued r) ->
    Forall (fun f => exists out, f.2 = Ok out) (in_flight r) ->
    (turns r <= budget)%nat ->
    exists outs, res = Ok outs.
Proof.
  intros Henv.
  induction budget as [|budget IH]; intros t n r rt res H Hq Hf Hb;
    apply round_cases in H;
    pose proof (turn_cases env n d (pick env n0 t) r) as Ht;
    destruct (turn env n d (pick env n0 t) r) as [i p r'|i r'|[i|] e|outs];
    cbn [turn_of] in Ht; unfold turns in *;
    try (destruct H as [_ ->]; by eauto).
  - destruct Ht as (item & Hperm & _). apply Permutation_length in Hperm.
    cbn in Hperm. lia.
  - destruct Ht as (out & Hperm & _). apply Permutation_length in Hperm.
    cbn in Hperm. lia.
  - destruct Ht as [rest Hperm]. rewrite Hperm, Forall_cons in Hf.
    by destruct Hf as [[out ?] _].
  - destruct Ht as (i & item & rest & Hperm & Hnone).
    rewrite Hperm, Forall_cons in Hq. destruct Hq as [[p Hp] _].
    cbn in Hp. congruence.
  - destruct H as (rt' & Hr & ->).
    destruct Ht as (item & Hperm & Hfl & _ & _ & _).
    apply (IH _ _ _ _ _ Hr).
    + rewrite Hperm, Forall_cons in Hq. by destruct Hq.
    + rewrite Hfl. apply Forall_app. split; [done|]. repeat constructor. cbn.
      destruct (Henv n p) as (r0 & Hr0 & Hok). by eapply builder_result_ok.
    + apply Permutation_length in Hperm. rewrite Hfl, length_app. cbn in *. lia.
  - destruct H as (rt' & Hr & ->).
    destruct Ht as (out & Hperm & Hqu & _).
    apply (IH _ _ _ _ _ Hr).
    + by rewrite Hqu.
    + rewrite Hperm, Forall_cons in Hf. by destruct Hf.
    + apply Permutation_length in Hperm. rewrite Hqu. cbn in *. lia.
  - destruct Ht as [rest Hperm]. rewrite Hperm, Forall_cons in Hf.
    by destruct Hf as [[out ?] _].
  - destruct Ht as (i & item & rest & Hperm & Hnone).
    rewrite Hperm, Forall_cons in Hq. destruct Hq as [[p Hp] _].
    cbn in Hp. congruence.
Qed.

(** The budget of [fan_out] is never what ends a round: with the turns
    of the round or more, the round is the same. *)
Lemma round_budget budget :
  forall budget' t n r,
    (turns r <= budget)%nat -> (turns r <= budget')%nat ->
    round budget env n0 t n d r = round budget' env n0 t n d r.
Proof.
  induction budget as [|budget IH]; intros budget' t n r Hb Hb';
    rewrite (round_unfold _ env), (round_unfold budget' env);
    pose proof (turn_cases env n d (pick env n0 t) r) as Ht;
    destruct (turn env n d (pick env n0 t) r) as [i p r'|i r'|[i|] e|outs];
    cbn [turn_of] in Ht; unfold turns in *; try done.
  - destruct Ht as (item & Hperm & _). apply Permutation_length in Hperm.
    cbn in Hperm. lia.
  - destruct Ht as (out & Hperm & _). apply Permutation_length in Hperm.
    cbn in Hperm. lia.
  - destruct Ht as (item & Hperm & Hfl & _). apply Permutation_length in Hperm.
    destruct budget' as [|budget']; [cbn in Hperm; lia|].
    rewrite (IH budget'); [done| |]; rewrite Hfl, length_app; cbn in *; lia.
  - destruct Ht as (out & Hperm & Hqu & _). apply Permutation_length in Hperm.
    destruct budget' as [|budget']; [cbn in Hperm; lia|].
    rewrite (IH budget'); [done| |]; rewrite Hqu; cbn in *; lia.
Qed.

End Round.

(** *** The map state *)

Lemma invokes_dispatches rt :
  invokes rt = Invoke builderFunction <$> (dispatches rt).*2.
Proof.
  induction rt as [|[i p|i] rt IH]; [done| |done].
  unfold invokes in *. cbn. by rewrite IH.
Qed.

Lemma invokes_length rt : length (invokes rt) = length (dispatched rt).
Proof. unfold dispatched. by rewrite invokes_dispatches, !length_fmap. Qed.

Lemma invocations_invokes rt :
  invocations builderFunction (invokes rt) = (dispatches rt).*2.
Proof.
  rewrite invokes_dispatches. induction (dispatches rt).*2 as [|p l IH]; [done|].
  cbn. f_equal. exact IH.
Qed.

Lemma omap_iteration_payload fields id (items : list jvalue) :
  assoc "build_id" fields = Some id ->
  omap (iteration_payload (JObj fields)) items = omap (builder_payload id) items.
Proof.
  intros Hid. induction items as [|item items IH]; [done|].
  cbn [omap list_omap]. by rewrite (iteration_payload_builder _ _ _ Hid), IH.
Qed.

Lemma started_dispatches d (started ds : list (nat * jvalue)) :
  Forall2 (fun q e => e.1 = q.1 /\ iteration_payload d q.2 = Some e.2) started ds ->
  ds.*1 = started.*1 /\ omap (iteration_payload d) started.*2 = ds.*2.
Proof.
  induction 1 as [|q e started ds [H1 H2] _ [IH1 IH2]]; [done|].
  cbn. rewrite H1, H2, IH1, IH2. done.
Qed.

Lemma round_start_indices (items : list jvalue) : (queued (round_start items)).*1 = seq 0 (length items).
Proof. cbn. apply fst_zip. by rewrite length_seq. Qed.

Lemma round_start_items (items : list jvalue) : (queued (round_start items)).*2 = items.
Proof. cbn. apply snd_zip. by rewrite length_seq. Qed.

Lemma round_start_lookup items i item :
  (i, item) ∈ queued (round_start items) -> items !! i = Some item.
Proof.
  cbn. intros Hin. apply list_elem_of_lookup in Hin as [k Hk].
  apply lookup_zip_with_Some in Hk as (i' & item' & [= <- <-] & Hi & Hitem).
  apply lookup_seq in Hi as [-> _]. done.
Qed.

Lemma omap_fmap_invoke (f : jvalue -> option jvalue) (items : list jvalue) :
  omap (fun item => Invoke builderFunction <$> f item) items =
    Invoke builderFunction <$> omap f items.
Proof.
  induction items as [|item items IH]; [done|].
  cbn. rewrite IH. by destruct (f item).
Qed.

Lemma step_parallel_builders (env : Env) n d items :
  path_get itemsPath d = Some (JArr items) ->
  step env n ParallelBuilders d =
    match fan_out env n d items with
    | (rt, Ok outs) =>
        (invokes rt,
         match set_result "builder_results" (JArr (merge_sort index_le outs).*2) d with
         | Some d' => Goto Tester d'
         | None => Abort "States.Runtime"
         end)
    | (rt, Err e) => (invokes rt, Abort e)
    end.
Proof.
  intros Hitems. cbn [step]. rewrite Hitems. unfold iterations.
  destruct (fan_out env n d items) as [rt [outs|e]]; [|done].
  by destruct (set_result _ _ d).
Qed.

(** What a round of the map state over [items] amounts to. *)
Lemma fan_out_account (env : Env) n d items rt res :
  fan_out env n d items = (rt, res) ->
  (exists rest, seq 0 (length items) ≡ₚ dispatched rt ++ rest) /\
  (exists rest, dispatched rt ≡ₚ settled rt ++ rest) /\
  Forall (fun e => exists item, items !! e.1 = Some item /\
                                iteration_payload d item = Some e.2) (dispatches rt) /\
  (forall outs, res = Ok outs ->
     dispatched rt ≡ₚ seq 0 (length items) /\
     settled rt ≡ₚ seq 0 (length items) /\
     outs.*1 ≡ₚ seq 0 (length items) /\
     (dispatches rt).*2 ≡ₚ omap (iteration_payload d) items).
Proof.
  intros Hr. unfold fan_out in Hr.
  destruct (round_account _ _ _ _ _ _ _ _ _ Hr)
    as (started & rest_q & rest_f & Hq & Hst & Hfl & Hok).
  cbn [in_flight outputs round_start fmap list_fmap app] in Hfl, Hok.
  destruct (started_dispatches _ _ _ Hst) as [Hidx Hpay].
  assert (Hseq : seq 0 (length items) ≡ₚ dispatched rt ++ rest_q.*1).
  { rewrite <- round_start_indices, Hq, fmap_app. unfold dispatched. by rewrite Hidx. }
  split; [by eexists|]. split; [by eexists|]. split.
  - apply Forall_forall. intros [i p] Hin.
    apply list_elem_of_lookup in Hin as [k Hk].
    destruct (Forall2_lookup_r _ _ _ _ _ Hst Hk) as ([i' item] & Hk' & Hi & Hp).
    cbn in Hi, Hp. subst i'. exists item. split; [|done].
    apply round_start_lookup. rewrite Hq, elem_of_app. left.
    by eapply list_elem_of_lookup_2.
  - intros outs Hres. destruct (Hok outs Hres) as (-> & -> & Hou).
    rewrite !app_nil_r in *. cbn in Hou.
    split; [done|]. split; [by rewrite <- Hfl|]. split; [by rewrite Hou, <- Hfl|].
    rewrite <- Hpay, <- (round_start_items items), Hq. done.
Qed.

(** With items that have their fields and a Builder that answers, the map
    state completes, whatever the turns. *)
Lemma fan_out_ok (env : Env) n fields id items :
  assoc "build_id" fields = Some id ->
  forallb file_task_ok items = true ->
  (forall m p, exists r, env m builderFunction p = Some r /\
                         builder_response_ok r = true) ->
  exists rt outs, fan_out env n (JObj fields) items = (rt, Ok outs).
Proof.
  intros Hid Hitems Henv.
  destruct (fan_out env n (JObj fields) items) as [rt res] eqn:Hr.
  unfold fan_out in Hr.
  destruct (round_ok _ _ _ _ Henv _ _ _ _ _ Hr) as [outs ->]; [| |done|by eauto].
  - apply Forall_forall. intros [i item] Hin. apply round_start_lookup in Hin.
    cbn. rewrite (iteration_payload_builder _ _ _ Hid).
    apply list_elem_of_lookup_2 in Hin.
    rewrite forallb_forall in Hitems. apply list_elem_of_In, Hitems in Hin.
    unfold file_task_ok in Hin. unfold builder_payload.
    destruct (path_get ["file_path"] item); [|done].
    destruct (path_get ["specification"] item); [|done].
    destruct (path_get ["language"] item); [|done]. by eexists.
  - constructor.
Qed.

Lemma iterations_ok (env : Env) n fields id items :
  assoc "build_id" fields = Some id ->
  forallb file_task_ok items = true ->
  (forall m p, exists r, env m builderFunction p = Some r /\
                         builder_response_ok r = true) ->
  exists ev outs,
    iterations env n (JObj fields) items = (ev, Ok outs) /\
    ev ≡ₚ omap (fun item => Invoke builderFunction <$> builder_payload id item) items /\
    length ev = length items /\
    length outs = length items.
Proof.
  intros Hid Hitems Henv.
  destruct (fan_out_ok env n fields id items Hid Hitems Henv) as (rt & outs & Hr).
  destruct (fan_out_account _ _ _ _ _ _ Hr) as (_ & _ & _ & Hok).
  destruct (Hok outs eq_refl) as (Hd & Hs & Hou & Hpay).
  unfold iterations. rewrite Hr. eexists _, _. split; [reflexivity|].
  split; [|split].
  - by rewrite invokes_dispatches, omap_fmap_invoke, Hpay,
      (omap_iteration_payload _ _ _ Hid).
  - by rewrite invokes_length, Hd, length_seq.
  - rewrite length_fmap, merge_sort_Permutation, <- (length_fmap fst), Hou.
    apply length_seq.
Qed.

Lemma iterations_events (env : Env) n d items :
  Forall (fun e => exists p, e = Invoke builderFunction p) (iterations env n d items).1.
Proof.
  unfold iterations. destruct (fan_out env n d items) as [rt res]. cbn [fst].
  rewrite invokes_dispatches. apply Forall_fmap, Forall_true. intros p. by eexists.
Qed.

Lemma entries_of_invokes s rt : entries s (invokes rt) = 0%nat.
Proof.
  rewrite invokes_dispatches. by induction (dispatches rt).*2 as [|p l IH].
Qed.

(** C6 (the claim as stated fails).  A round over eight FileTasks whose
    first Builder invocation fails for good: six iterations are started,
    the failure of the first is seen and the state is aborted; the two
    FileTasks still queued are never given to the Builder. *)
Lemma failed_round_leaves_tasks_unstarted :
  let rt := (fan_out (first_builder_fails 3) 3 eight_files eight_tasks).1 in
  path_get itemsPath eight_files = Some (JArr eight_tasks) /\
  length eight_tasks = 8%nat /\
  step (first_builder_fails 3) 3 ParallelBuilders eight_files =
    (invokes rt, Abort "States.TaskFailed") /\
  dispatched rt = [0; 1; 2; 3; 4; 5]%nat /\
  length (invocations builderFunction (invokes rt)) = 6%nat.
Proof. vm_compute. repeat split; reflexivity. Qed.

(** C6 (amended).  A round of the [ParallelBuilders] map state over the
    FileTasks [items], whatever the stage functions answer and in
    whatever order the service starts the iterations and sees them
    return: the Builder invocations of the state are the iterations
    started; at every moment of the round at most 6 of them are in
    flight; an iteration started is that of a FileTask not started
    before, invoked with the payload of that FileTask; and the state goes
    on (to the Tester, its only successor) only when every FileTask has
    been started once and every iteration has returned, none being in
    flight.  With FileTasks that have their fields and a Builder that
    answers, the Tester is reached. *)
Theorem fan_out_bounded (env : Env) (n : nat) (d : jvalue) (items : list jvalue) :
  path_get itemsPath d = Some (JArr items) ->
  let rt := (fan_out env n d items).1 in
  (step env n ParallelBuilders d).1 = invokes rt /\
  (forall k, (length (settled (take k rt)) <= length (dispatched (take k rt)))%nat /\
             (running (take k rt) <= 6)%nat) /\
  (exists rest, seq 0 (length items) ≡ₚ dispatched rt ++ rest) /\
  Forall (fun e => exists item, items !! e.1 = Some item /\
                                iteration_payload d item = Some e.2) (dispatches rt) /\
  (forall s d',
     (step env n ParallelBuilders d).2 = Goto s d' ->
     s = Tester /\
     dispatched rt ≡ₚ seq 0 (length items) /\
     settled rt ≡ₚ seq 0 (length items) /\
     running rt = 0%nat /\
     length (step env n ParallelBuilders d).1 = length items) /\
  (is_Some (path_get ["build_id"] d) ->
   forallb file_task_ok items = true ->
   (forall m p, exists r, env m builderFunction p = Some r /\
                          builder_response_ok r = true) ->
   exists d', (step env n ParallelBuilders d).2 = Goto Tester d').
Proof.
  intros Hitems. cbv zeta. rewrite (step_parallel_builders _ _ _ _ Hitems).
  destruct (fan_out env n d items) as [rt res] eqn:Hr. cbn [fst].
  destruct (fan_out_account _ _ _ _ _ _ Hr) as (Honce & _ & Hpay & Hok).
  split; [by destruct res|].
  split.
  { intros k. unfold fan_out in Hr.
    destruct (round_bound _ _ _ _ _ _ _ _ _ k Hr) as [H1 H2];
      [cbn; unfold maxConcurrency; lia|].
    cbn [in_flight round_start length] in H1, H2.
    unfold running, maxConcurrency in *. lia. }
  split; [exact Honce|]. split; [exact Hpay|]. split.
  - intros s d' Hs. destruct res as [outs|e]; [|done].
    destruct (Hok outs eq_refl) as (Hd & Hst & _ & _).
    cbn [snd fst] in *.
    destruct (set_result "builder_results" _ d) as [d''|]; [|done].
    injection Hs as <- <-.
    split; [done|]. split; [done|]. split; [done|].
    unfold running. rewrite invokes_length, Hd, Hst, length_seq. split; [lia|done].
  - intros [id Hid] Hitems_ok Henv.
    destruct d as [| | | | |fields]; try discriminate Hid.
    rewrite path_get_one in Hid.
    destruct (fan_out_ok env n fields id items Hid Hitems_ok Henv) as (rt' & outs & Hr').
    rewrite Hr in Hr'. injection Hr' as <- ->. cbn. eauto.
Qed.

(** Eight FileTasks under a service that starts six iterations, lets
    three return, starts the last two and lets the rest return. *)
Lemma fan_out_bounded_witness :
  let rt := (fan_out out_of_order 3 eight_files eight_tasks).1 in
  (forall k, (running (take k rt) <= 6)%nat) /\
  running (take 6 rt) = 6%nat /\
  dispatched rt ≡ₚ seq 0 8 /\
  settled rt ≡ₚ seq 0 8 /\
  length (step out_of_order 3 ParallelBuilders eight_files).1 = 8%nat.
Proof.
  destruct (fan_out_bounded out_of_order 3 eight_files eight_tasks eq_refl)
    as (_ & Hbound & _ & _ & Hgo & _).
  cbv zeta in *.
  assert (Hstep : exists d',
            (step out_of_order 3 ParallelBuilders eight_files).2 = Goto Tester d')
    by (eexists; vm_compute; reflexivity).
  destruct Hstep as [d' Hstep].
  destruct (Hgo Tester d' Hstep) as (_ & Hd & Hs & _ & Hlen).
  split; [intros k; apply Hbound|]. split; [vm_compute; reflexivity|].
  split; [exact Hd|]. split; [exact Hs | exact Hlen].
Defined.

(** X7.  On FileTasks that have their three fields, with a Builder that
    answers each time, the map state makes exactly one Builder invocation
    per FileTask, each with
    [{build_id, file_path, specification, language, parallel_mode: true}]
    of its task, in whatever order the service starts them; it stores one
    output per task under [builder_results] and goes on to the Tester.
    An empty list goes on without any invocation. *)
Theorem map_invokes_builder_per_task (env : Env) (n : nat)
    (fields : list (string * jvalue)) (id : jvalue) (items : list jvalue) :
  assoc "build_id" fields = Some id ->
  path_get itemsPath (JObj fields) = Some (JArr items) ->
  forallb file_task_ok items = true ->
  (forall m p, exists r, env m builderFunction p = Some r /\
                         builder_response_ok r = true) ->
  exists ev outs,
    step env n ParallelBuilders (JObj fields) =
      (ev, Goto Tester (JObj (set_assoc "builder_results" (JArr outs) fields))) /\
    ev ≡ₚ omap (fun item => Invoke builderFunction <$> builder_payload id item) items /\
    length ev = length items /\
    length outs = length items.
Proof.
  intros Hid Hitems Hok Henv.
  destruct (iterations_ok env n fields id items Hid Hok Henv)
    as (ev & outs & Hit & Hev & Hlen & Hout).
  exists ev, outs. cbn [step]. rewrite Hitems, Hit. by cbn [set_result].
Qed.

(** The eight-file design, its iterations run out of order. *)
Lemma map_invokes_builder_per_task_witness :
  exists ev outs d',
    step out_of_order 3 ParallelBuilders eight_files = (ev, Goto Tester d') /\
    path_get ["builder_results"] d' = Some (JArr outs) /\
    length ev = 8%nat /\ length outs = 8%nat.
Proof.
  destruct (map_invokes_builder_per_task out_of_order 3
              [("build_id", JStr "b-1");
               ("build_tasks", JObj [("tasks", JArr eight_tasks); ("total_files", JNum 8)])]
              (JStr "b-1") eight_tasks eq_refl eq_refl eq_refl)
    as (ev & outs & Hstep & _ & Hev & Hout).
  - intros m p. eexists. split; reflexivity.
  - exists ev, outs. eexists. split; [exact Hstep|].
    split; [reflexivity|]. split; [exact Hev | exact Hout].
Defined.

(** X8.  The map state fails as a whole.  When one Builder invocation of
    the round fails for good, or answers without [file_path] or [status],
    the state is aborted, whatever the other iterations returned and in
    whatever order they ran: the outputs are dropped and the Tester is
    not entered.  The invocations made are those of the iterations
    started before the failure was seen, at most one per FileTask. *)
Theorem map_fails_as_a_whole (fuel : nat) (env : Env) (n : nat) (d : jvalue)
    (items : list jvalue) (k : nat) (p : jvalue) :
  path_get itemsPath d = Some (JArr items) ->
  invocations builderFunction (step env n ParallelBuilders d).1 !! k = Some p ->
  builder_fails (env (n + k)%nat builderFunction p) ->
  exists error,
    run (S fuel) env n ParallelBuilders d =
      (Enter ParallelBuilders :: (step env n ParallelBuilders d).1, Aborted error) /\
    entries Tester (run (S fuel) env n ParallelBuilders d).1 = 0%nat /\
    (length (step env n ParallelBuilders d).1 <= length items)%nat.
Proof.
  intros Hitems Hk Hfail. cbn [run].
  rewrite (step_parallel_builders _ _ _ _ Hitems) in *.
  destruct (fan_out env n d items) as [rt res] eqn:Hr.
  cbn beta iota zeta in Hk |- *.
  assert (Hk' : (dispatches rt).*2 !! k = Some p).
  { rewrite <- invocations_invokes. by destruct res. }
  rewrite list_lookup_fmap in Hk'.
  destruct (dispatches rt !! k) as [[i p']|] eqn:Hd; [|done]. injection Hk' as ->.
  unfold fan_out in Hr.
  destruct (round_failing_answer _ _ _ _ _ _ _ _ _ _ _ _ Hr Hd Hfail) as [e ->].
  exists e. cbn [fst snd]. split; [done|]. split.
  - change (Enter ParallelBuilders :: invokes rt)
      with ([Enter ParallelBuilders] ++ invokes rt).
    unfold entries. rewrite List.filter_app, length_app.
    change (length (List.filter _ (invokes rt))) with (entries Tester (invokes rt)).
    by rewrite entries_of_invokes.
  - destruct (fan_out_account env n d items rt (Err e)) as ([rest Honce] & _); [done|].
    rewrite invokes_length.
    apply Permutation_length in Honce. rewrite length_seq, length_app in Honce. lia.
Qed.

(** Three files of which the second fails: all three have been given to
    the Builder when the failure is seen. *)
Lemma map_fails_as_a_whole_witness :
  exists error,
    run 1 (second_builder_fails 3) 3 ParallelBuilders three_files =
      (Enter ParallelBuilders :: (step (second_builder_fails 3) 3 ParallelBuilders
                                    three_files).1,
       Aborted error) /\
    length (step (second_builder_fails 3) 3 ParallelBuilders three_files).1 = 3%nat.
Proof.
  destruct (map_fails_as_a_whole 0 (second_builder_fails 3) 3 three_files
              [hello_py; test_hello_py; readme_md] 1
              (JObj [("build_id", JStr "b-1"); ("file_path", JStr "test_hello.py");
                     ("specification", JStr "check the greeting");
                     ("language", JStr "python"); ("parallel_mode", JBool true)])
              eq_refl eq_refl I) as (error & Hrun & _ & _).
  exists error. split; [exact Hrun | reflexivity].
Defined.

End RoundFacts.

(** ** Properties of the lifecycle API *)

Module ApiFacts.
Import Api Scenarios.
Local Open Scope list_scope.

(** *** Attribute updates *)

Lemma apply_sets_other (sets : list (string * jvalue)) (item : Item) (k : string) :
  k ∉ sets.*1 -> apply_sets sets item !! k = item !! k.
Proof.
  unfold apply_sets. revert item.
  induction sets as [|[k' v] sets IH]; intros item Hk; cbn in *; [done|].
  apply not_elem_of_cons in Hk as [Hne Hk].
  rewrite IH by done. by rewrite lookup_insert_ne.
Qed.

Lemma update_item_lookup key sets w :
  table (update_item key sets w) !! key =
    Some (apply_sets sets (default {[ "build_id" := JStr key ]} (table w !! key))).
Proof. unfold update_item; cbn. by rewrite lookup_insert_eq. Qed.

(** *** cancel_build *)

(** The update of [cancel_build] names [status] through [#status] and
    [updated_at], which is not reserved, bare: the table accepts it. *)
Lemma try_update_cancel key s u w :
  try_update_item key [(Aliased "status", s); (Bare "updated_at", u)] w =
    Some (update_item key [("status", s); ("updated_at", u)] w).
Proof. reflexivity. Qed.

(** A build whose status is one of the three strings of the check is
    refused and nothing is called or written. *)
Lemma cancel_finished_refused build_id region account now stop w build s :
  get_item build_id w = Some build ->
  build !! "status" = Some (JStr s) ->
  s ∈ ["completed"; "cancelled"; "failed"] ->
  cancel_build build_id region account now stop w =
    ({| statusCode := 400;
        body := BErrorMessage "Build cannot be cancelled"
                  ("Build is already in " ++ s ++ " state")%string |}, w).
Proof.
  intros Hget Hs Hin. unfold cancel_build, dict_get. rewrite Hget, Hs. cbn.
  by rewrite bool_decide_eq_true_2.
Qed.

(** A successful stop refreshes [updated_at] with the time of the
    update. *)
Lemma cancel_refreshes_updated_at build_id region account now w build :
  get_item build_id w = Some build ->
  already_finished (dict_get build "status" (JStr "unknown")) = false ->
  let w' := (cancel_build build_id region account now StopOk w).2 in
  status_of build_id w' = Some (JStr "cancelled") /\
  updated_at_of build_id w' = Some (JStr now).
Proof.
  intros Hget Hfin. unfold cancel_build, status_of, updated_at_of.
  rewrite Hget, Hfin, try_update_cancel. cbn [snd].
  rewrite update_item_lookup. cbn.
  split; [by rewrite lookup_insert_ne, lookup_insert_eq | by rewrite lookup_insert_eq].
Qed.

(** Cancelling twice: [cancelled] once, then refused. *)
Example cancel_twice :
  let '(r1, w1) :=
    cancel_build "b-1" "us-east-1" "123456789012" "2024-05-02T10:00:00" StopOk
      (store_with "testing") in
  let '(r2, w2) :=
    cancel_build "b-1" "us-east-1" "123456789012" "2024-05-02T10:05:00" StopOk w1 in
  statusCode r1 = 200 /\
  r2 = {| statusCode := 400;
          body := BErrorMessage "Build cannot be cancelled"
                    "Build is already in cancelled state" |} /\
  w2 = w1 /\
  updated_at_of "b-1" w2 = Some (JStr "2024-05-02T10:00:00").
Proof. vm_compute. repeat split; reflexivity. Qed.

(** C2 (evaluation of the code at the failing input).  Cancelling a
    build whose stored status is [passed] is not refused: the status is
    not among the strings the check compares with, the stop request is
    made, and when it succeeds the response is 200 and the stored status
    is overwritten with [cancelled]. *)
Theorem cancel_passed_build_overwrites_status :
  let w := store_with "passed" in
  let '(r, w') :=
    cancel_build "b-1" "us-east-1" "123456789012" "2024-05-02T10:00:00" StopOk w in
  status_of "b-1" w = Some (JStr "passed") /\
  statusCode r = 200 /\
  body r = BCancelled "b-1" "cancelled" "Build cancelled successfully" /\
  status_of "b-1" w' = Some (JStr "cancelled") /\
  calls w' =
    [StopExecution
       "arn:aws:states:us-east-1:123456789012:execution:bedrock-builder-workflow:b-1"
       "UserCancelled" "Build cancelled by user via API";
     UpdateItem "b-1"
       [("status", JStr "cancelled"); ("updated_at", JStr "2024-05-02T10:00:00")]].
Proof. vm_compute. repeat split; reflexivity. Qed.

(** C4 (the claim as stated fails).  Cancelling a build in [testing]
    whose execution no longer exists answers with status 400 and an
    [error] key: the failure is reported to the caller. *)
Lemma cancel_race_reports_error :
  let w := store_with "testing" in
  let '(r, w') :=
    cancel_build "b-1" "us-east-1" "123456789012" "2024-05-02T10:00:00"
      ExecutionDoesNotExist w in
  already_finished (JStr "testing") = false /\
  statusCode r = 400 /\
  has_error (body r) = true /\
  body r = BErrorMessage "Cannot cancel build"
             "Step Functions execution not found or already completed".
Proof. vm_compute. repeat split; reflexivity. Qed.

(** C4 (amended).  When the build is not refused by the status check and
    the stop request raises [ExecutionDoesNotExist], the caller receives
    the 400 response [Cannot cancel build] (not a 500), and the table is
    left as it was: no update is made. *)
Theorem cancel_race_leaves_store build_id region account now w build :
  get_item build_id w = Some build ->
  already_finished (dict_get build "status" (JStr "unknown")) = false ->
  exists arn,
    cancel_build build_id region account now ExecutionDoesNotExist w =
      ({| statusCode := 400;
          body := BErrorMessage "Cannot cancel build"
                    "Step Functions execution not found or already completed" |},
       {| table := table w;
          calls := calls w ++ [StopExecution arn "UserCancelled"
                                 "Build cancelled by user via API"] |}).
Proof.
  intros Hget Hfin. unfold cancel_build. rewrite Hget, Hfin.
  eexists. reflexivity.
Qed.

(** Build [b-1] in [testing], its execution gone. *)
Lemma cancel_race_leaves_store_witness :
  exists arn,
    cancel_build "b-1" "us-east-1" "123456789012" "2024-05-02T10:00:00"
      ExecutionDoesNotExist (store_with "testing") =
      ({| statusCode := 400;
          body := BErrorMessage "Cannot cancel build"
                    "Step Functions execution not found or already completed" |},
       {| table := table (store_with "testing");
          calls := calls (store_with "testing")
                     ++ [StopExecution arn "UserCancelled"
                           "Build cancelled by user via API"] |}).
Proof.
  apply (cancel_race_leaves_store "b-1" "us-east-1" "123456789012"
           "2024-05-02T10:00:00" (store_with "testing")
           (record "b-1" "testing" "2024-05-01T09:00:00" "2024-05-01T09:30:00")).
  - vm_compute. reflexivity.
  - vm_compute. reflexivity.
Defined.

(** *** start_build *)

Section StartBuild.
Variables (req : gmap string jvalue) (build_id timestamp : string) (w : World).

Lemma start_build_rejects :
  truthy (dict_get req "task" JNull) = false ->
  forall start,
    start_build (Some req) build_id timestamp start w =
      Return {| statusCode := 400; body := BError "task is required" |} w.
Proof.
  intros Ht start. unfold start_build. rewrite Ht. reflexivity.
Qed.

Lemma try_put_new_item :
  try_put_item
    [("build_id", JStr build_id); ("task", dict_get req "task" JNull);
     ("mode", dict_get req "mode" (JStr "new_project"));
     ("status", JStr "initiated"); ("current_iteration", JNum 0);
     ("max_iterations", dict_get req "max_iterations" (JNum 3));
     ("created_at", JStr timestamp); ("updated_at", JStr timestamp)] build_id w =
    if put_accepted req build_id
    then Some (put_item (new_item req build_id timestamp) build_id w)
    else None.
Proof.
  unfold try_put_item, put_accepted. cbn [forallb snd].
  change (storable (JStr build_id)) with true.
  change (storable (JStr "initiated")) with true.
  change (storable (JNum 0)) with true.
  change (storable (JStr timestamp)) with true.
  destruct (valid_key build_id), (storable (dict_get req "task" JNull)),
    (storable (dict_get req "mode" (JStr "new_project"))),
    (storable (dict_get req "max_iterations" (JNum 3))); reflexivity.
Qed.

(** A request the table refuses to store raises, with nothing written
    and nothing started. *)
Lemma start_build_not_stored start :
  truthy (dict_get req "task" JNull) = true ->
  put_accepted req build_id = false ->
  start_build (Some req) build_id timestamp start w =
    Raise "put_item: the item is refused" w.
Proof.
  intros Ht Hp. unfold start_build. rewrite Ht. cbn [negb].
  by rewrite try_put_new_item, Hp.
Qed.

Lemma start_build_started arn :
  truthy (dict_get req "task" JNull) = true ->
  put_accepted req build_id = true ->
  start_build (Some req) build_id timestamp (StartOk arn) w =
    Return {| statusCode := 202;
              body := BStarted build_id arn "initiated"
                        "Build started with parallel execution" |}
           {| table := <[build_id := new_item req build_id timestamp]> (table w);
              calls := calls w ++ [PutItem (new_item req build_id timestamp);
                                   StartExecution build_id (new_input req build_id)] |}.
Proof.
  intros Ht Hp. unfold start_build. rewrite Ht. cbn [negb].
  rewrite try_put_new_item, Hp.
  unfold put_item. cbn [table calls]. rewrite <- (assoc_L (++)). reflexivity.
Qed.

(** When the execution cannot be started, the update of the [except]
    block names [error] bare and is refused: the function raises, the
    record stays as it was put. *)
Lemma start_build_start_failed e :
  truthy (dict_get req "task" JNull) = true ->
  put_accepted req build_id = true ->
  start_build (Some req) build_id timestamp (StartRaises e) w =
    Raise "update_item: attribute name is a reserved keyword: error"
      {| table := <[build_id := new_item req build_id timestamp]> (table w);
         calls := calls w ++ [PutItem (new_item req build_id timestamp);
                              StartExecution build_id (new_input req build_id);
                              UpdateItemRefused build_id
                                [Aliased "status"; Bare "error"]] |}.
Proof.
  intros Ht Hp. unfold start_build. rewrite Ht. cbn [negb].
  rewrite try_put_new_item, Hp.
  unfold put_item, update_item_refused. cbn [table calls fmap list_fmap fst].
  rewrite <- !(assoc_L (++)). reflexivity.
Qed.

Lemma new_item_lookups :
  new_item req build_id timestamp !! "build_id" = Some (JStr build_id) /\
  new_item req build_id timestamp !! "status" = Some (JStr "initiated") /\
  new_item req build_id timestamp !! "current_iteration" = Some (JNum 0) /\
  new_item req build_id timestamp !! "mode"
    = Some (dict_get req "mode" (JStr "new_project")) /\
  new_item req build_id timestamp !! "max_iterations"
    = Some (dict_get req "max_iterations" (JNum 3)) /\
  new_item req build_id timestamp !! "created_at" = Some (JStr timestamp) /\
  new_item req build_id timestamp !! "updated_at" = Some (JStr timestamp).
Proof. repeat split; reflexivity. Qed.

(** What a start request leaves: nothing, or the record and the start
    request, followed by the refused update when the start raised. *)
Lemma start_build_world start :
  let w' := (lambda_handler (start_build (Some req) build_id timestamp start w)).2 in
  w' = w \/
  table w' = <[build_id := new_item req build_id timestamp]> (table w) /\
  exists rest,
    calls w' = calls w ++ PutItem (new_item req build_id timestamp)
                            :: StartExecution build_id (new_input req build_id) :: rest /\
    (rest = [] \/ rest = [UpdateItemRefused build_id [Aliased "status"; Bare "error"]]).
Proof.
  cbv zeta. destruct (truthy (dict_get req "task" JNull)) eqn:Ht.
  - destruct (put_accepted req build_id) eqn:Hp.
    + destruct start as [arn|e].
      * rewrite start_build_started by done. right. cbn. eauto.
      * rewrite start_build_start_failed by done. right. cbn. eauto.
    + rewrite start_build_not_stored by done. by left.
  - rewrite start_build_rejects by done. by left.
Qed.

End StartBuild.

(** C10 (evaluation of the code at the failing input).  A start request
    whose execution cannot be started: the record is put and the start
    requested, in that order, but the update to [failed] is refused by
    the table (its expression names the reserved word [error] bare,
    where [status] goes through [#status]).  The exception leaves
    [start_build]: the caller gets the 500 of [lambda_handler], which
    carries no build id, and the record stays [initiated] with no
    [error] attribute. *)
Theorem start_failure_update_refused :
  let '(r, w') :=
    lambda_handler
      (start_build (Some hello_request) "b-1" "2024-05-01T09:00:00"
         (StartRaises "ExecutionLimitExceeded") empty_store) in
  expression_ok [Aliased "status"; Bare "error"] = false /\
  statusCode r = 500 /\
  body_build_id (body r) = None /\
  status_of "b-1" w' = Some (JStr "initiated") /\
  table w' !! "b-1" ≫= (.!! "error") = None /\
  calls w' =
    [PutItem (new_item hello_request "b-1" "2024-05-01T09:00:00");
     StartExecution "b-1" (new_input hello_request "b-1");
     UpdateItemRefused "b-1" [Aliased "status"; Bare "error"]].
Proof. vm_compute. repeat split; reflexivity. Qed.







(** *** list_builds *)

Lemma ascii_compare_lt_trans (a b c : ascii) :
  Ascii.compare a b = Lt -> Ascii.compare b c = Lt -> Ascii.compare a c = Lt.
Proof.
  unfold Ascii.compare. rewrite !N.compare_lt_iff. lia.
Qed.

Lemma string_leb_trans (s1 s2 s3 : string) :
  String.leb s1 s2 = true -> String.leb s2 s3 = true -> String.leb s1 s3 = true.
Proof.
  unfold String.leb. revert s2 s3.
  induction s1 as [|a s1 IH]; intros [|b s2] [|c s3]; cbn; try done.
  destruct (Ascii.compare a b) eqn:Hab; try done.
  - apply Ascii.compare_eq_iff in Hab as ->.
    destruct (Ascii.compare b c); try done. apply IH.
  - destruct (Ascii.compare b c) eqn:Hbc; try done.
    + apply Ascii.compare_eq_iff in Hbc as <-. by rewrite Hab.
    + by rewrite (ascii_compare_lt_trans _ _ _ Hab Hbc).
Qed.

#[local] Instance created_desc_total : Total created_desc.
Proof.
  intros x y. unfold created_desc.
  destruct (String.leb_total (attr_string x "created_at")
              (attr_string y "created_at")); auto.
Qed.

#[local] Instance created_desc_trans : Transitive created_desc.
Proof.
  intros x y z Hxy Hyz. unfold created_desc in *.
  eapply string_leb_trans; eassumption.
Qed.

Lemma StronglySorted_take {A} (R : relation A) (l : list A) (n : nat) :
  StronglySorted R l -> StronglySorted R (take n l).
Proof.
  intros Hl. revert n.
  induction Hl as [|x l Hl IH Hx]; intros [|n]; cbn; try constructor.
  - apply IH.
  - by apply Forall_take.
Qed.

Lemma in_status_index_spec status (item : Item) :
  in_status_index status item = true ->
  item !! "status" = Some (JStr status) /\
  exists created, item !! "created_at" = Some (JStr created).
Proof.
  unfold in_status_index.
  destruct (item !! "status") as [[| | |s| |]|]; try done.
  destruct (item !! "created_at") as [[| | |c| |]|]; try done.
  intros ->%String.eqb_eq. eauto.
Qed.

Lemma query_status_index_elem status (t : Table) (item : Item) :
  item ∈ query_status_index status t ->
  in_status_index status item = true /\ exists k, t !! k = Some item.
Proof.
  unfold query_status_index. intros Hin.
  apply (subseteq_take Limit) in Hin.
  rewrite merge_sort_Permutation in Hin.
  apply list_elem_of_In, filter_In in Hin as [Hin Hidx].
  split; [exact Hidx|].
  apply list_elem_of_In, list_elem_of_fmap in Hin as ([k v] & -> & Hkv).
  exists k. by apply elem_of_map_to_list.
Qed.

(** Without a usable filter the handler scans. *)
Lemma list_builds_unfiltered w :
  list_builds None w = list_builds (Some "") w.
Proof. reflexivity. Qed.

(** The two passed builds of [three_builds] come back latest first. *)
Example list_three_builds_passed :
  list_builds (Some "passed") three_builds =
    {| statusCode := 200;
       body := BBuilds
                 [record "b-1" "passed" "2024-05-03T08:00:00" "2024-05-03T08:40:00";
                  record "b-3" "passed" "2024-05-01T08:00:00" "2024-05-01T08:20:00"]
                 2 |}.
Proof. vm_compute. reflexivity. Qed.

(** C8.  A list request with a (non-empty) status filter returns records
    of the table that all have that status, latest [created_at] first,
    at most 50 of them, with [count] the number of records returned. *)
Theorem list_builds_filtered (status : string) (w : World) :
  status <> "" ->
  exists builds,
    list_builds (Some status) w =
      {| statusCode := 200; body := BBuilds builds (length builds) |} /\
    Forall (fun item : Item => item !! "status" = Some (JStr status)) builds /\
    Forall (fun item : Item => exists k, table w !! k = Some item) builds /\
    StronglySorted created_desc builds /\
    (length builds <= 50)%nat.
Proof.
  intros Hne. exists (query_status_index status (table w)).
  split.
  { unfold list_builds. apply String.eqb_neq in Hne. rewrite Hne. reflexivity. }
  split.
  { apply Forall_forall. intros item Hin.
    apply query_status_index_elem in Hin as [Hidx _].
    by apply in_status_index_spec in Hidx as [Hs _]. }
  split.
  { apply Forall_forall. intros item Hin.
    by apply query_status_index_elem in Hin as [_ Hk]. }
  split.
  { unfold query_status_index. apply StronglySorted_take.
    apply StronglySorted_merge_sort; apply _. }
  unfold query_status_index. rewrite length_take. unfold Limit. lia.
Qed.

(** The passed builds of [three_builds]. *)
Lemma list_builds_filtered_witness :
  exists builds,
    list_builds (Some "passed") three_builds =
      {| statusCode := 200; body := BBuilds builds (length builds) |} /\
    Forall (fun item : Item => item !! "status" = Some (JStr "passed")) builds /\
    Forall (fun item : Item => exists k, table three_builds !! k = Some item) builds /\
    StronglySorted created_desc builds /\
    (length builds <= 50)%nat.
Proof.
  apply (list_builds_filtered "passed" three_builds). discriminate.
Defined.

End ApiFacts.

(** ** More on the workflow: shape of executions *)

Module ExecutionFacts.
Import Workflow WorkflowAux Scenarios MoreScenarios.
Local Open Scope list_scope.

Lemma invoke_events t env n d item ev out :
  invoke t env n d item = (ev, out) ->
  ev = [] /\ (exists e, out = Err e) \/ exists p, ev = [Invoke (lambdaFunction t) p].
Proof.
  unfold invoke. intros H.
  destruct (eval_template d item (payload t)) as [p|]; simplify_eq; eauto.
Qed.

Lemma task_cases (s : State) t next env n d ev nx :
  lambda_of s = Some (lambdaFunction t) ->
  edge s next = true ->
  task t next env n d = (ev, nx) ->
  invokes_only (lambda_of s) ev /\ (length ev <= 1)%nat /\ declared s nx.
Proof.
  intros Hl He Ht. unfold task in Ht.
  destruct (invoke t env n d JNull) as [ev' out] eqn:Hinv.
  apply invoke_events in Hinv as [[-> [e ->]]|[p ->]].
  - simplify_eq. split; [constructor|]. split; [cbn; lia | exact I].
  - assert (Hev : invokes_only (lambda_of s) [Invoke (lambdaFunction t) p]).
    { repeat constructor. by eexists _, _. }
    destruct out; simplify_eq; (split; [exact Hev|]); (split; [cbn; lia|]); done.
Qed.

(** What one state can do: it only invokes its own function, and its
    successor, success or failure is one the machine declares for it. *)
Lemma step_cases env n s d ev nx :
  step env n s d = (ev, nx) ->
  invokes_only (lambda_of s) ev /\
  (s <> ParallelBuilders -> (length ev <= 1)%nat) /\
  declared s nx.
Proof.
  assert (Hweak : forall ev nx,
            invokes_only (lambda_of s) ev /\ (length ev <= 1)%nat /\ declared s nx ->
            invokes_only (lambda_of s) ev /\
            (s <> ParallelBuilders -> (length ev <= 1)%nat) /\ declared s nx)
    by (intros ? ? (? & ? & ?); auto).
  destruct s; cbn [step]; intros H.
  - by eapply Hweak, (task_cases Scout scoutTask Architect).
  - by eapply Hweak, (task_cases Architect architectTask PrepareParallelBuilders).
  - by eapply Hweak,
      (task_cases PrepareParallelBuilders orchestratorTask ParallelBuilders).
  - split; [|split; [done|]].
    + destruct (path_get itemsPath d) as [[| | | |items|]|]; simplify_eq;
        try by constructor.
      pose proof (RoundFacts.iterations_events env n d items) as Hit.
      destruct (iterations env n d items) as [ev' outs]. cbn [fst] in Hit.
      assert (ev = ev') as -> by (repeat case_match; by simplify_eq).
      eapply Forall_impl; [exact Hit|]. intros e [p ->]. by eexists _, p.
    + repeat case_match; by simplify_eq.
  - by eapply Hweak, (task_cases Tester testerTask TestsPassedQ).
  - simplify_eq. apply Hweak. split; [constructor|]. split; [cbn; lia|].
    unfold testsPassed, when, otherwise. repeat case_match; done.
  - by eapply Hweak, (task_cases Deployer deployerTask BuildSucceeded).
  - simplify_eq. apply Hweak. split; [constructor|]. split; [cbn; lia | done].
  - simplify_eq. apply Hweak. split; [constructor|]. split; [cbn; lia|].
    unfold fail_with_cause_at. repeat case_match; try done. by left.
  - simplify_eq. apply Hweak. split; [constructor|]. split; [cbn; lia|].
    unfold maxIterationsReached, when, otherwise. repeat case_match; done.
  - simplify_eq. apply Hweak. split; [constructor|]. split; [cbn; lia | by right].
Qed.

(** *** Runs, one state at a time *)

Lemma run_inv fuel env n s d tr o :
  run (S fuel) env n s d = (tr, o) ->
  exists ev nx,
    step env n s d = (ev, nx) /\
    match nx with
    | Goto s' d' =>
        exists evs, run fuel env (n + length ev) s' d' = (evs, o) /\
                    tr = Enter s :: ev ++ evs
    | Succeed => tr = Enter s :: ev /\ o = Succeeded
    | Fail error cause => tr = Enter s :: ev /\ o = Failed error cause
    | Abort error => tr = Enter s :: ev /\ o = Aborted error
    end.
Proof.
  cbn [run]. destruct (step env n s d) as [ev nx]. intros H.
  exists ev, nx. split; [done|].
  destruct nx as [s' d'| | |]; try by simplify_eq.
  destruct (run fuel env (n + length ev) s' d') as [evs o']. simplify_eq. eauto.
Qed.

Lemma entered_app tr1 tr2 : entered (tr1 ++ tr2) = entered tr1 ++ entered tr2.
Proof. apply omap_app. Qed.

Lemma entered_enter s tr : entered (Enter s :: tr) = s :: entered tr.
Proof. reflexivity. Qed.

Lemma entered_invokes fn ev : invokes_only fn ev -> entered ev = [].
Proof.
  induction 1 as [|e ev (f & p & _ & ->) _ IH]; [done|]. exact IH.
Qed.

Lemma entries_app s tr1 tr2 : entries s (tr1 ++ tr2) = (entries s tr1 + entries s tr2)%nat.
Proof. unfold entries. by rewrite List.filter_app, length_app. Qed.

Lemma entries_invokes s fn ev : invokes_only fn ev -> entries s ev = 0%nat.
Proof.
  induction 1 as [|e ev (f & p & _ & ->) _ IH]; [done|]. exact IH.
Qed.

Lemma entries_enter s s' tr :
  entries s (Enter s' :: tr) = ((if decide (s' = s) then 1 else 0) + entries s tr)%nat.
Proof.
  unfold entries. cbn. destruct (decide (s' = s)) as [->|Hne].
  - by rewrite bool_decide_eq_true_2.
  - by rewrite bool_decide_eq_false_2.
Qed.

Lemma invocations_app fn tr1 tr2 :
  invocations fn (tr1 ++ tr2) = invocations fn tr1 ++ invocations fn tr2.
Proof. apply omap_app. Qed.

Lemma invocations_other fn fn' ev :
  invokes_only fn' ev -> fn' <> Some fn -> invocations fn ev = [].
Proof.
  intros Hev Hne. induction Hev as [|e ev (f & p & -> & ->) _ IH]; [done|].
  cbn. destruct (decide (f = fn)) as [->|_]; [done | exact IH].
Qed.

Lemma run_starts_at fuel env n s d :
  exists rest, entered (run (S fuel) env n s d).1 = s :: rest.
Proof.
  destruct (run (S fuel) env n s d) as [tr o] eqn:Hrun.
  apply run_inv in Hrun as (ev & nx & _ & Hnx).
  destruct nx as [s' d'| | |].
  - destruct Hnx as (evs & _ & ->). cbn [fst]. rewrite entered_enter. eauto.
  - destruct Hnx as [-> _]. cbn [fst]. rewrite entered_enter. eauto.
  - destruct Hnx as [-> _]. cbn [fst]. rewrite entered_enter. eauto.
  - destruct Hnx as [-> _]. cbn [fst]. rewrite entered_enter. eauto.
Qed.

(** X2.  Whatever the stage functions answer, the states an execution
    enters follow the arrows of the machine: each state entered after
    another is one of its declared successors.  The only arrow that leads
    back is the one from [MaxIterationsReached?] to [Architect]. *)
Theorem execution_follows_edges (fuel : nat) (env : Env) (n : nat) (s : State)
    (d : jvalue) :
  is_path (entered (run fuel env n s d).1) = true.
Proof.
  revert n s d. induction fuel as [|fuel IH]; intros n s d; [done|].
  destruct (run (S fuel) env n s d) as [tr o] eqn:Hrun.
  apply run_inv in Hrun as (ev & nx & Hstep & Hnx).
  apply step_cases in Hstep as (Hev & _ & Hdecl).
  apply entered_invokes in Hev.
  destruct nx as [s' d'| | |].
  - destruct Hnx as (evs & Hrest & ->).
    cbn [fst]. rewrite entered_enter, entered_app, Hev. cbn [app].
    specialize (IH (n + length ev)%nat s' d'). rewrite Hrest in IH. cbn [fst] in IH.
    destruct fuel as [|fuel].
    + cbn in Hrest. by simplify_eq.
    + destruct (run_starts_at fuel env (n + length ev) s' d') as [rest Hhead].
      rewrite Hrest in Hhead. cbn [fst] in Hhead. rewrite Hhead in *.
      cbn [is_path]. cbn in Hdecl. rewrite Hdecl. exact IH.
  - destruct Hnx as [-> _]. cbn [fst]. by rewrite entered_enter, Hev.
  - destruct Hnx as [-> _]. cbn [fst]. by rewrite entered_enter, Hev.
  - destruct Hnx as [-> _]. cbn [fst]. by rewrite entered_enter, Hev.
Qed.

(** X1.  With the three fields present, the two choices after the Tester
    amount to one table: status 200 with [tests_passed] deploys; otherwise
    status 500 fails with [TesterLambdaError]; otherwise iteration 3 or more
    fails with [MaxIterationsReached]; otherwise back to [Architect].  So a
    500 wins over the iteration bound, and tests that pass at iteration 3
    still deploy. *)
Theorem decision_table (d : jvalue) (c : Z) (b : bool) (i : Z) :
  path_get ["tester_result"; "statusCode"] d = Some (JNum c) ->
  path_get ["tester_result"; "body"; "tests_passed"] d = Some (JBool b) ->
  path_get ["tester_result"; "body"; "iteration"] d = Some (JNum i) ->
  resolve d = Goto (decision c b i) d.
Proof.
  intros Hc Hb Hi.
  unfold resolve, decision, testsPassed, maxIterationsReached, when, otherwise, and_,
    numberEquals, booleanEquals, numberGreaterThanEquals.
  rewrite Hc, Hb.
  destruct (c =? 200)%Z, b, (c =? 500)%Z; cbn -[path_get]; try done;
    rewrite Hi; by destruct (3 <=? i)%Z.
Qed.

(** Tests that pass at iteration 3. *)
Lemma decision_table_witness :
  let d := after_tester 3 200 (report true 3) in
  resolve d = Goto Deployer d.
Proof.
  exact (decision_table (after_tester 3 200 (report true 3)) 200 true 3
           eq_refl eq_refl eq_refl).
Defined.

(** *** How executions end *)

Lemma deployer_step env n d ev s' d' :
  step env n Deployer d = (ev, Goto s' d') ->
  exists id, ev = [Invoke deployerFunction
                     (JObj [("build_id", id); ("test_result", JStr "PASSED")])].
Proof.
  cbn [step]. unfold task, invoke. cbn -[path_get].
  destruct (path_get ["build_id"] d) as [id|]; [|intros; simplify_eq].
  intros H. exists id. repeat case_match; by simplify_eq.
Qed.

Lemma run_build_succeeded fuel env n d tr o :
  run fuel env n BuildSucceeded d = (tr, o) ->
  tr = [] /\ o = Unfinished \/ tr = [Enter BuildSucceeded] /\ o = Succeeded.
Proof. destruct fuel; cbn; intros; simplify_eq; auto. Qed.

Lemma edge_to_succeeded s : edge s BuildSucceeded = true -> s = Deployer.
Proof. by destruct s. Qed.

Lemma edge_from_deployer s' : edge Deployer s' = true -> s' = BuildSucceeded.
Proof. by destruct s'. Qed.

Lemma run_succeeded fuel env :
  forall n s d tr,
    run fuel env n s d = (tr, Succeeded) ->
    s <> BuildSucceeded ->
    entries Deployer tr = 1%nat /\
    exists id, invocations deployerFunction tr =
                 [JObj [("build_id", id); ("test_result", JStr "PASSED")]].
Proof.
  induction fuel as [|fuel IH]; intros n s d tr Hrun Hs; [by cbn in Hrun|].
  apply run_inv in Hrun as (ev & nx & Hstep & Hnx).
  pose proof (step_cases _ _ _ _ _ _ Hstep) as (Hev & _ & Hdecl).
  destruct nx as [s' d'| | |];
    [| by cbn in Hdecl | by destruct Hnx as [_ ?] | by destruct Hnx as [_ ?]].
  destruct Hnx as (evs & Hrest & ->). cbn in Hdecl.
  rewrite entries_enter, entries_app, (entries_invokes _ _ _ Hev).
  change (Enter s :: ev ++ evs) with ([Enter s] ++ ev ++ evs).
  rewrite !invocations_app. cbn [invocations omap app].
  destruct (decide (s = Deployer)) as [->|Hnd].
  - apply edge_from_deployer in Hdecl as ->.
    apply run_build_succeeded in Hrest as [[_ ?]|[-> _]]; [done|].
    apply deployer_step in Hstep as [id ->].
    split; [done|]. exists id. cbn. by rewrite decide_True.
  - assert (s' <> BuildSucceeded) as Hs'
      by (intros ->; by apply edge_to_succeeded in Hdecl).
    destruct (IH _ _ _ _ Hrest Hs') as (Hent & id & Hinv).
    rewrite Hent, Hinv.
    rewrite (invocations_other deployerFunction _ _ Hev) by (by destruct s).
    split; [done|]. by exists id.
Qed.

(** X3.  An execution that succeeds has entered the Deployer exactly once
    and has made exactly one Deployer invocation, with payload
    [{build_id, test_result: "PASSED"}], whatever the stage functions
    answered on the way. *)
Theorem success_deploys_exactly_once (fuel : nat) (env : Env) (input : jvalue)
    (tr : list Event) :
  execute fuel env input = (tr, Succeeded) ->
  entries Deployer tr = 1%nat /\
  exists id, invocations deployerFunction tr =
               [JObj [("build_id", id); ("test_result", JStr "PASSED")]].
Proof. intros H. by eapply run_succeeded. Qed.

(** The one-file build whose tests pass in the first round. *)
Lemma success_deploys_exactly_once_witness :
  let tr := (execute 40 (one_file_build 200 true) (hello_input 3)).1 in
  entries Deployer tr = 1%nat /\
  exists id, invocations deployerFunction tr =
               [JObj [("build_id", id); ("test_result", JStr "PASSED")]].
Proof.
  apply (success_deploys_exactly_once 40 (one_file_build 200 true) (hello_input 3)).
  vm_compute. reflexivity.
Defined.

Lemma edge_upto_tester s s' :
  upto_tester s = true -> s <> Tester -> edge s s' = true -> upto_tester s' = true.
Proof. by destruct s, s'. Qed.

Lemma run_failed fuel env :
  forall n s d tr error cause,
    run fuel env n s d = (tr, Failed error cause) ->
    (error = "TesterLambdaError" \/
     error = "MaxIterationsReached" /\
     cause = "Tests failed after maximum iterations (3)") /\
    entries Deployer tr = 0%nat /\
    (upto_tester s = true -> (1 <= entries Tester tr)%nat).
Proof.
  induction fuel as [|fuel IH]; intros n s d tr error cause Hrun; [by cbn in Hrun|].
  apply run_inv in Hrun as (ev & nx & Hstep & Hnx).
  pose proof (step_cases _ _ _ _ _ _ Hstep) as (Hev & Hlen & Hdecl).
  destruct nx as [s' d'| |error' cause'|]; [| by destruct Hnx as [_ ?] | | by destruct Hnx as [_ ?]].
  - destruct Hnx as (evs & Hrest & ->). cbn in Hdecl.
    destruct (IH _ _ _ _ _ _ Hrest) as (Hcause & Hdep & Htest).
    split; [exact Hcause|].
    rewrite !entries_enter, !entries_app, !(entries_invokes _ _ _ Hev), Hdep.
    split.
    + destruct (decide (s = Deployer)) as [->|_]; [|done].
      apply edge_from_deployer in Hdecl as ->.
      by apply run_build_succeeded in Hrest as [[_ ?]|[_ ?]].
    + intros Hup. destruct (decide (s = Tester)) as [->|Hnt]; [lia|].
      specialize (Htest (edge_upto_tester _ _ Hup Hnt Hdecl)). lia.
  - destruct Hnx as [-> Ho]. injection Ho as <- <-. cbn in Hdecl.
    rewrite !entries_enter, !(entries_invokes _ _ _ Hev).
    destruct Hdecl as [[-> ->]|(-> & -> & ->)]; (split; [auto|]); by split.
Qed.

(** X4.  An execution that fails does so with one of two errors,
    [TesterLambdaError] or [MaxIterationsReached] (with the fixed cause
    text); it has run the Tester at least once and has never entered the
    Deployer.  No other stage has a failure outcome of its own. *)
Theorem failure_is_after_tester (fuel : nat) (env : Env) (input : jvalue)
    (tr : list Event) (error cause : string) :
  execute fuel env input = (tr, Failed error cause) ->
  (error = "TesterLambdaError" \/
   error = "MaxIterationsReached" /\
   cause = "Tests failed after maximum iterations (3)") /\
  entries Deployer tr = 0%nat /\
  (1 <= entries Tester tr)%nat.
Proof.
  intros H. destruct (run_failed _ _ _ _ _ _ _ _ H) as (Hc & Hd & Ht).
  split; [exact Hc|]. split; [exact Hd|]. by apply Ht.
Qed.

(** A one-file build whose Tester answers 500 with an error message. *)
Lemma failure_is_after_tester_witness :
  let tr := (execute 40 tester_crashes (hello_input 3)).1 in
  (execute 40 tester_crashes (hello_input 3)).2 =
    Failed "TesterLambdaError" "sandbox crashed" /\
  entries Deployer tr = 0%nat /\
  (1 <= entries Tester tr)%nat.
Proof.
  split; [vm_compute; reflexivity|].
  apply (failure_is_after_tester 40 tester_crashes (hello_input 3)
           (execute 40 tester_crashes (hello_input 3)).1
           "TesterLambdaError" "sandbox crashed").
  vm_compute. reflexivity.
Defined.

(** X10.  No state declares a catcher: when the invocation of a stage
    function fails for good, the execution stops there, aborted; it does
    not reach a fail state and no further state is entered. *)
Theorem failed_invocation_aborts (fuel : nat) (env : Env) (n : nat) (s : State)
    (d : jvalue) (fn : Lambda) :
  lambda_of s = Some fn ->
  s <> ParallelBuilders ->
  (forall p, env n fn p = None) ->
  exists ev error,
    run (S fuel) env n s d = (Enter s :: ev, Aborted error) /\
    (length ev <= 1)%nat.
Proof.
  intros Hl Hs Henv.
  assert (Htask : forall t next,
            lambdaFunction t = fn ->
            exists ev error, task t next env n d = (ev, Abort error) /\
                             (length ev <= 1)%nat).
  { intros t next Ht. unfold task, invoke.
    destruct (eval_template d JNull (payload t)) as [p|].
    - rewrite Ht, Henv. eexists _, _. split; [reflexivity | cbn; lia].
    - eexists _, _. split; [reflexivity | cbn; lia]. }
  destruct s; try done; cbn in Hl; simplify_eq; cbn [run step].
  - destruct (Htask scoutTask Architect eq_refl) as (ev & e & -> & Hlen). eauto.
  - destruct (Htask architectTask PrepareParallelBuilders eq_refl)
      as (ev & e & -> & Hlen). eauto.
  - destruct (Htask orchestratorTask ParallelBuilders eq_refl)
      as (ev & e & -> & Hlen). eauto.
  - destruct (Htask testerTask TestsPassedQ eq_refl) as (ev & e & -> & Hlen). eauto.
  - destruct (Htask deployerTask BuildSucceeded eq_refl) as (ev & e & -> & Hlen). eauto.
Qed.

(** A Scout whose invocation fails. *)
Lemma failed_invocation_aborts_witness :
  exists ev error,
    run 40 nothing_works 0 Scout (hello_input 3) = (Enter Scout :: ev, Aborted error) /\
    (length ev <= 1)%nat.
Proof.
  apply (failed_invocation_aborts 39 nothing_works 0 Scout (hello_input 3) scoutFunction).
  - reflexivity.
  - discriminate.
  - reflexivity.
Defined.

(** *** Results stored in the state *)

Lemma assoc_set_assoc_eq k v fields : assoc k (set_assoc k v fields) = Some v.
Proof.
  induction fields as [|[k' v'] fields IH]; cbn.
  - by rewrite String.eqb_refl.
  - destruct (String.eqb_spec k k') as [->|Hne]; cbn.
    + by rewrite String.eqb_refl.
    + apply String.eqb_neq in Hne. by rewrite Hne.
Qed.

Lemma assoc_set_assoc_ne k k' v fields :
  k' <> k -> assoc k' (set_assoc k v fields) = assoc k' fields.
Proof.
  intros Hne. induction fields as [|[k0 v0] fields IH]; cbn.
  - apply String.eqb_neq in Hne. by rewrite Hne.
  - destruct (String.eqb_spec k k0) as [->|Hk]; cbn.
    + apply String.eqb_neq in Hne. by rewrite Hne.
    + by rewrite IH.
Qed.

Lemma set_assoc_twice k v1 v2 fields :
  set_assoc k v2 (set_assoc k v1 fields) = set_assoc k v2 fields.
Proof.
  induction fields as [|[k0 v0] fields IH]; cbn.
  - by rewrite String.eqb_refl.
  - destruct (String.eqb_spec k k0) as [->|Hk]; cbn.
    + by rewrite String.eqb_refl.
    + apply String.eqb_neq in Hk. by rewrite Hk, IH.
Qed.

(** X6.  Storing a result under [$.k] of the state: the result is read
    back at [$.k], every path under another key reads as before, and a
    second result stored under the same key replaces the first (so the
    outputs of an earlier round are overwritten by the next).  It needs
    the state to be an object. *)
Theorem result_path_round_trip (k : string) (v d d' : jvalue) :
  set_result k v d = Some d' ->
  path_get [k] d' = Some v /\
  (forall k' rest, k' <> k -> path_get (k' :: rest) d' = path_get (k' :: rest) d) /\
  (forall v2, set_result k v2 d' = set_result k v2 d).
Proof.
  destruct d as [| | | | |fields]; try discriminate. cbn [set_result].
  intros [= <-]. split; [|split].
  - cbn. by rewrite assoc_set_assoc_eq.
  - intros k' rest Hne. cbn. by rewrite assoc_set_assoc_ne.
  - intros v2. cbn. by rewrite set_assoc_twice.
Qed.

(** The Tester's answer of a second round stored over the first. *)
Lemma result_path_round_trip_witness :
  let d := after_tester 3 200 (report false 1) in
  let v := stage_result 200 (report true 2) in
  exists d',
    set_result "tester_result" v d = Some d' /\
    path_get ["tester_result"] d' = Some v /\
    path_get ["build_id"] d' = Some (JStr "b-1").
Proof.
  cbv zeta. eexists. split; [reflexivity|].
  destruct (result_path_round_trip "tester_result"
              (stage_result 200 (report true 2))
              (after_tester 3 200 (report false 1)) _ eq_refl) as (Hget & Hother & _).
  split; [exact Hget|]. rewrite Hother by discriminate. reflexivity.
Defined.

(** A stage task whose function answers with a status code and a body
    goes on to its successor, the envelope stored under its result key. *)
Lemma stage_task_goes_on t next (env : Env) n fields p response sc b k :
  eval_template (JObj fields) JNull (payload t) = Some p ->
  resultSelector t = stage_selector ->
  resultPath t = Some k ->
  env n (lambdaFunction t) (JObj p) = Some response ->
  path_get ["statusCode"] response = Some sc ->
  path_get ["body"] response = Some b ->
  task t next env n (JObj fields) =
    ([Invoke (lambdaFunction t) (JObj p)],
     Goto next (JObj (set_assoc k (JObj [("statusCode", sc); ("body", b)]) fields))).
Proof.
  intros Hp Hsel Hk Henv Hsc Hb. unfold task, invoke.
  rewrite Hp, Henv, Hsel, Hk. cbn -[path_get].
  change (path_get ["Payload"; "statusCode"] (JObj [("Payload", response)]))
    with (path_get ["statusCode"] response).
  change (path_get ["Payload"; "body"] (JObj [("Payload", response)]))
    with (path_get ["body"] response).
  by rewrite Hsc, Hb.
Qed.

(** X5.  The envelopes of the Scout and of the Architect are stored and
    never looked at: whatever status code the stage reports, 500
    included, the execution goes on to the next state. *)
Theorem scout_architect_status_not_inspected (env : Env) (n : nat)
    (fields : list (string * jvalue)) (id tk md response sc b : jvalue) :
  assoc "build_id" fields = Some id ->
  assoc "task" fields = Some tk ->
  assoc "mode" fields = Some md ->
  path_get ["statusCode"] response = Some sc ->
  path_get ["body"] response = Some b ->
  (env n scoutFunction (JObj [("build_id", id); ("task", tk); ("mode", md)])
     = Some response ->
   step env n Scout (JObj fields) =
     ([Invoke scoutFunction (JObj [("build_id", id); ("task", tk); ("mode", md)])],
      Goto Architect
        (JObj (set_assoc "scout_result"
                 (JObj [("statusCode", sc); ("body", b)]) fields)))) /\
  (env n architectFunction (JObj [("build_id", id)]) = Some response ->
   step env n Architect (JObj fields) =
     ([Invoke architectFunction (JObj [("build_id", id)])],
      Goto PrepareParallelBuilders
        (JObj (set_assoc "architect_result"
                 (JObj [("statusCode", sc); ("body", b)]) fields)))).
Proof.
  intros Hid Htk Hmd Hsc Hb. split; intros Henv; cbn [step].
  - apply (stage_task_goes_on scoutTask Architect env n fields _ response sc b);
      try done.
    cbn. by rewrite Hid, Htk, Hmd.
  - apply (stage_task_goes_on architectTask PrepareParallelBuilders env n fields _
             response sc b); try done.
    cbn. by rewrite Hid.
Qed.

(** A Scout that reports status 500. *)
Lemma scout_architect_status_not_inspected_witness :
  exists d,
    step scout_reports_500 0 Scout (hello_input 3) =
      ([Invoke scoutFunction
          (JObj [("build_id", JStr "b-1"); ("task", JStr "Build a hello-world script");
                 ("mode", JStr "new_project")])],
       Goto Architect d) /\
    path_get ["scout_result"; "statusCode"] d = Some (JNum 500).
Proof.
  eexists. split.
  - refine (proj1 (scout_architect_status_not_inspected scout_reports_500 0
                     [("build_id", JStr "b-1");
                      ("task", JStr "Build a hello-world script");
                      ("mode", JStr "new_project"); ("max_iterations", JNum 3)]
                     (JStr "b-1") (JStr "Build a hello-world script") (JStr "new_project")
                     (stage_result 500 [("error", JStr "model unavailable")])
                     (JNum 500) (JObj [("error", JStr "model unavailable")])
                     eq_refl eq_refl eq_refl eq_refl eq_refl) eq_refl).
  - reflexivity.
Defined.

Lemma path_get_cons k rest fields :
  path_get (k :: rest) (JObj fields) =
    match assoc k fields with
    | Some v => path_get rest v
    | None => None
    end.
Proof. reflexivity. Qed.

Lemma path_get_is_object k rest d v :
  path_get (k :: rest) d = Some v -> exists fields, d = JObj fields.
Proof. destruct d; try discriminate. eauto. Qed.

(** *** The loop has no bound of its own *)

Lemma build_id_kept k v fields :
  k <> "build_id" ->
  is_Some (path_get ["build_id"] (JObj fields)) ->
  is_Some (path_get ["build_id"] (JObj (set_assoc k v fields))).
Proof.
  intros Hk. rewrite !RoundFacts.path_get_one. rewrite assoc_set_assoc_ne; [done | congruence].
Qed.

Lemma stage_step_in_loop (env : Env) n (t : LambdaInvoke) next fields k :
  keeps_failing env ->
  lambdaFunction t <> orchestratorFunction ->
  lambdaFunction t <> builderFunction ->
  is_Some (eval_template (JObj fields) JNull (payload t)) ->
  resultSelector t = stage_selector ->
  resultPath t = Some k ->
  exists r sc b,
    env n (lambdaFunction t)
      (JObj (default [] (eval_template (JObj fields) JNull (payload t)))) = Some r /\
    path_get ["statusCode"] r = Some sc /\
    path_get ["body"] r = Some b /\
    task t next env n (JObj fields) =
      ([Invoke (lambdaFunction t)
          (JObj (default [] (eval_template (JObj fields) JNull (payload t))))],
       Goto next (JObj (set_assoc k (JObj [("statusCode", sc); ("body", b)]) fields))).
Proof.
  intros Henv Hno Hnb [p Hp] Hsel Hk. rewrite Hp. cbn [default].
  destruct (Henv n (lambdaFunction t) (JObj p)) as (r & Hr & Hok).
  assert (Hsb : exists sc b, path_get ["statusCode"] r = Some sc /\
                             path_get ["body"] r = Some b).
  { destruct (lambdaFunction t); try done.
    - unfold stage_response_ok in Hok. repeat case_match; try done. eauto.
    - unfold stage_response_ok in Hok. repeat case_match; try done. eauto.
    - unfold tester_reports_failure in Hok.
      destruct (path_get ["statusCode"] r) as [sc|]; [|done].
      destruct (path_get_is_object "body" ["tests_passed"] r) with (v := JBool false)
        as [rf ->].
      { repeat case_match; try done. }
      rewrite path_get_cons in Hok. rewrite RoundFacts.path_get_one.
      destruct (assoc "body" rf) as [b|]; [eauto|]. repeat case_match; done.
    - unfold stage_response_ok in Hok. repeat case_match; try done. eauto. }
  destruct Hsb as (sc & b & Hsc & Hb).
  exists r, sc, b. split; [done|]. split; [done|]. split; [done|].
  by apply stage_task_goes_on with (response := r).
Qed.

Lemma loop_step env n s d :
  keeps_failing env ->
  in_loop s d ->
  exists ev s' d', step env n s d = (ev, Goto s' d') /\ in_loop s' d'.
Proof.
  intros Henv [Hid Hs].
  destruct Hid as [id Hid].
  destruct (path_get_is_object _ _ _ _ Hid) as [fields ->].
  assert (Hbid : is_Some (path_get ["build_id"] (JObj fields))) by eauto.
  rewrite RoundFacts.path_get_one in Hid.
  destruct s; try done; cbn [step].
  - (* Scout *)
    destruct Hs as [[tk Htk] [md Hmd]]. rewrite RoundFacts.path_get_one in Htk, Hmd.
    destruct (stage_step_in_loop env n scoutTask Architect fields "scout_result" Henv)
      as (r & sc & b & _ & _ & _ & ->); try done.
    { cbn. rewrite Hid, Htk, Hmd. eauto. }
    eexists _, _, _. split; [reflexivity|]. split; [|done]. by apply build_id_kept.
  - (* Architect *)
    destruct (stage_step_in_loop env n architectTask PrepareParallelBuilders fields
                "architect_result" Henv) as (r & sc & b & _ & _ & _ & ->); try done.
    { cbn. rewrite Hid. eauto. }
    eexists _, _, _. split; [reflexivity|]. split; [|done]. by apply build_id_kept.
  - (* PrepareParallelBuilders *)
    unfold task, invoke. cbn -[path_get]. rewrite RoundFacts.path_get_one, Hid.
    match goal with |- context [answer env n orchestratorFunction ?p] =>
      destruct (Henv n orchestratorFunction p) as (r & -> & Hok) end.
    unfold orchestrator_response_ok in Hok.
    change (path_get ["Payload"; "tasks"] (JObj [("Payload", r)]))
      with (path_get ["tasks"] r).
    change (path_get ["Payload"; "total_files"] (JObj [("Payload", r)]))
      with (path_get ["total_files"] r).
    destruct (path_get ["tasks"] r) as [[| | | |items|]|]; try done.
    destruct (path_get ["total_files"] r) as [total|]; [|done].
    eexists _, _, _. split; [reflexivity|]. split; [by apply build_id_kept|].
    exists items. split; [|done].
    unfold itemsPath. rewrite path_get_cons, assoc_set_assoc_eq. reflexivity.
  - (* ParallelBuilders *)
    destruct Hs as (items & Hitems & Hok).
    destruct (RoundFacts.iterations_ok env n fields id items Hid Hok)
      as (ev & outs & Hit & _).
    { intros m p. exact (Henv m builderFunction p). }
    rewrite Hitems, Hit. cbn [set_result].
    eexists _, _, _. split; [reflexivity|]. split; [|done]. by apply build_id_kept.
  - (* Tester *)
    destruct (stage_step_in_loop env n testerTask TestsPassedQ fields
                "tester_result" Henv) as (r & sc & b & Hr & Hsc & Hb & ->); try done.
    { cbn. rewrite Hid. eauto. }
    eexists _, _, _. split; [reflexivity|]. split; [by apply build_id_kept|].
    cbn [payload testerTask eval_template eval_field] in Hr.
    rewrite RoundFacts.path_get_one, Hid in Hr. cbn in Hr.
    destruct (Henv n testerFunction (JObj [("build_id", id)])) as (r' & Hr' & Hok).
    rewrite Hr in Hr'. injection Hr' as <-.
    unfold tester_reports_failure in Hok. rewrite Hsc in Hok.
    destruct (path_get_is_object _ _ _ _ Hb) as [rf ->].
    rewrite RoundFacts.path_get_one in Hb. rewrite !path_get_cons, Hb in Hok.
    destruct sc as [| |c| | |]; try done.
    destruct (path_get ["tests_passed"] b) as [[|[]| | | |]|] eqn:Hp; try done.
    destruct (path_get ["iteration"] b) as [[| |i| | |]|] eqn:Hi; try done.
    apply andb_prop in Hok as [->%Z.eqb_eq Hlt%Z.ltb_lt].
    exists i. rewrite !path_get_cons, assoc_set_assoc_eq.
    split; [reflexivity|]. split; [exact Hp|]. split; [exact Hi | exact Hlt].
  - (* TestsPassed? *)
    destruct Hs as (i & Hc & Hp & Hi & Hlt).
    unfold testsPassed, when, otherwise, and_, numberEquals, booleanEquals.
    rewrite Hc, Hp. cbn -[path_get].
    eexists _, _, _. split; [reflexivity|]. split; [done|]. eauto.
  - (* MaxIterationsReached? *)
    destruct Hs as (i & Hc & Hp & Hi & Hlt).
    unfold maxIterationsReached, when, otherwise, numberGreaterThanEquals.
    rewrite Hi. apply Z.leb_gt in Hlt as ->.
    eexists _, _, _. split; [reflexivity|]. split; [done|]. done.
Qed.

Lemma run_in_loop env :
  keeps_failing env ->
  forall fuel n s d, in_loop s d -> (run fuel env n s d).2 = Unfinished.
Proof.
  intros Henv. induction fuel as [|fuel IH]; intros n s d Hin; [done|].
  destruct (loop_step env n s d Henv Hin) as (ev & s' & d' & Hstep & Hin').
  cbn [run]. rewrite Hstep.
  specialize (IH (n + length ev)%nat s' d' Hin').
  by destruct (run fuel env (n + length ev) s' d').
Qed.

(** X9.  The loop has no bound of its own.  When every stage function
    answers and the Tester keeps answering with status 200, tests not
    passed and an iteration below 3, the execution never ends, however
    many states it is given: the machine counts nothing, the only exit is
    what the Tester reports (or the execution timeout). *)
Theorem loop_has_no_bound_of_its_own (env : Env) (input : jvalue) (fuel : nat) :
  keeps_failing env ->
  is_Some (path_get ["build_id"] input) ->
  is_Some (path_get ["task"] input) ->
  is_Some (path_get ["mode"] input) ->
  (execute fuel env input).2 = Unfinished.
Proof.
  intros Henv Hid Htk Hmd. by apply run_in_loop.
Qed.

(** A Tester stuck at iteration 1, with [max_iterations = 1]. *)
Lemma loop_has_no_bound_of_its_own_witness :
  (execute 1000 stuck_build (hello_input 1)).2 = Unfinished.
Proof.
  apply (loop_has_no_bound_of_its_own stuck_build (hello_input 1) 1000).
  - intros n fn p. destruct fn; eexists; split; reflexivity.
  - by eexists.
  - by eexists.
  - by eexists.
Defined.

End ExecutionFacts.

(** ** More on the lifecycle API: what is stored and what is left alone *)

Module StoreFacts.
Import Api Scenarios MoreScenarios.
Local Open Scope list_scope.

(** X11.  A task that is present but empty in Python's sense (null, the
    empty string, 0, false, an empty list or object) is refused like a
    missing one: 400, nothing stored, nothing started. *)
Theorem empty_task_rejected (req : gmap string jvalue) (v : jvalue)
    (build_id timestamp : string) (start : StartOutcome) (w : World) :
  req !! "task" = Some v ->
  v ∈ falsy ->
  start_build (Some req) build_id timestamp start w =
    Return {| statusCode := 400; body := BError "task is required" |} w.
Proof.
  intros Hv Hin. apply ApiFacts.start_build_rejects.
  unfold dict_get. rewrite Hv. cbn [default].
  unfold falsy in Hin. rewrite !elem_of_cons in Hin.
  destruct Hin as [->|[->|[->|[->|[->|[->|Hin]]]]]]; try reflexivity.
  by apply elem_of_nil in Hin.
Qed.

(** The empty string. *)
Lemma empty_task_rejected_witness :
  start_build (Some empty_task_request) "b-2" "2024-05-02T09:00:00"
    (StartOk "arn:b-2") (store_with "testing") =
    Return {| statusCode := 400; body := BError "task is required" |}
           (store_with "testing").
Proof.
  apply (empty_task_rejected empty_task_request (JStr "")).
  - reflexivity.
  - unfold falsy. rewrite !elem_of_cons. auto.
Defined.



(** X13.  [start_build] writes one record and no other: every other key
    of the table reads as before.  The write is unconditional: when the
    build id is already in the table, the stored item is replaced by the
    new one (it is not merged and the request is not refused).  A refused
    request changes nothing. *)
Theorem start_build_touches_one_record (req : gmap string jvalue)
    (build_id timestamp : string) (start : StartOutcome) (w : World)
    (r : Response) (w' : World) :
  start_build (Some req) build_id timestamp start w = Return r w' ->
  (forall k, k <> build_id -> table w' !! k = table w !! k) /\
  (statusCode r = 202 -> table w' !! build_id = Some (new_item req build_id timestamp)) /\
  (statusCode r = 400 -> w' = w).
Proof.
  intros Hs. destruct (truthy (dict_get req "task" JNull)) eqn:Ht.
  - destruct (put_accepted req build_id) eqn:Hp.
    + destruct start as [arn|e].
      * rewrite ApiFacts.start_build_started in Hs by done. injection Hs as <- <-.
        cbn [table statusCode]. split; [|split; [|done]].
        -- intros k Hk. by rewrite lookup_insert_ne.
        -- intros _. by rewrite lookup_insert_eq.
      * rewrite ApiFacts.start_build_start_failed in Hs by done. discriminate Hs.
    + rewrite ApiFacts.start_build_not_stored in Hs by done. discriminate Hs.
  - rewrite ApiFacts.start_build_rejects in Hs by done. injection Hs as <- <-.
    split; [done|]. split; [done|]. done.
Qed.

(** A second start under the id of a stored build. *)
Lemma start_build_touches_one_record_witness :
  exists r w',
    start_build (Some hello_request) "b-3" "2024-06-01T00:00:00" (StartOk "arn:b-3")
      three_builds = Return r w' /\
    table w' !! "b-1" = table three_builds !! "b-1" /\
    table w' !! "b-3" = Some (new_item hello_request "b-3" "2024-06-01T00:00:00").
Proof.
  eexists _, _. split; [reflexivity|].
  destruct (start_build_touches_one_record hello_request "b-3" "2024-06-01T00:00:00"
              (StartOk "arn:b-3") three_builds _ _ eq_refl) as (Hother & Hown & _).
  split; [apply Hother; discriminate | apply Hown; reflexivity].
Defined.

(** X14.  A status request right after a start request that stored its
    record finds it: 200 with the item, whose status is [initiated] and
    which has no [error] attribute, whether the execution was started
    (the start was answered 202) or not (it was answered 500: the update
    of the failure path is refused by the table and leaves the record as
    it was put). *)
Theorem status_after_start (req : gmap string jvalue) (build_id timestamp : string)
    (start : StartOutcome) (w : World) (r : Response) (w' : World) :
  lambda_handler (start_build (Some req) build_id timestamp start w) = (r, w') ->
  calls w' <> calls w ->
  exists item,
    get_build_status build_id w' = {| statusCode := 200; body := BItem item |} /\
    item !! "build_id" = Some (JStr build_id) /\
    item !! "created_at" = Some (JStr timestamp) /\
    item !! "status" = Some (JStr "initiated") /\
    item !! "error" = None /\
    match start with
    | StartOk _ => statusCode r = 202
    | StartRaises _ => statusCode r = 500 /\ body_build_id (body r) = None
    end.
Proof.
  intros Hs Hcalls.
  destruct (ApiFacts.new_item_lookups req build_id timestamp)
    as (Hid & Hst & _ & _ & _ & Hcr & _).
  assert (Herr : new_item req build_id timestamp !! "error" = None) by reflexivity.
  destruct (truthy (dict_get req "task" JNull)) eqn:Ht.
  - destruct (put_accepted req build_id) eqn:Hp.
    + exists (new_item req build_id timestamp).
      destruct start as [arn|e].
      * rewrite ApiFacts.start_build_started in Hs by done. injection Hs as <- <-.
        unfold get_build_status, get_item. cbn [table]. rewrite lookup_insert_eq.
        repeat split; done.
      * rewrite ApiFacts.start_build_start_failed in Hs by done. injection Hs as <- <-.
        unfold get_build_status, get_item. cbn [table]. rewrite lookup_insert_eq.
        repeat split; done.
    + rewrite ApiFacts.start_build_not_stored in Hs by done. injection Hs as <- <-.
      done.
  - rewrite ApiFacts.start_build_rejects in Hs by done. injection Hs as <- <-. done.
Qed.

(** A start whose execution cannot be started, then a status request. *)
Lemma status_after_start_witness :
  let '(r, w') :=
    lambda_handler (start_build (Some hello_request) "b-2" "2024-05-02T09:00:00"
                      (StartRaises "ExecutionLimitExceeded") empty_store) in
  exists item,
    get_build_status "b-2" w' = {| statusCode := 200; body := BItem item |} /\
    item !! "status" = Some (JStr "initiated") /\
    item !! "error" = None /\
    statusCode r = 500.
Proof.
  destruct (lambda_handler (start_build (Some hello_request) "b-2"
                              "2024-05-02T09:00:00"
                              (StartRaises "ExecutionLimitExceeded") empty_store))
    as [r w'] eqn:Hs.
  destruct (status_after_start hello_request "b-2" "2024-05-02T09:00:00"
              (StartRaises "ExecutionLimitExceeded") empty_store r w' Hs)
    as (item & Hget & _ & _ & Hst & Herr & Hcode & _).
  - injection Hs as _ <-. vm_compute. discriminate.
  - exists item. split; [exact Hget|]. split; [exact Hst|]. split; [exact Herr|].
    exact Hcode.
Defined.

(** *** cancel_build *)

(** X15.  [cancel_build] writes to the table only after a stop request
    that succeeded: every answer other than 200 leaves the table as it was,
    and a 200 is given only when the stop returned normally.  For an
    unknown build (404) and for a build the status check refuses, the stop
    request is not even made. *)
Theorem cancel_writes_only_after_stop (build_id region account now : string)
    (stop : StopOutcome) (w : World) (r : Response) (w' : World) :
  cancel_build build_id region account now stop w = (r, w') ->
  (statusCode r <> 200 -> table w' = table w) /\
  (statusCode r = 200 -> stop = StopOk) /\
  (statusCode r = 404 -> w' = w) /\
  (forall build,
     get_item build_id w = Some build ->
     already_finished (dict_get build "status" (JStr "unknown")) = true ->
     statusCode r = 400 /\ w' = w).
Proof.
  unfold cancel_build. rewrite ApiFacts.try_update_cancel. intros H.
  destruct (get_item build_id w) as [build|] eqn:Hget.
  - destruct (already_finished (dict_get build "status" (JStr "unknown"))) eqn:Hfin.
    + simplify_eq. repeat split; try done; intros b [= ->] ?; done.
    + assert (Hlast : forall b : Item,
                Some build = Some b ->
                already_finished (dict_get b "status" (JStr "unknown")) = true ->
                statusCode r = 400 /\ w' = w)
        by (intros b [= ->] Hb; congruence).
      destruct stop; simplify_eq; cbn [statusCode table update_item];
        (split; [|split; [|split; [|exact Hlast]]]); done.
  - simplify_eq. repeat split; done.
Qed.

(** A stop that raises. *)
Lemma cancel_writes_only_after_stop_witness :
  let '(r, w') :=
    cancel_build "b-1" "us-east-1" "123456789012" "2024-05-02T10:00:00"
      (StopRaises "AccessDenied") (store_with "testing") in
  statusCode r = 500 /\ table w' = table (store_with "testing").
Proof.
  destruct (cancel_build "b-1" "us-east-1" "123456789012" "2024-05-02T10:00:00"
              (StopRaises "AccessDenied") (store_with "testing")) as [r w'] eqn:Hc.
  destruct (cancel_writes_only_after_stop _ _ _ _ _ _ _ _ Hc) as (Hkeep & _).
  assert (Hcode : statusCode r = 500) by (by injection Hc as <- _).
  split; [exact Hcode|]. apply Hkeep. rewrite Hcode. discriminate.
Defined.

(** X16.  A successful cancellation sets [status] and [updated_at] of the
    one record and nothing else: its other attributes (task, stage
    outputs, [created_at]) and all other records are as before. *)
Theorem cancel_keeps_the_rest (build_id region account now : string) (w : World)
    (build : Item) :
  get_item build_id w = Some build ->
  already_finished (dict_get build "status" (JStr "unknown")) = false ->
  let w' := (cancel_build build_id region account now StopOk w).2 in
  (forall k, k <> build_id -> table w' !! k = table w !! k) /\
  exists build',
    table w' !! build_id = Some build' /\
    build' !! "status" = Some (JStr "cancelled") /\
    build' !! "updated_at" = Some (JStr now) /\
    (forall a, a <> "status" -> a <> "updated_at" -> build' !! a = build !! a).
Proof.
  intros Hget Hfin. unfold cancel_build.
  rewrite Hget, Hfin, ApiFacts.try_update_cancel. cbn [snd].
  unfold update_item. cbn [table]. unfold get_item in Hget. rewrite Hget. cbn [default].
  split.
  - intros k Hk. by rewrite lookup_insert_ne.
  - eexists. rewrite lookup_insert_eq. split; [reflexivity|]. cbn.
    split; [by rewrite lookup_insert_ne, lookup_insert_eq|].
    split; [by rewrite lookup_insert_eq|].
    intros a Hs Hu. by rewrite !lookup_insert_ne.
Qed.

(** Build [b-1] cancelled while testing. *)
Lemma cancel_keeps_the_rest_witness :
  let w' := (cancel_build "b-1" "us-east-1" "123456789012" "2024-05-02T10:00:00"
               StopOk (store_with "testing")).2 in
  exists build',
    table w' !! "b-1" = Some build' /\
    build' !! "status" = Some (JStr "cancelled") /\
    build' !! "created_at" = Some (JStr "2024-05-01T09:00:00").
Proof.
  destruct (cancel_keeps_the_rest "b-1" "us-east-1" "123456789012"
              "2024-05-02T10:00:00" (store_with "testing")
              (record "b-1" "testing" "2024-05-01T09:00:00" "2024-05-01T09:30:00")
              eq_refl eq_refl) as (_ & build' & Hb & Hst & _ & Hrest).
  exists build'. split; [exact Hb|]. split; [exact Hst|].
  rewrite Hrest by discriminate. reflexivity.
Defined.

(** X17.  Cancelling is not repeated: after a cancellation answered 200,
    any further cancel request for the build, whatever the stop request
    would do, is refused with 400 [Build is already in cancelled state]
    and changes nothing. *)
Theorem cancel_twice_is_refused (build_id region account now1 now2 : string)
    (stop2 : StopOutcome) (w : World) (r1 : Response) (w1 : World) :
  cancel_build build_id region account now1 StopOk w = (r1, w1) ->
  statusCode r1 = 200 ->
  cancel_build build_id region account now2 stop2 w1 =
    ({| statusCode := 400;
        body := BErrorMessage "Build cannot be cancelled"
                  "Build is already in cancelled state" |}, w1).
Proof.
  unfold cancel_build at 1. rewrite ApiFacts.try_update_cancel. intros H Hcode.
  destruct (get_item build_id w) as [build|] eqn:Hget; [|by simplify_eq].
  destruct (already_finished (dict_get build "status" (JStr "unknown"))) eqn:Hfin;
    [by simplify_eq|].
  injection H as <- <-.
  unfold cancel_build, get_item. rewrite ApiFacts.update_item_lookup.
  cbn [table]. unfold get_item in Hget. rewrite Hget. cbn.
  unfold dict_get. rewrite lookup_insert_ne by done. rewrite lookup_insert_eq.
  reflexivity.
Qed.

(** Build [b-1] cancelled twice. *)
Lemma cancel_twice_is_refused_witness :
  let w1 := (cancel_build "b-1" "us-east-1" "123456789012" "2024-05-02T10:00:00"
               StopOk (store_with "testing")).2 in
  cancel_build "b-1" "us-east-1" "123456789012" "2024-05-02T10:05:00"
    ExecutionDoesNotExist w1 =
    ({| statusCode := 400;
        body := BErrorMessage "Build cannot be cancelled"
                  "Build is already in cancelled state" |}, w1).
Proof.
  cbv zeta.
  eapply (cancel_twice_is_refused "b-1" "us-east-1" "123456789012"
            "2024-05-02T10:00:00" "2024-05-02T10:05:00" ExecutionDoesNotExist
            (store_with "testing")).
  - apply surjective_pairing.
  - reflexivity.
Defined.

(** *** list_builds *)

(** X18.  With a status filter, a build with that status (and a creation
    time) is left out of the answer only when 50 builds are returned and
    each of them was created at the same time or later: the answer is the
    latest 50, and all of them when there are fewer. *)
Theorem list_builds_returns_the_latest (status : string) (w : World) (k : string)
    (item : Item) :
  status <> "" ->
  table w !! k = Some item ->
  in_status_index status item = true ->
  exists builds count,
    list_builds (Some status) w = {| statusCode := 200; body := BBuilds builds count |} /\
    (item ∈ builds \/
     length builds = 50%nat /\ Forall (fun b => created_desc b item) builds).
Proof.
  intros Hne Hk Hidx. eexists _, _. split.
  { unfold list_builds. apply String.eqb_neq in Hne. rewrite Hne. reflexivity. }
  unfold query_status_index.
  set (sorted := merge_sort created_desc
                   (List.filter (in_status_index status) (map_to_list (table w)).*2)).
  assert (Hin : item ∈ sorted).
  { unfold sorted. rewrite merge_sort_Permutation.
    apply list_elem_of_In, filter_In. split; [|exact Hidx].
    apply list_elem_of_In, list_elem_of_fmap. exists (k, item).
    split; [done|]. by apply elem_of_map_to_list. }
  assert (Hsorted : StronglySorted created_desc (take Limit sorted ++ drop Limit sorted)).
  { rewrite take_drop. unfold sorted.
    apply (@StronglySorted_merge_sort _ created_desc _
             ApiFacts.created_desc_trans ApiFacts.created_desc_total). }
  rewrite <- (take_drop Limit sorted) in Hin.
  apply elem_of_app in Hin as [Hin|Hin]; [by left|right].
  split.
  - apply length_take_le.
    destruct (decide (Limit <= length sorted)%nat) as [|Hlt]; [done|].
    rewrite drop_ge in Hin by lia. by apply elem_of_nil in Hin.
  - apply Forall_forall. intros b Hb.
    by apply (StronglySorted_app_1_elem_of _ _ _ _ _ Hsorted).
Qed.

(** The failed build of [three_builds]. *)
Lemma list_builds_returns_the_latest_witness :
  exists builds count,
    list_builds (Some "failed") three_builds =
      {| statusCode := 200; body := BBuilds builds count |} /\
    (record "b-2" "failed" "2024-05-02T08:00:00" "2024-05-02T09:00:00" ∈ builds \/
     length builds = 50%nat /\
     Forall (fun b => created_desc b
                        (record "b-2" "failed" "2024-05-02T08:00:00" "2024-05-02T09:00:00"))
            builds).
Proof.
  apply (list_builds_returns_the_latest "failed" three_builds "b-2").
  - discriminate.
  - vm_compute. reflexivity.
  - vm_compute. reflexivity.
Defined.

(** X19.  Without a status filter (or with an empty one) the answer is a
    scan: at most 50 records of the table, with [count] their number, and
    all the records when the table holds 50 or fewer. *)
Theorem list_builds_scan (w : World) :
  list_builds (Some "") w = list_builds None w /\
  exists builds,
    list_builds None w = {| statusCode := 200; body := BBuilds builds (length builds) |} /\
    (length builds <= 50)%nat /\
    Forall (fun item => exists k, table w !! k = Some item) builds /\
    ((size (table w) <= 50)%nat ->
       builds = (map_to_list (table w)).*2 /\ length builds = size (table w)).
Proof.
  split; [reflexivity|]. exists (scan (table w)). split; [reflexivity|].
  unfold scan. split; [|split].
  - rewrite length_take. unfold Limit. lia.
  - apply Forall_forall. intros item Hin. apply (subseteq_take Limit) in Hin.
    apply list_elem_of_fmap in Hin as ([k v] & -> & Hkv).
    exists k. by apply elem_of_map_to_list.
  - intros Hsize.
    assert (Hlen : length (map_to_list (table w)).*2 = size (table w))
      by (by rewrite length_fmap, length_map_to_list).
    rewrite take_ge by (unfold Limit; lia). done.
Qed.

End StoreFacts.

(** ** The entry point: which request reaches which function *)

Module HandlerFacts.
Import Handler HandlerAux Scenarios.
Local Open Scope list_scope.

(** *** Splitting and searching paths *)

Lemma split_nonempty sep s : split sep s <> [].
Proof.
  destruct s as [|c s]; cbn [split]; [done|].
  destruct (Ascii.eqb c sep); [done|]. by destruct (split sep s).
Qed.

Lemma append_nil_l s : ("" ++ s)%string = s.
Proof. reflexivity. Qed.

Lemma append_cons c s1 s2 : (String c s1 ++ s2)%string = String c (s1 ++ s2)%string.
Proof. reflexivity. Qed.

Lemma split_app sep s1 s2 :
  split sep (s1 ++ String sep s2)%string = split sep s1 ++ split sep s2.
Proof.
  induction s1 as [|c s1 IH]; rewrite ?append_nil_l, ?append_cons; cbn [split app].
  - by rewrite Ascii.eqb_refl.
  - destruct (Ascii.eqb c sep); [by rewrite IH|].
    rewrite IH. destruct (split sep s1) eqn:Hs; [|done].
    by apply split_nonempty in Hs.
Qed.

Lemma split_no_sep sep s : occurs sep s = false -> split sep s = [s].
Proof.
  induction s as [|c s IH]; cbn [occurs split]; [done|].
  intros [Hc Hs]%orb_false_elim. rewrite Hc, IH; done.
Qed.

Lemma contains_app_l sub s1 s2 :
  contains sub s2 = true -> contains sub (s1 ++ s2)%string = true.
Proof.
  intros H. induction s1 as [|c s1 IH]; [done|].
  rewrite append_cons. cbn [contains]. rewrite IH. by destruct (String.prefix sub _).
Qed.

Lemma contains_no_first c sub s :
  occurs c s = false -> contains (String c sub) s = false.
Proof.
  induction s as [|c' s IH]; cbn [occurs contains String.prefix]; [done|].
  intros [Hc Hs]%orb_false_elim.
  destruct (ascii_dec c c') as [->|Hne].
  - by rewrite Ascii.eqb_refl in Hc.
  - rewrite IH by done. by destruct (ascii_dec c c').
Qed.

Lemma prefix_nil s : String.prefix "" s = true.
Proof. by destruct s. Qed.

Lemma startswith_build rest : startswith "/build/" ("/build/" ++ rest)%string = true.
Proof.
  unfold startswith. rewrite !append_cons, append_nil_l.
  cbn [String.prefix]. repeat (destruct (ascii_dec _ _); [|done]). apply prefix_nil.
Qed.

Lemma split_build_path id rest :
  occurs "/" id = false ->
  split "/" ("/build/" ++ id ++ String "/" rest)%string = ["" ; "build"; id] ++ split "/" rest.
Proof.
  intros Hid.
  change ("/build/" ++ id ++ String "/" rest)%string
    with ("/build" ++ String "/" (id ++ String "/" rest))%string.
  by rewrite !split_app, (split_no_sep _ _ Hid).
Qed.

Lemma split_status_path id :
  occurs "/" id = false -> split "/" ("/build/" ++ id)%string = ["" ; "build"; id].
Proof.
  intros Hid.
  change ("/build/" ++ id)%string with ("/build" ++ String "/" id)%string.
  by rewrite split_app, (split_no_sep _ _ Hid).
Qed.

Lemma routed_to_cancel id b q o w :
  occurs "/" id = false ->
  lambda_handler (mkEvent ("/build/" ++ id ++ "/cancel") "POST" b q) o w =
    match cancel_build (mkEvent ("/build/" ++ id ++ "/cancel") "POST" b q) o w with
    | Return r w' => (r, w')
    | Raise e w' => ({| statusCode := 500; rbody := Plain (Api.BError e) |}, w')
    end /\
  index_from_end 2 (split "/" ("/build/" ++ id ++ "/cancel")) = Some id.
Proof.
  intros Hid. unfold lambda_handler, dispatch. cbn [path httpMethod].
  assert (Hc : contains "/cancel" ("/build/" ++ id ++ "/cancel")%string = true).
  { apply (contains_app_l "/cancel" "/build/"), contains_app_l. reflexivity. }
  rewrite (split_build_path id "cancel" Hid).
  set (p := ("/build/" ++ id ++ "/cancel")%string) in *.
  assert (String.eqb p "/builds" = false) as -> by reflexivity.
  assert (String.eqb p "/build" = false) as -> by reflexivity.
  assert (startswith "/build/" p = true) as -> by apply startswith_build.
  rewrite Hc.
  assert (String.eqb "POST" "GET" = false) as -> by reflexivity.
  assert (String.eqb "POST" "POST" = true) as -> by reflexivity.
  cbn [andb]. split; reflexivity.
Qed.

(** X20.  A cancel request [POST /build/{id}/cancel] whose id has no
    slash and is a key the table accepts (it is not empty and has at most
    2048 bytes) reaches [cancel_build] with the id of the path: the
    answer and the new store are those of cancelling [id].  With another
    id (the empty one of [/build//cancel], say) the read of the record
    raises: the answer is 500 and nothing is changed. *)
Theorem cancel_route (id : string) (b : option (gmap string jvalue))
    (q : option string) (o : Oracle) (w : Api.World) :
  occurs "/" id = false ->
  (Api.valid_key id = true ->
   lambda_handler (mkEvent ("/build/" ++ id ++ "/cancel") "POST" b q) o w =
     (plain (Api.cancel_build id (AWS_REGION o) (AWS_ACCOUNT_ID o) (utcnow o)
               (stop_execution o) w).1,
      (Api.cancel_build id (AWS_REGION o) (AWS_ACCOUNT_ID o) (utcnow o)
         (stop_execution o) w).2)) /\
  (Api.valid_key id = false ->
   exists e,
     lambda_handler (mkEvent ("/build/" ++ id ++ "/cancel") "POST" b q) o w =
       ({| statusCode := 500; rbody := Plain (Api.BError e) |}, w)).
Proof.
  intros Hid. destruct (routed_to_cancel id b q o w Hid) as [-> Hidx].
  unfold cancel_build. cbn [path]. rewrite Hidx.
  split; intros ->; cbn [negb].
  - by destruct (Api.cancel_build id (AWS_REGION o) (AWS_ACCOUNT_ID o) (utcnow o)
                   (stop_execution o) w).
  - eexists. reflexivity.
Qed.

(** A cancel request for the stored build [b-1]. *)
Lemma cancel_route_witness :
  (lambda_handler (request "POST" "/build/b-1/cancel") an_oracle (store_with "testing")).1 =
    {| statusCode := 200;
       rbody := Plain (Api.BCancelled "b-1" "cancelled" "Build cancelled successfully") |}.
Proof.
  change (request "POST" "/build/b-1/cancel")
    with (mkEvent ("/build/" ++ "b-1" ++ "/cancel") "POST" None None).
  rewrite (proj1 (cancel_route "b-1" None None an_oracle (store_with "testing") eq_refl)
             eq_refl).
  reflexivity.
Defined.

(** A cancel request without an id. *)
Example cancel_without_id :
  (lambda_handler (request "POST" "/build//cancel") an_oracle (store_with "testing")) =
    ({| statusCode := 500; rbody := Plain (Api.BError "get_item: the key is refused") |},
     store_with "testing").
Proof. reflexivity. Qed.

Lemma contains_logs_plain_id id :
  plain_id id -> contains "/logs" ("/build/" ++ id)%string = false.
Proof.
  intros [Hslash Hlogs].
  rewrite !append_cons, append_nil_l.
  cbn [contains String.prefix].
  repeat match goal with
         | |- context [ascii_dec ?a ?b] => destruct (ascii_dec a b); try done
         end.
  rewrite Hlogs. destruct id as [|c id]; [done|].
  cbn [contains String.prefix occurs] in *.
  apply orb_false_elim in Hslash as [Hc Hs].
  destruct (ascii_dec "/" c) as [<-|_]; [done|].
  by apply contains_no_first.
Qed.

(** X22.  A status request [GET /build/{id}] reaches [get_build_status]
    with the id of the path, for every id that is a key the table accepts
    (not empty, at most 2048 bytes), has no slash and does not begin with
    [logs] (a path that contains [/logs] is taken for a logs request);
    the store is not changed.  [GET /build/], with the empty id, is
    answered 500: the read raises. *)
Theorem status_route (id : string) (b : option (gmap string jvalue))
    (q : option string) (o : Oracle) (w : Api.World) :
  plain_id id ->
  (Api.valid_key id = true ->
   lambda_handler (mkEvent ("/build/" ++ id) "GET" b q) o w =
     (plain (Api.get_build_status id w), w)) /\
  (Api.valid_key id = false ->
   exists e,
     lambda_handler (mkEvent ("/build/" ++ id) "GET" b q) o w =
       ({| statusCode := 500; rbody := Plain (Api.BError e) |}, w)).
Proof.
  intros Hid. unfold lambda_handler, dispatch. cbn [path httpMethod].
  rewrite (contains_logs_plain_id id Hid), startswith_build.
  destruct Hid as [Hslash _]. rewrite (split_status_path id Hslash).
  assert (String.eqb ("/build/" ++ id) "/builds" && String.eqb "GET" "GET" = false) as ->.
  { destruct id as [|c id]; [done|].
    rewrite !append_cons, append_nil_l. cbn [String.eqb].
    cbn [occurs] in Hslash. apply orb_false_elim in Hslash as [Hc _].
    assert (Ascii.eqb "/" "s" = false) as E by reflexivity.
    repeat (rewrite Ascii.eqb_refl; cbn [andb]). by rewrite E. }
  assert (String.eqb "GET" "POST" = false) as -> by reflexivity.
  assert (String.eqb "GET" "GET" = true) as -> by reflexivity.
  rewrite andb_false_r. cbn [andb List.last]. unfold get_build_status.
  split; intros ->; [reflexivity|]. eexists. reflexivity.
Qed.

(** A status request for the stored build [b-1]. *)
Lemma status_route_witness :
  lambda_handler (request "GET" "/build/b-1") an_oracle (store_with "testing") =
    (plain (Api.get_build_status "b-1" (store_with "testing")), store_with "testing").
Proof.
  change (request "GET" "/build/b-1")
    with (mkEvent ("/build/" ++ "b-1") "GET" None None).
  apply (proj1 (status_route "b-1" None None an_oracle (store_with "testing")
                  (conj eq_refl eq_refl)) eq_refl).
Defined.

(** X21.  A logs request [GET /build/{id}/logs] for an id without a slash
    that is a key the table accepts is answered from the record and from
    the object [{id}/test-output.log] of the logs bucket: 404
    [Build not found] when there is no record, whether or not a log
    exists; otherwise 200 with the log and the number of its characters
    (not of its bytes), 404 [Logs not found] when the object is missing,
    500 when reading or decoding it raises.  With another id the read of
    the record raises: 500.  The store is not changed. *)
Theorem logs_route (id : string) (b : option (gmap string jvalue))
    (q : option string) (o : Oracle) (w : Api.World) :
  occurs "/" id = false ->
  (Api.valid_key id = true ->
   lambda_handler (mkEvent ("/build/" ++ id ++ "/logs") "GET" b q) o w =
     (match Api.get_item id w with
      | None => {| statusCode := 404; rbody := Plain (Api.BError "Build not found") |}
      | Some _ =>
          match get_object o (id ++ "/test-output.log")%string with
          | S3Object log_content =>
              {| statusCode := 200;
                 rbody := BLogs id log_content (len log_content) |}
          | NoSuchKey =>
              {| statusCode := 404;
                 rbody := Plain (Api.BErrorMessage "Logs not found"
                                   "Build has not yet generated test logs") |}
          | S3Raises e =>
              {| statusCode := 500;
                 rbody := Plain (Api.BError ("Error retrieving logs: " ++ e)%string) |}
          end
      end, w)) /\
  (Api.valid_key id = false ->
   exists e,
     lambda_handler (mkEvent ("/build/" ++ id ++ "/logs") "GET" b q) o w =
       ({| statusCode := 500; rbody := Plain (Api.BError e) |}, w)).
Proof.
  intros Hid. unfold lambda_handler, dispatch. cbn [path httpMethod].
  set (p := ("/build/" ++ id ++ "/logs")%string) in *.
  assert (String.eqb p "/builds" = false) as -> by reflexivity.
  assert (String.eqb p "/build" = false) as -> by reflexivity.
  assert (startswith "/build/" p = true) as -> by apply startswith_build.
  assert (contains "/logs" p = true) as ->.
  { apply (contains_app_l "/logs" "/build/"), contains_app_l. reflexivity. }
  assert (String.eqb "GET" "GET" = true) as -> by reflexivity.
  cbn [andb]. unfold get_build_logs. cbn [path]. unfold p.
  rewrite (split_build_path id "logs" Hid).
  assert (index_from_end 2 (["" ; "build"; id] ++ split "/" "logs") = Some id)
    as -> by reflexivity.
  unfold log_key.
  split; intros ->; cbn [negb]; [|eexists; reflexivity].
  destruct (Api.get_item id w); [|done].
  by destruct (get_object o (id ++ "/test-output.log")%string).
Qed.

(** The log of the stored build [b-1]. *)
Lemma logs_route_witness :
  lambda_handler (request "GET" "/build/b-1/logs") an_oracle (store_with "testing") =
    ({| statusCode := 200; rbody := BLogs "b-1" "1 passed" 8 |}, store_with "testing").
Proof.
  change (request "GET" "/build/b-1/logs")
    with (mkEvent ("/build/" ++ "b-1" ++ "/logs") "GET" None None).
  rewrite (proj1 (logs_route "b-1" None None an_oracle (store_with "testing") eq_refl)
             eq_refl).
  reflexivity.
Defined.

(** A character of more than one byte counts once: [len] of the three
    bytes of a check mark followed by [ ok]. *)
Example len_counts_characters :
  len (String "226" (String "156" (String "147" " ok"))) = 4%nat /\
  String.length (String "226" (String "156" (String "147" " ok"))) = 6%nat.
Proof. split; reflexivity. Qed.

(** X23.  Only POST requests can change anything: for every request with
    another method, whatever its path, the store after the request is the
    store before it (no record written, no execution started or
    stopped). *)
Theorem only_post_changes_the_store (ev : Event) (o : Oracle) (w : Api.World) :
  httpMethod ev <> "POST" ->
  (lambda_handler ev o w).2 = w.
Proof.
  intros Hm. apply String.eqb_neq in Hm.
  unfold lambda_handler, dispatch. rewrite Hm, !andb_false_r. cbn [andb].
  destruct (String.eqb (path ev) "/builds" && String.eqb (httpMethod ev) "GET");
    [done|].
  destruct (startswith "/build/" (path ev) && String.eqb (httpMethod ev) "GET");
    [|done].
  destruct (contains "/logs" (path ev)).
  - unfold get_build_logs.
    destruct (index_from_end 2 (split "/" (path ev))) as [id|]; [|done].
    destruct (Api.valid_key id); [|done]. cbn [negb].
    destruct (Api.get_item id w); [|done].
    by destruct (get_object o (log_key id)).
  - unfold get_build_status. by destruct (Api.valid_key _).
Qed.

(** A DELETE on a build. *)
Lemma only_post_changes_the_store_witness :
  (lambda_handler (request "DELETE" "/build/b-1") an_oracle (store_with "testing")).2 =
    store_with "testing".
Proof.
  apply (only_post_changes_the_store (request "DELETE" "/build/b-1")).
  discriminate.
Defined.

(** *** The earlier handler *)

(** X24.  In the earlier handler no GET request outside [/build/...]
    is served: [GET /builds], the documented listing route, is answered
    404 there, and the listing is reached as [GET /build/list] instead.
    The orchestrated handler serves [GET /builds]. *)
Theorem draft_listing_route (ev : Event) (o : Oracle) (w : Api.World) :
  httpMethod ev = "GET" ->
  (startswith "/build/" (path ev) = false ->
   Draft.lambda_handler ev o w =
     ({| Draft.statusCode := 404;
         Draft.rbody := Draft.Plain (Api.BError "Not found") |}, w)) /\
  (path ev = "/build/list" ->
   Draft.lambda_handler ev o w =
     (Draft.plain (Api.list_builds (status_param ev) w), w)) /\
  (path ev = "/builds" ->
   lambda_handler ev o w = (plain (Api.list_builds (status_param ev) w), w)).
Proof.
  intros Hm. split; [|split].
  - intros Hp. unfold Draft.lambda_handler, Draft.dispatch. rewrite Hm, Hp.
    assert (String.eqb "GET" "POST" = false) as -> by reflexivity.
    by rewrite andb_false_r.
  - intros Hp. unfold Draft.lambda_handler, Draft.dispatch. rewrite Hm, Hp.
    reflexivity.
  - intros Hp. unfold lambda_handler, dispatch. rewrite Hm, Hp. reflexivity.
Qed.

(** [GET /builds] on the earlier handler. *)
Lemma draft_listing_route_witness :
  Draft.lambda_handler (request "GET" "/builds") an_oracle three_builds =
    ({| Draft.statusCode := 404;
        Draft.rbody := Draft.Plain (Api.BError "Not found") |}, three_builds).
Proof.
  apply (proj1 (draft_listing_route (request "GET" "/builds") an_oracle three_builds
                  eq_refl)).
  reflexivity.
Defined.

(** X25.  The earlier handler never starts or stops an execution and
    never updates a record: whatever the request, the calls it adds are at
    most one [put_item].  Its cancel route answers 501 and changes
    nothing, so a build stays in the status it was given. *)
Theorem draft_only_records (ev : Event) (o : Oracle) (w : Api.World) :
  (exists new,
     Api.calls (Draft.lambda_handler ev o w).2 = Api.calls w ++ new /\
     (length new <= 1)%nat /\
     Forall (fun c => exists item, c = Api.PutItem item) new) /\
  (httpMethod ev = "POST" ->
   startswith "/build/" (path ev) = true ->
   contains "/cancel" (path ev) = true ->
   Draft.lambda_handler ev o w =
     ({| Draft.statusCode := 501;
         Draft.rbody := Draft.BMessage "Not implemented yet" |}, w)).
Proof.
  split.
  - assert (Hsame : forall r : Draft.Response, exists new,
              Api.calls (r, w).2 = Api.calls w ++ new /\
              (length new <= 1)%nat /\
              Forall (fun c => exists item, c = Api.PutItem item) new).
    { intros r. exists []. rewrite app_nil_r. repeat split; [cbn; lia | constructor]. }
    unfold Draft.lambda_handler, Draft.dispatch.
    destruct (String.eqb (path ev) "/build" && String.eqb (httpMethod ev) "POST").
    + unfold Draft.start_build. destruct (body ev) as [req|]; [|apply Hsame].
      destruct (negb (truthy (dict_get req "task" JNull))); [apply Hsame|].
      unfold Api.try_put_item.
      destruct (Api.valid_key (uuid4 o) && _); [|apply Hsame].
      cbn [snd Api.put_item Api.calls]. eexists. split; [reflexivity|].
      split; [cbn; lia|]. repeat constructor. by eexists.
    + destruct (startswith "/build/" (path ev) && String.eqb (httpMethod ev) "GET").
      * destruct (String.eqb (List.last (split "/" (path ev)) "") "list"
                  || String.eqb (path ev) "/builds"); [apply Hsame|].
        destruct (contains "/logs" (path ev)); [apply Hsame|].
        unfold Draft.get_build_status. destruct (Api.valid_key _); apply Hsame.
      * destruct (startswith "/build/" (path ev) && String.eqb (httpMethod ev) "POST"
                  && contains "/cancel" (path ev)); apply Hsame.
  - intros Hm Hp Hc. unfold Draft.lambda_handler, Draft.dispatch.
    rewrite Hm, Hp, Hc.
    assert (String.eqb (path ev) "/build" = false) as ->.
    { destruct (String.eqb_spec (path ev) "/build") as [E|]; [|done].
      by rewrite E in Hp. }
    reflexivity.
Qed.

(** A cancel request on the earlier handler. *)
Lemma draft_only_records_witness :
  Draft.lambda_handler (request "POST" "/build/b-1/cancel") an_oracle
    (store_with "testing") =
    ({| Draft.statusCode := 501;
        Draft.rbody := Draft.BMessage "Not implemented yet" |}, store_with "testing").
Proof.
  apply (proj2 (draft_only_records (request "POST" "/build/b-1/cancel") an_oracle
                  (store_with "testing"))); reflexivity.
Defined.

End HandlerFacts.

(** ** What the stage functions are given *)

Module PayloadFacts.
Import Workflow WorkflowAux Scenarios MoreScenarios.
Local Open Scope list_scope.

Lemma eval_template_keys d item t :
  forall p, eval_template d item t = Some p -> p.*1 = t.*1.
Proof.
  induction t as [|[k f] t IH]; intros p H; cbn in H.
  - by simplify_eq.
  - destruct (eval_field d item f); [|done].
    destruct (eval_template d item t) as [vs|]; [|done].
    simplify_eq. cbn. f_equal. by apply IH.
Qed.

Lemma invoke_keys t env n d item ev out :
  invoke t env n d item = (ev, out) ->
  (payload t).*1 = payload_keys (lambdaFunction t) ->
  Forall well_keyed ev.
Proof.
  unfold invoke. intros H Hk.
  destruct (eval_template d item (payload t)) as [p|] eqn:Hp; simplify_eq; [|done].
  repeat constructor. exists p. split; [done|].
  rewrite <- Hk. by eapply eval_template_keys.
Qed.

Lemma iteration_payload_keys d item p :
  iteration_payload d item = Some p ->
  exists fs, p = JObj fs /\ fs.*1 = payload_keys builderFunction.
Proof.
  unfold iteration_payload.
  destruct (eval_template d item parameters) as [input|]; [|done].
  destruct (eval_template (JObj input) JNull (payload builderTask)) as [fs|] eqn:Hp;
    [|done].
  intros [= <-]. exists fs. split; [done|]. by apply eval_template_keys in Hp.
Qed.

Lemma iterations_keys (env : Env) n d items :
  Forall well_keyed (iterations env n d items).1.
Proof.
  unfold iterations. destruct (fan_out env n d items) as [rt res] eqn:Hr. cbn [fst].
  destruct (RoundFacts.fan_out_account _ _ _ _ _ _ Hr) as (_ & _ & Hpay & _).
  rewrite RoundFacts.invokes_dispatches. apply Forall_fmap, Forall_fmap.
  eapply Forall_impl; [exact Hpay|]. intros [i p] (item & _ & Hp). cbn in *.
  by apply iteration_payload_keys in Hp.
Qed.

Lemma step_keys (env : Env) n s d ev nx :
  step env n s d = (ev, nx) -> Forall well_keyed ev.
Proof.
  assert (Htask : forall t next,
            (payload t).*1 = payload_keys (lambdaFunction t) ->
            task t next env n d = (ev, nx) -> Forall well_keyed ev).
  { intros t next Hk Ht. unfold task in Ht.
    destruct (invoke t env n d JNull) as [ev' out] eqn:Hinv.
    assert (ev = ev') as -> by (destruct out; by simplify_eq).
    by eapply invoke_keys. }
  destruct s; cbn [step]; intros H; try (by simplify_eq);
    try (by eapply Htask; [|exact H]).
  destruct (path_get itemsPath d) as [[| | | |items|]|]; try (by simplify_eq).
  pose proof (iterations_keys env n d items) as Hit.
  destruct (iterations env n d items) as [ev' outs]. cbn [fst] in Hit.
  assert (ev = ev') as -> by (repeat case_match; by simplify_eq).
  done.
Qed.

(** X26.  Every stage function is always invoked with an object of the
    same keys: the Scout with [build_id, task, mode], the Architect and the
    Tester with [build_id] alone, the Splitter with [build_id, action], the
    Builder with [build_id, file_path, specification, language,
    parallel_mode], the Deployer with [build_id, test_result].  In
    particular [max_iterations] and the results of earlier stages are never
    passed to a stage. *)
Theorem payloads_have_fixed_keys (fuel : nat) (env : Env) (n : nat) (s : State)
    (d : jvalue) :
  Forall well_keyed (run fuel env n s d).1.
Proof.
  revert n s d. induction fuel as [|fuel IH]; intros n s d; [constructor|].
  destruct (run (S fuel) env n s d) as [tr o] eqn:Hrun.
  apply ExecutionFacts.run_inv in Hrun as (ev & nx & Hstep & Hnx).
  apply step_keys in Hstep.
  destruct nx as [s' d'| | |].
  - destruct Hnx as (evs & Hrest & ->). cbn [fst].
    constructor; [exact I|]. apply Forall_app. split; [done|].
    specialize (IH (n + length ev)%nat s' d'). by rewrite Hrest in IH.
  - destruct Hnx as [-> _]. by constructor.
  - destruct Hnx as [-> _]. by constructor.
  - destruct Hnx as [-> _]. by constructor.
Qed.

(** X27.  The execution started for a valid request begins with the Scout,
    invoked with the build id, the task and the mode of the request (the
    default mode when the request has none); [max_iterations] of the input
    is not part of it. *)
Theorem execution_begins_with_scout (req : gmap string jvalue) (build_id : string)
    (fuel : nat) (env : Env) :
  exists rest,
    (execute (S fuel) env (JObj (Api.new_input req build_id))).1 =
      Enter Scout ::
      Invoke scoutFunction
        (JObj [("build_id", JStr build_id);
               ("task", dict_get req "task" JNull);
               ("mode", dict_get req "mode" (JStr "new_project"))]) :: rest.
Proof.
  unfold execute, Api.new_input. cbn [run step]. unfold task, invoke.
  cbn [payload scoutTask eval_template eval_field path_get assoc String.eqb
       Ascii.eqb Bool.eqb lambdaFunction].
  destruct (match answer env 0%nat scoutFunction _ with Some _ => _ | None => _ end)
    as [d'|e].
  - destruct (run fuel env _ Architect d') as [evs o]. cbn. eauto.
  - cbn. eauto.
Qed.

End PayloadFacts.

(** ** The end-to-end script: its verdict *)

Module E2EFacts.
Import E2E.

Lemma poll_spec observe :
  forall remaining i STATUS,
    let '(STATUS', polls) := poll remaining observe i STATUS in
    (i <= polls <= i + remaining)%nat /\
    (final STATUS' = true ->
       final STATUS = true /\ polls = i /\ STATUS' = STATUS \/
       exists k, (i <= k < i + remaining)%nat /\ polls = S k /\ observe k = STATUS' /\
                 forall j, (i <= j < k)%nat -> final (observe j) = false) /\
    ((forall j, (i <= j < i + remaining)%nat -> final (observe j) = false) ->
       polls = (i + remaining)%nat /\
       STATUS' = match remaining with O => STATUS | S r => observe (i + r)%nat end).
Proof.
  induction remaining as [|remaining IH]; intros i STATUS; cbn [poll].
  - split; [lia|]. split.
    + intros Hf. left. done.
    + intros _. split; [lia | done].
  - destruct (final (observe i)) eqn:Hfi.
    + split; [lia|]. split.
      * intros _. right. exists i. split; [lia|]. split; [done|]. split; [done|].
        intros j Hj. lia.
      * intros Hall. rewrite Hall in Hfi by lia. done.
    + specialize (IH (S i) (observe i)).
      destruct (poll remaining observe (S i) (observe i)) as [STATUS' polls].
      destruct IH as (Hb & Hfin & Hnone). split; [lia|]. split.
      * intros Hf. right. destruct (Hfin Hf) as [(Hc & _ & _)|(k & Hk & -> & Hobs & Hbefore)].
        { congruence. }
        exists k. split; [lia|]. split; [done|]. split; [done|].
        intros j Hj. destruct (decide (j = i)) as [->|]; [done|]. apply Hbefore. lia.
      * intros Hall. destruct Hnone as [-> ->].
        { intros j Hj. apply Hall. lia. }
        split; [lia|]. destruct remaining as [|r]; [by rewrite Nat.add_0_r|].
        f_equal. lia.
Qed.

Lemma poll_first observe :
  forall remaining i STATUS k,
    (i <= k < i + remaining)%nat ->
    final (observe k) = true ->
    (forall j, (i <= j < k)%nat -> final (observe j) = false) ->
    poll remaining observe i STATUS = (observe k, S k).
Proof.
  induction remaining as [|remaining IH]; intros i STATUS k Hk Hf Hbefore; [lia|].
  cbn [poll]. destruct (decide (k = i)) as [->|Hne].
  - by rewrite Hf.
  - rewrite Hbefore by lia. apply IH; [lia | done |].
    intros j Hj. apply Hbefore. lia.
Qed.

(** X28.  The end-to-end script reports success exactly when the first
    status among its (at most 30) polls that is [passed] or [failed] is
    [passed].  It never polls more than 30 times, and a build that shows
    neither status within 30 polls (one that was cancelled, say) is polled
    30 times and reported as failed. *)
Theorem e2e_verdict (observe : nat -> string) :
  let '(code, polls) := test_e2e observe in
  (polls <= 30)%nat /\
  (code = 0 <->
     exists k, (k < 30)%nat /\ observe k = "passed" /\
               forall j, (j < k)%nat -> final (observe j) = false) /\
  ((forall j, (j < 30)%nat -> final (observe j) = false) ->
     code = 1 /\ polls = 30%nat).
Proof.
  unfold test_e2e. pose proof (poll_spec observe rounds 0%nat "") as H.
  destruct (poll rounds observe 0 "") as [STATUS polls] eqn:Hpoll.
  destruct H as (Hb & Hfin & Hnone). unfold rounds in *. cbn [Nat.add] in *.
  split; [lia|]. split; [split|].
  - intros Hcode. destruct (String.eqb_spec STATUS "passed") as [->|]; [|done].
    destruct (Hfin eq_refl) as [(Hc & _)|(k & Hk & _ & Hobs & Hbefore)]; [done|].
    exists k. split; [lia|]. split; [done|]. intros j Hj. apply Hbefore. lia.
  - intros (k & Hk & Hobs & Hbefore).
    rewrite (poll_first observe 30 0 "" k) in Hpoll.
    + injection Hpoll as <- <-. by rewrite Hobs.
    + lia.
    + by rewrite Hobs.
    + intros j Hj. apply Hbefore. lia.
  - intros Hall. destruct Hnone as [-> ->].
    { intros j Hj. apply Hall. lia. }
    split; [|done].
    specialize (Hall 29%nat ltac:(lia)). unfold final in Hall.
    apply orb_false_elim in Hall as [Hp _]. cbn [Nat.add]. by rewrite Hp.
Qed.

(** A build cancelled during its tests: 30 polls, then exit code 1. *)
Lemma e2e_verdict_cancelled :
  test_e2e cancelled_build = (1, 30%nat).
Proof. vm_compute. reflexivity. Qed.

End E2EFacts.
